(** * Little Movie Recommender: the hybrid scoring and ranking engine

    A shallow embedding of [recommender_history.py], [recommender_prefs.py],
    [hybrid_recommender.py] and the core of [app.py], followed by the
    properties of the engine.

    Conventions of the embedding.
    - A float64 cell is a [float]: [Some q] is the number [q], [None] is NaN.
      Arithmetic on numbers is exact rational arithmetic (no rounding, no
      overflow, no infinities), NaN propagates through every operation and
      every comparison with NaN is false, as in NumPy. An equation
      between two expressions over [float] says that they agree before
      rounding. A property whose truth turns on rounding or overflow is
      settled over IEEE 754 binary64 instead: [Module binary64] embeds the
      function a second time, on the standard library's [SpecFloat].
    - A Python [str] is the [string] with the same code points; the type
      holds the code points below 256, so text with other characters is
      outside the model.
    - A pandas [Series] is the list of its values in index order; every
      element-wise operation of the source acts on series of one frame, so
      alignment is positional.
    - The PostgreSQL store is a [Database] record; a query is a function on
      it. Where SQL leaves the row order open (no ORDER BY) the order of the
      stored list stands for the order the server happens to return.
    - Library functions that are not part of the repository
      ([sklearn.metrics.pairwise.cosine_similarity], [numpy.log1p], the
      builtin [float]) are parameters of the definitions that call them. *)

From Stdlib Require Import QArith Qminmax Qround Qpower Lqa Lia ZArith.
From Stdlib Require Import String Ascii List Permutation Sorted.
From Stdlib Require Floats.SpecFloat.
From stdpp Require Import gmap strings sorting.
Import ListNotations.

(** ** Floats with NaN *)

Definition float := option Q.

Definition NaN : float := None.

Definition isna {A} (x : option A) : bool :=
  match x with None => true | Some _ => false end.

Definition notna {A} (x : option A) : bool := negb (isna x).

Definition float_map2 (op : Q -> Q -> Q) (x y : float) : float :=
  match x, y with
  | Some a, Some b => Some (op a b)
  | _, _ => NaN
  end.

Definition fadd : float -> float -> float := float_map2 Qplus.
Definition fsub : float -> float -> float := float_map2 Qminus.
Definition fmul : float -> float -> float := float_map2 Qmult.

(** Division; the model has no infinities, so a zero divisor gives NaN. *)
Definition fdiv (x y : float) : float :=
  match x, y with
  | Some a, Some b => if Qeq_bool b 0 then NaN else Some (a / b)%Q
  | _, _ => NaN
  end.

Definition Qlt_bool (a b : Q) : bool := negb (Qle_bool b a).

(** [x > y], [x >= y] and [x == y] on floats: false as soon as one is NaN. *)
Definition fgt (x y : float) : bool :=
  match x, y with Some a, Some b => Qlt_bool b a | _, _ => false end.

Definition fge (x y : float) : bool :=
  match x, y with Some a, Some b => Qle_bool b a | _, _ => false end.

Definition feqb (x y : float) : bool :=
  match x, y with Some a, Some b => Qeq_bool a b | _, _ => false end.

(** Equality of floats as values: the same number, or both NaN. *)
Definition feq (x y : float) : Prop :=
  match x, y with
  | Some a, Some b => (a == b)%Q
  | None, None => True
  | _, _ => False
  end.

(** ** The pandas operations the sources use *)

Module pd.

Definition Series := list float.

(** [Series.min()], [Series.max()]: NaN cells are skipped, NaN when no
    number is left. *)
Definition nan_fold (op : Q -> Q -> Q) (acc x : float) : float :=
  match acc, x with
  | None, _ => x
  | _, None => acc
  | Some a, Some b => Some (op a b)
  end.

Definition min (s : Series) : float := fold_left (nan_fold Qmin) s NaN.
Definition max (s : Series) : float := fold_left (nan_fold Qmax) s NaN.

(** [Series.sum()] and [Series.mean()], NaN cells skipped; the sum and the
    quotient are exact. *)
Definition numbers (s : Series) : list Q := omap id s.

Definition Qsum (l : list Q) : Q := fold_left Qplus l 0%Q.

Definition mean (s : Series) : float :=
  match numbers s with
  | [] => NaN
  | qs => Some (Qsum qs / inject_Z (Z.of_nat (length qs)))%Q
  end.

Definition fillna (v : float) (s : Series) : Series :=
  map (fun x => match x with None => v | Some _ => x end) s.

(** [s[~mask] -= d]. *)
Definition sub_where_not (mask : list bool) (d : Q) (s : Series) : Series :=
  zip_with (fun (m : bool) x => if m then x else fsub x (Some d)) mask s.

(** Order of [sort_values(key, ascending=False)]: larger first, NaN last. *)
Definition desc (x y : float) : Prop :=
  match x, y with
  | Some a, Some b => (b <= a)%Q
  | _, None => True
  | None, Some _ => False
  end.

#[global] Instance desc_dec x y : Decision (desc x y).
Proof.
  destruct x as [a|], y as [b|]; simpl.
  - destruct (Qlt_le_dec a b) as [Hlt|Hle].
    + right. apply Qlt_not_le. exact Hlt.
    + left. exact Hle.
  - left. exact I.
  - right. intros [].
  - left. exact I.
Defined.

Definition desc_by {A} (key : A -> float) (r1 r2 : A) : Prop :=
  desc (key r1) (key r2).

#[global] Instance desc_by_dec {A} (key : A -> float) r1 r2 :
  Decision (desc_by key r1 r2).
Proof. unfold desc_by. apply _. Defined.

(** [df.sort_values(key, ascending=False)]: the rows in descending order
    of the key, NaN last. Rows with equal keys may come out in another
    order than pandas' quicksort gives them; equal keys are the only place
    where the two can differ, and no property below depends on the order
    of ties. *)
Definition sort_values_desc {A} (key : A -> float) (df : list A) : list A :=
  merge_sort (desc_by key) df.

(** [df.head(n)]. *)
Definition head {A} (n : nat) (df : list A) : list A := take n df.

(** Sorted distinct labels, the axis order of [pivot_table] and of the keys
    of an outer [merge]. *)
Definition sorted_unique (l : list Z) : list Z :=
  merge_sort Z.le (remove_dups l).

(** [Index.get_loc]: position of a label, [None] when absent. *)
Fixpoint get_loc (labels : list Z) (key : Z) : option nat :=
  match labels with
  | [] => None
  | l :: rest =>
      if Z.eqb l key then Some 0%nat
      else option_map S (get_loc rest key)
  end.

(** A frame of one dtype: row labels, column labels, row-major values. *)
Record Matrix (A : Type) := mkMatrix {
  index : list Z;
  columns : list Z;
  values : list (list A)
}.
Arguments mkMatrix {A}.
Arguments index {A}.
Arguments columns {A}.
Arguments values {A}.

(** [df.loc[key]]: the row labelled [key], [None] for a KeyError. *)
Definition loc {A} (df : Matrix A) (key : Z) : option (list A) :=
  match get_loc (index df) key with
  | None => None
  | Some i => values df !! i
  end.

(** [df.T.values]: one list per column. *)
Definition transpose (df : Matrix Q) : list (list Q) :=
  map (fun j => map (fun row => nth j row 0%Q) (values df))
      (seq 0 (length (columns df))).

End pd.

(** ** The store *)

(** A row of table [ratings] (user_id, movie_id, rating; the timestamp is
    never read by the engine). *)
Record Rating := mkRating {
  r_user_id : Z;
  r_movie_id : Z;
  r_rating : Q
}.

(** The seven genre indicator columns. *)
Inductive GenreCol :=
| is_action | is_comedy | is_drama | is_horror | is_romance | is_scifi
| is_animation.

#[global] Instance GenreCol_eq_dec : EqDecision GenreCol.
Proof. solve_decision. Defined.

Record GenreFlags := mkFlags {
  fl_action : bool; fl_comedy : bool; fl_drama : bool; fl_horror : bool;
  fl_romance : bool; fl_scifi : bool; fl_animation : bool
}.

(** [row[col]] for a genre column. *)
Definition flag (col : GenreCol) (g : GenreFlags) : bool :=
  match col with
  | is_action => fl_action g
  | is_comedy => fl_comedy g
  | is_drama => fl_drama g
  | is_horror => fl_horror g
  | is_romance => fl_romance g
  | is_scifi => fl_scifi g
  | is_animation => fl_animation g
  end.

(** Modelled from the spec: the views [movie_features] and
    [movie_features_with_links] are created outside the repository's
    sources. A row is an item of section 3 of the specification: integer
    id, title, genre text, boolean genre flags, release year, aggregate
    average rating and rating count, and the optional external identifier
    (always absent in [movie_features]). Year, average and identifier can be
    NULL. *)
Record FeatureRow := mkFeature {
  f_movie_id : Z;
  f_title : string;
  f_genres : string;
  f_year : option Z;
  f_avg_rating : float;
  f_num_ratings : Z;
  f_flags : GenreFlags;
  f_tmdb_id : option Z
}.

Record Database := mkDatabase {
  ratings : list Rating;
  movie_features : list FeatureRow;
  movie_features_with_links : list FeatureRow
}.

(** ** Exceptions *)

Inductive Message :=
| user_has_no_ratings (user_id : Z)
    (* f"user_id {user_id} has no ratings" *)
| not_enough_overlapping_data
    (* "Not enough overlapping data to build local matrix" *)
| no_positive_scored_movies
    (* "No positive scored movies found for this user" *)
| no_candidates_left
    (* "No candidates left after min_ratings filter" *)
| could_not_convert_to_float (s : string).
    (* raised by the builtin float() *)

Inductive Exception :=
| ValueError (msg : Message)
| KeyError_label (key : Z)        (* a row label missing from an index *)
| KeyError_key (key : string).    (* a key missing from a dict *)

Definition Result (A : Type) : Type := Exception + A.

Definition raise {A} (e : Exception) : Result A := inl e.

#[global] Instance Result_ret : MRet Result := fun A x => inr x.

#[global] Instance Result_bind : MBind Result :=
  fun A B (k : A -> Result B) (c : Result A) =>
    match c with
    | inl e => inl e
    | inr a => k a
    end.

Definition raised {A} (c : Result A) : Prop :=
  match c with inl _ => True | inr _ => False end.

Definition returned {A} (c : Result A) : Prop :=
  match c with inl _ => False | inr _ => True end.

(** ** recommender_history.py *)

Module recommender_history.

Section history.

(** [sklearn.metrics.pairwise.cosine_similarity(X)], read by position:
    [cosine_similarity X a b] is entry (a, b) of the returned array. *)
Variable cosine_similarity : list (list Q) -> nat -> nat -> Q.

(** SELECT movie_id, rating FROM ratings WHERE user_id = %s *)
Definition select_user_ratings (db : Database) (user_id : Z)
  : list (Z * Q) :=
  map (fun r => (r_movie_id r, r_rating r))
      (List.filter (fun r => Z.eqb (r_user_id r) user_id) (ratings db)).

(** SELECT DISTINCT user_id FROM ratings
    WHERE movie_id IN (rated_ids) AND user_id <> %s LIMIT max_neighbors *)
Definition select_neighbors (db : Database) (rated_ids : list Z)
    (user_id : Z) (max_neighbors : nat) : list Z :=
  take max_neighbors
    (remove_dups
       (map r_user_id
          (List.filter
             (fun r => bool_decide (r_movie_id r ∈ rated_ids)
                       && negb (Z.eqb (r_user_id r) user_id))
             (ratings db)))).

(** SELECT user_id, movie_id, rating FROM ratings WHERE user_id IN (...) *)
Definition select_ratings_of (db : Database) (users : list Z)
  : list Rating :=
  List.filter (fun r => bool_decide (r_user_id r ∈ users)) (ratings db).

(** [ratings_local["movie_id"].value_counts()], read at one movie. *)
Definition value_counts (rs : list Rating) (movie_id : Z) : nat :=
  length (List.filter (fun r => Z.eqb (r_movie_id r) movie_id) rs).

(** Lines 68-71: keep the movies with enough ratings within the subset. *)
Definition keep_popular (min_movie_ratings : nat) (ratings_local : list Rating)
  : list Rating :=
  List.filter
    (fun r => Nat.leb min_movie_ratings
                (value_counts ratings_local (r_movie_id r)))
    ratings_local.

(** [pivot_table(index="user_id", columns="movie_id", values="rating")]:
    sorted axes, the mean of the ratings of a (user, movie) cell, NaN for
    a cell without rating. *)
Definition pivot_table (rs : list Rating) : pd.Matrix float :=
  let idx := pd.sorted_unique (map r_user_id rs) in
  let cols := pd.sorted_unique (map r_movie_id rs) in
  pd.mkMatrix idx cols
    (map (fun u =>
            map (fun m =>
                   pd.mean
                     (map (fun r => Some (r_rating r))
                        (List.filter
                           (fun r => Z.eqb (r_user_id r) u
                                     && Z.eqb (r_movie_id r) m) rs)))
                cols)
         idx).

(** [rating_matrix.fillna(0)]. *)
Definition fillna0 (m : pd.Matrix float) : pd.Matrix Q :=
  pd.mkMatrix (pd.index m) (pd.columns m)
    (map (map (fun x : float => default 0%Q x)) (pd.values m)).

(** Lines 68-71 applied to the ratings of the target user and its
    neighbours: the locally support-filtered rating set. *)
Definition local_ratings (db : Database) (user_id : Z)
    (max_neighbors min_movie_ratings : nat) : list Rating :=
  let rated_ids := map fst (select_user_ratings db user_id) in
  let neighbor_ids := select_neighbors db rated_ids user_id max_neighbors in
  let all_users := neighbor_ids ++ [user_id] in
  let all_users := match all_users with [] => [user_id] | _ => all_users end in
  keep_popular min_movie_ratings (select_ratings_of db all_users).

Definition _build_local_matrix (db : Database) (user_id : Z)
    (max_neighbors min_movie_ratings : nat)
  : Result (pd.Matrix float * pd.Matrix Q) :=
  let user_ratings := select_user_ratings db user_id in
  match user_ratings with
  | [] => raise (ValueError (user_has_no_ratings user_id))
  | _ =>
    let ratings_local :=
      local_ratings db user_id max_neighbors min_movie_ratings in
    match ratings_local with
    | [] => raise (ValueError not_enough_overlapping_data)
    | _ =>
      let rating_matrix := pivot_table ratings_local in
      let rating_matrix_filled := fillna0 rating_matrix in
      inr (rating_matrix, rating_matrix_filled)
    end
  end.

(** [user_ratings.dropna()] with its labels. *)
Definition dropna (labels : list Z) (row : list float) : list (Z * Q) :=
  omap (fun '(m, x) => match x : float with
                       | Some q => Some (m, q)
                       | None => None
                       end)
       (zip labels row).

(** [sim_df[movie_id]]: the column of [sim_df] labelled [movie_id], a series
    over [movie_ids]; [None] when [movie_id not in sim_df.columns]. *)
Definition sim_column (movie_ids : list Z) (sim_matrix : nat -> nat -> Q)
    (movie_id : Z) : option (list Q) :=
  match pd.get_loc movie_ids movie_id with
  | None => None
  | Some p =>
      Some (map (fun a => sim_matrix a p) (seq 0 (length movie_ids)))
  end.

(** Lines 112-120: scores start at zero for all movies of the local set,
    then every rated movie spreads its rating delta over its column. *)
Definition spread (movie_ids : list Z) (sim_matrix : nat -> nat -> Q)
    (rated : list (Z * Q)) : list Q :=
  fold_left
    (fun scores '(movie_id, rating) =>
       let rating_delta := (rating - 3.0)%Q in
       match sim_column movie_ids sim_matrix movie_id with
       | None => scores
       | Some col =>
           zip_with Qplus scores (map (fun s => s * rating_delta)%Q col)
       end)
    rated
    (map (fun _ => 0.0%Q) movie_ids).

(** Lines 112-127: spread, drop the movies already seen, keep only
    positive scores. *)
Definition positive_scores (movie_ids : list Z)
    (sim_matrix : nat -> nat -> Q) (rated : list (Z * Q)) : list (Z * Q) :=
  let scores := zip movie_ids (spread movie_ids sim_matrix rated) in
  let rated_movie_ids := map fst rated in
  let scores :=
    List.filter (fun '(m, _) => negb (bool_decide (m ∈ rated_movie_ids)))
                scores in
  List.filter (fun '(_, s) => Qlt_bool 0 s) scores.

(** A row of the frame [recommend_from_history] returns. *)
Record HistRow := mkHistRow {
  h_movie_id : Z;
  h_title : string;
  h_genres : string;
  h_score : Q;
  h_avg_rating : float;
  h_num_ratings : Z
}.

(** [score_df.join(movie_stats, how="inner")] on the movie id. *)
Definition join_stats (score_df : list (Z * Q)) (movie_stats : list FeatureRow)
  : list HistRow :=
  flat_map
    (fun '(m, s) =>
       map (fun f => mkHistRow m (f_title f) (f_genres f) s
                       (f_avg_rating f) (f_num_ratings f))
           (List.filter (fun f => Z.eqb (f_movie_id f) m) movie_stats))
    score_df.

Definition recommend_from_history (db : Database) (user_id : Z)
    (top_n : nat) (min_ratings : Z) : Result (list HistRow) :=
  '(rating_matrix, rating_matrix_filled) ←
     _build_local_matrix db user_id 3000 5;
   let movie_ids := pd.columns rating_matrix_filled in
   let sim_matrix := cosine_similarity (pd.transpose rating_matrix_filled) in
   match pd.loc rating_matrix user_id with
   | None => raise (KeyError_label user_id)
   | Some user_ratings =>
     let rated := dropna (pd.columns rating_matrix) user_ratings in
     match rated with
     | [] => raise (ValueError (user_has_no_ratings user_id))
     | _ =>
       let score_df := positive_scores movie_ids sim_matrix rated in
       match score_df with
       | [] => raise (ValueError no_positive_scored_movies)
       | _ =>
         let movie_stats := movie_features_with_links db in
         let score_df := join_stats score_df movie_stats in
         let score_df :=
           List.filter (fun h => Z.leb min_ratings (h_num_ratings h))
                       score_df in
         match score_df with
         | [] => raise (ValueError no_candidates_left)
         | _ =>
           let score_df :=
             pd.head top_n
               (pd.sort_values_desc (fun h => Some (h_score h)) score_df) in
           mret score_df
         end
       end
     end
   end.

End history.

End recommender_history.

(** ** Candidates *)

(** A row of the frame both [load_candidates] return: the view's row with
    the year and the average rating imputed. *)
Record Candidate := mkCandidate {
  c_movie_id : Z;
  c_title : string;
  c_genres : string;
  c_year : Z;
  c_avg_rating : float;
  c_num_ratings : Z;
  c_flags : GenreFlags;
  c_tmdb_id : option Z
}.

(** The body shared by [recommender_prefs.load_candidates] and
    [app.load_candidates], which differ only in the view they read:
    minimum support 10, missing averages replaced by the mean of the
    averages that are left, missing years by 1900. *)
Definition load_rows (view : list FeatureRow) : list Candidate :=
  let df := List.filter (fun f => Z.leb 10 (f_num_ratings f)) view in
  let avg_mean := pd.mean (map f_avg_rating df) in
  map (fun f =>
         mkCandidate (f_movie_id f) (f_title f) (f_genres f)
           (default 1900%Z (f_year f))
           (match f_avg_rating f with None => avg_mean | Some q => Some q end)
           (f_num_ratings f) (f_flags f) (f_tmdb_id f))
      df.

(** The preference profile: the dict [prefs]. [genre_weights] is a dict in
    insertion order; its keys are always among the seven genre columns of
    the view, so [col in df.columns] holds for each of them. *)
Record Prefs := mkPrefs {
  genre_weights : list (GenreCol * Q);
  year_min : Z;
  popularity_pref : string
}.

(** [d[key] = v] on a dict held in insertion order. *)
Fixpoint dict_set {K V} `{EqDecision K} (d : list (K * V)) (key : K) (v : V)
  : list (K * V) :=
  match d with
  | [] => [(key, v)]
  | (k, w) :: rest =>
      if decide (k = key) then (k, v) :: rest
      else (k, w) :: dict_set rest key v
  end.

(** [d.get(key)]. *)
Fixpoint dict_get {K V} `{EqDecision K} (d : list (K * V)) (key : K)
  : option V :=
  match d with
  | [] => None
  | (k, w) :: rest => if decide (k = key) then Some w else dict_get rest key
  end.

(** [{col: 0.0 for col in ...}] over the seven columns, in their order. *)
Definition zero_weights : list (GenreCol * Q) :=
  map (fun col => (col, 0.0%Q))
      [is_action; is_comedy; is_drama; is_horror; is_romance; is_scifi;
       is_animation].

(** ** recommender_prefs.py *)

Module recommender_prefs.

(** [str.split(sep)] for a one-character separator. *)
Fixpoint split (sep : ascii) (s : string) : list string :=
  match s with
  | EmptyString => [EmptyString]
  | String c rest =>
      if Ascii.eqb c sep then EmptyString :: split sep rest
      else match split sep rest with
           | [] => [String c EmptyString]
           | w :: ws => String c w :: ws
           end
  end.

(** [str.isspace] on one character below U+0100: the white space
    [str.strip()] removes there is U+0009 to U+000D, U+001C to U+0020,
    U+0085 and U+00A0. *)
Definition is_space (c : ascii) : bool :=
  let n := nat_of_ascii c in
  ((9 <=? n) && (n <=? 13) || (28 <=? n) && (n <=? 32)
   || (n =? 133) || (n =? 160))%nat.

Fixpoint lstrip (s : string) : string :=
  match s with
  | EmptyString => EmptyString
  | String c rest => if is_space c then lstrip rest else s
  end.

Fixpoint rstrip (s : string) : string :=
  match s with
  | EmptyString => EmptyString
  | String c rest =>
      match rstrip rest with
      | EmptyString => if is_space c then EmptyString else String c EmptyString
      | rest' => String c rest'
      end
  end.

(** [str.strip()]. *)
Definition strip (s : string) : string := rstrip (lstrip s).

Definition id_to_col : list (string * GenreCol) :=
  [("1", is_action); ("2", is_comedy); ("3", is_drama); ("4", is_horror);
   ("5", is_romance); ("6", is_scifi); ("7", is_animation)].

(** The three lines [ask_preferences] reads from the terminal. *)
Record Answers := mkAnswers {
  ans_genres : string;
  ans_year : string;
  ans_popularity : string
}.

Definition ask_preferences (stdin : Answers) : Prefs :=
  let raw := ans_genres stdin in
  let picks :=
    map strip
        (List.filter (fun p => negb (String.eqb (strip p) ""))
                     (split "," raw)) in
  let genre_weights :=
    fold_left
      (fun gw p =>
         match dict_get id_to_col p with
         | Some col => dict_set gw col 2.0%Q
         | None => gw
         end)
      picks zero_weights in
  let yr_choice := strip (ans_year stdin) in
  let year_min :=
    if String.eqb yr_choice "1" then 2000%Z
    else if String.eqb yr_choice "2" then 1980%Z
    else 1900%Z in
  let pop_choice := strip (ans_popularity stdin) in
  let popularity_pref :=
    if String.eqb pop_choice "1" then "popular"
    else if String.eqb pop_choice "3" then "hidden"
    else "mixed" in
  mkPrefs genre_weights year_min popularity_pref.

Definition load_candidates (db : Database) : list Candidate :=
  load_rows (movie_features db).

Section prefs.

(** [numpy.log1p] on one number. *)
Variable log1p : Q -> Q.

(** [df[col].astype(int) * weight] at one row. *)
Definition boost (col : GenreCol) (weight : Q) (c : Candidate) : float :=
  Some (inject_Z (Z.b2z (flag col (c_flags c))) * weight)%Q.

(** Lines 75-81: the loop over [prefs["genre_weights"].items()]. *)
Definition genre_boosts (df : list Candidate) (weights : list (GenreCol * Q))
    (scores : pd.Series) : list GenreCol * pd.Series :=
  fold_left
    (fun '(selected_cols, scores) '(col, weight) =>
       if negb (Qeq_bool weight 0) then
         (selected_cols ++ [col],
          zip_with fadd scores (map (boost col weight) df))
       else (selected_cols, scores))
    weights ([], scores).

(** [df[selected_cols].sum(axis=1) > 0] at one row. *)
Definition genre_match (selected_cols : list GenreCol) (c : Candidate)
  : bool :=
  Z.ltb 0
    (fold_left Z.add
       (map (fun col => Z.b2z (flag col (c_flags c))) selected_cols) 0%Z).

Definition log_pop (df : list Candidate) : pd.Series :=
  map (fun c => Some (log1p (inject_Z (c_num_ratings c)))) df.

Definition score_by_preferences (df : list Candidate) (prefs : Prefs)
  : pd.Series :=
  let scores := map c_avg_rating df in
  (* genre boosts *)
  let '(selected_cols, scores) :=
    genre_boosts df (genre_weights prefs) scores in
  (* penalize movies that do NOT match any selected genre *)
  let scores :=
    match selected_cols with
    | [] => scores
    | _ => pd.sub_where_not (map (genre_match selected_cols) df) 3.0 scores
    end in
  (* year filter and slight penalty for older than chosen *)
  let mask_year := map (fun c => Z.leb (year_min prefs) (c_year c)) df in
  let scores := pd.sub_where_not mask_year 2.0 scores in
  (* popularity shaping with hidden gem reinforcement *)
  let pop := map (fun c => inject_Z (c_num_ratings c)) df in
  let pop_pref := popularity_pref prefs in
  if String.eqb pop_pref "popular" then
    zip_with fadd scores (log_pop df)
  else if String.eqb pop_pref "hidden" then
    let hidden_threshold := 500.0%Q in
    let rarity :=
      map (fun p => Qmax ((hidden_threshold - p) / hidden_threshold) 0.0)%Q
          pop in
    let scores :=
      zip_with fadd scores (map (fun r => Some (r * 3.0)%Q) rarity) in
    let lo := pd.min (log_pop df) in
    zip_with fsub scores
      (map (fun l => fmul (fsub l lo) (Some 0.2%Q)) (log_pop df))
  else
    let mu := pd.mean (log_pop df) in
    zip_with fadd scores
      (map (fun l => fmul (fsub l mu) (Some 0.3%Q)) (log_pop df)).

(** A row of the frame [recommend_from_preferences] returns. *)
Record PrefRow := mkPrefRow {
  p_movie_id : Z;
  p_title : string;
  p_genres : string;
  p_year : Z;
  p_avg_rating : float;
  p_num_ratings : Z;
  p_pref_score : float
}.

Definition recommend_from_preferences (db : Database) (prefs : Prefs)
    (top_n : nat) : list PrefRow :=
  let df := load_candidates db in
  let df := zip df (score_by_preferences df prefs) in
  let df := pd.head top_n (pd.sort_values_desc snd df) in
  map (fun '(c, s) =>
         mkPrefRow (c_movie_id c) (c_title c) (c_genres c) (c_year c)
           (c_avg_rating c) (c_num_ratings c) s)
      df.

End prefs.

End recommender_prefs.

(** ** Fusion, shared by hybrid_recommender.py and app.py *)

(** [alpha * pref_norm + (1.0 - alpha) * history_norm] at one row. *)
Definition final_score (alpha pref_norm history_norm : float) : float :=
  fadd (fmul alpha pref_norm) (fmul (fsub (Some 1.0%Q) alpha) history_norm).

(** ** hybrid_recommender.py *)

Module hybrid_recommender.

Import recommender_history recommender_prefs.

(** Normalize to 0 1 range. If constant, return zeros. *)
Definition min_max_normalize (series : pd.Series) : pd.Series :=
  let s := series in
  let s_min := pd.min s in
  let s_max := pd.max s in
  if isna s_min || isna s_max || feqb s_max s_min then
    map (fun _ => Some 0.0%Q) s
  else
    map (fun x => fdiv (fsub x s_min) (fsub s_max s_min)) s.

(** [pd.merge(hist_df, pref_df, on="movie_id", how="outer")]: the keys of
    both frames in sorted order, every left row of a key paired with every
    right row of that key, a missing side left empty. *)
Definition merge_outer (hist_df : list HistRow) (pref_df : list PrefRow)
  : list (Z * option HistRow * option PrefRow) :=
  let keys :=
    pd.sorted_unique (map h_movie_id hist_df ++ map p_movie_id pref_df) in
  flat_map
    (fun k =>
       let ls := List.filter (fun h => Z.eqb (h_movie_id h) k) hist_df in
       let rs := List.filter (fun p => Z.eqb (p_movie_id p) k) pref_df in
       match ls, rs with
       | [], _ => map (fun r => (k, None, Some r)) rs
       | _, [] => map (fun l => (k, Some l, None)) ls
       | _, _ => flat_map (fun l => map (fun r => (k, Some l, Some r)) rs) ls
       end)
    keys.

(** [a.combine_first(b)] at one cell. *)
Definition combine_first {A} (a b : option A) : option A :=
  match a with Some _ => a | None => b end.

(** A row of the frame [recommend_hybrid] returns. *)
Record HybridRow := mkHybridRow {
  y_movie_id : Z;
  y_title : option string;
  y_genres : option string;
  y_avg_rating : float;
  y_num_ratings : option Z;
  y_history_score : float;
  y_pref_score : float;
  y_final_score : float
}.

Section hybrid.

Variable cosine_similarity : list (list Q) -> nat -> nat -> Q.
Variable log1p : Q -> Q.

Definition recommend_hybrid (db : Database) (stdin : Answers) (user_id : Z)
    (alpha : float) (top_n : nat) : Result (list HybridRow) :=
  (* 1 Get user preferences interactively *)
  let prefs := ask_preferences stdin in
  (* 2 Get history based and preference based candidates *)
  hist_df ← recommend_from_history cosine_similarity db user_id
              (top_n * 5) 30;
  let pref_df := recommend_from_preferences log1p db prefs (top_n * 5) in
  (* 3 Merge on movie_id *)
  let merged := merge_outer hist_df pref_df in
  (* 4 Normalize scores separately *)
  let history_score :=
    pd.fillna (Some 0.0%Q)
      (map (fun '(_, l, _) => (fun h => h_score h) <$> l) merged) in
  let pref_score :=
    pd.fillna (Some 0.0%Q)
      (map (fun '(_, _, r) => r ≫= p_pref_score) merged) in
  let history_norm := min_max_normalize history_score in
  let pref_norm := min_max_normalize pref_score in
  (* 5 Hybrid final score *)
  let final := zip_with (final_score alpha) pref_norm history_norm in
  let rows :=
    zip_with
      (fun '(k, l, r) '(hs, ps, fs) =>
         mkHybridRow k
           (combine_first (h_title <$> l) (p_title <$> r))
           (combine_first (h_genres <$> l) (p_genres <$> r))
           (combine_first (l ≫= h_avg_rating) (r ≫= p_avg_rating))
           (combine_first (h_num_ratings <$> l) (p_num_ratings <$> r))
           hs ps fs)
      merged (zip (zip history_score pref_score) final) in
  (* 6 Filter and sort *)
  let rows := List.filter (fun y => fgt (y_final_score y) (Some 0%Q)) rows in
  mret (pd.head top_n (pd.sort_values_desc y_final_score rows)).

End hybrid.

End hybrid_recommender.

(** ** app.py *)

Module app.

Import recommender_history recommender_prefs.

(** The JSON body of [GET /3/movie/{id}], as far as it is read. *)
Record TmdbMovie := mkTmdbMovie {
  poster_path : option string;
  original_language : option string
}.

(** What the process finds around it: the environment variable
    [TMDB_API_KEY] and the metadata provider. [tmdb_movie id] is the body
    of a 200 answer, [None] for a request that fails, times out or answers
    with another status. *)
Record Environment := mkEnvironment {
  TMDB_API_KEY : option string;
  tmdb_movie : Z -> option TmdbMovie
}.

(** [not TMDB_API_KEY]. *)
Definition no_api_key (env : Environment) : bool :=
  match TMDB_API_KEY env with
  | None => true
  | Some key => String.eqb key ""
  end.

Definition min_max_normalize (series : pd.Series) : pd.Series :=
  let s := series in
  let s_min := pd.min s in
  let s_max := pd.max s in
  if isna s_min || isna s_max || feqb s_max s_min then
    map (fun _ => Some 0.0%Q) s
  else
    map (fun x => fdiv (fsub x s_min) (fsub s_max s_min)) s.

(** Return poster URL from TMDB or None. *)
Definition get_poster_url (env : Environment) (tmdb_id : option Z)
  : option string :=
  if no_api_key env || isna tmdb_id then None
  else
    match tmdb_id ≫= tmdb_movie env with
    | None => None
    | Some data =>
        match poster_path data with
        | None => None
        | Some p =>
            if String.eqb p "" then None
            else Some ("https://image.tmdb.org/t/p/w342" +:+ p)
        end
    end.

(** Return TMDB original_language (like 'en', 'fr') or None. The module
    level dict [LANG_CACHE] is threaded through. *)
Definition get_original_language (env : Environment) (tmdb_id : option Z)
    (LANG_CACHE : gmap Z (option string))
  : option string * gmap Z (option string) :=
  if no_api_key env then (None, LANG_CACHE)
  else
    match tmdb_id with
    | None => (None, LANG_CACHE)
    | Some tmdb_id_int =>
        match LANG_CACHE !! tmdb_id_int with
        | Some lang => (lang, LANG_CACHE)
        | None =>
            match tmdb_movie env tmdb_id_int with
            | None => (None, LANG_CACHE)
            | Some data =>
                let lang := original_language data in
                (lang, <[tmdb_id_int := lang]> LANG_CACHE)
            end
        end
    end.

Definition load_candidates (db : Database) : list Candidate :=
  load_rows (movie_features_with_links db).

(** Return a set of movie_ids that this user has already rated. *)
Definition get_user_rated_movie_ids (db : Database) (user_id : Z) : gset Z :=
  list_to_set
    (map r_movie_id
       (List.filter (fun r => Z.eqb (r_user_id r) user_id) (ratings db))).

Definition genre_map : list (string * GenreCol) :=
  [("Action", is_action); ("Comedy", is_comedy); ("Drama", is_drama);
   ("Horror", is_horror); ("Romance", is_romance); ("Sci fi", is_scifi);
   ("Animation", is_animation)].

(** Lines 169-172: the weights of the chosen genres; [genre_map[g]] raises
    KeyError for a token that is no genre. *)
Fixpoint chosen_weights (genres_chosen : list string)
    (genre_weights : list (GenreCol * Q)) : Result (list (GenreCol * Q)) :=
  match genres_chosen with
  | [] => mret genre_weights
  | g :: rest =>
      match dict_get genre_map g with
      | None => raise (KeyError_key g)
      | Some col => chosen_weights rest (dict_set genre_weights col 2.0%Q)
      end
  end.

(** [df.drop_duplicates("movie_id")]: the first row of every movie id. *)
Definition drop_duplicates (df : list (Z * Q)) : list (Z * Q) :=
  fold_left
    (fun kept '(m, s) =>
       if bool_decide (m ∈ map fst kept) then kept else kept ++ [(m, s)])
    df [].

(** [candidates.merge(hist_df, on="movie_id", how="left")]: every
    candidate in order, once per matching history row, with a NaN score
    when there is none. *)
Definition merge_left (candidates : list (Candidate * float))
    (hist_df : list (Z * Q)) : list (Candidate * float * float) :=
  flat_map
    (fun '(c, pref_score) =>
       match List.filter (fun '(m, _) => Z.eqb m (c_movie_id c)) hist_df with
       | [] => [(c, pref_score, NaN)]
       | matches => map (fun '(_, s) => (c, pref_score, Some s)) matches
       end)
    candidates.

(** A row of [merged] once all score columns are there. *)
Record Merged := mkMerged {
  m_candidate : Candidate;
  m_pref_score : float;
  m_history_score : float;
  m_history_norm : float;
  m_pref_norm : float;
  m_final_score : float;
  m_original_language : option string
}.

(** A dict of the list [compute_hybrid_recs] returns. *)
Record Recommendation := mkRecommendation {
  movie_id : Z;
  title : string;
  genres : string;
  year : option Z;
  avg_rating : float;
  num_ratings : Z;
  history_score : float;
  pref_score : float;
  final_score_of : float;
  poster_url : option string
}.

(** Lines 146-152: the base candidate pool without the movies this user
    already rated. *)
Definition candidate_pool (db : Database) (user_id : Z) : list Candidate :=
  let candidates := load_candidates db in
  let rated_ids := get_user_rated_movie_ids db user_id in
  if bool_decide (rated_ids = ∅) then candidates
  else
    List.filter (fun c => negb (bool_decide (c_movie_id c ∈ rated_ids)))
                candidates.

(** Lines 195-204: normalize, combine, drop non positive final scores. *)
Definition fuse (alpha : float) (merged : list (Candidate * float * float))
  : list Merged :=
  let history_score :=
    pd.fillna (Some 0.0%Q) (map (fun '(_, _, score) => score) merged) in
  let pref_score := map (fun '(_, pref_score, _) => pref_score) merged in
  let history_norm := min_max_normalize history_score in
  let pref_norm := min_max_normalize pref_score in
  let final := zip_with (final_score alpha) pref_norm history_norm in
  let merged :=
    zip_with
      (fun '(c, ps, _) '(hs, hn, pn, fs) => mkMerged c ps hs hn pn fs None)
      merged
      (zip (zip (zip history_score history_norm) pref_norm) final) in
  List.filter (fun m => fgt (m_final_score m) (Some 0%Q)) merged.

(** Lines 208-211: one lookup per remaining row, in row order. *)
Fixpoint resolve_languages (env : Environment) (merged : list Merged)
    (LANG_CACHE : gmap Z (option string))
  : list (option string) * gmap Z (option string) :=
  match merged with
  | [] => ([], LANG_CACHE)
  | row :: rest =>
      let '(lang, LANG_CACHE) :=
        get_original_language env (c_tmdb_id (m_candidate row)) LANG_CACHE in
      let '(langs, LANG_CACHE) := resolve_languages env rest LANG_CACHE in
      (lang :: langs, LANG_CACHE)
  end.

Definition set_language (m : Merged) (lang : option string) : Merged :=
  mkMerged (m_candidate m) (m_pref_score m) (m_history_score m)
    (m_history_norm m) (m_pref_norm m) (m_final_score m) lang.

(** Lines 213-224: the filter on the column [original_language]; skipped
    when no language at all was fetched. *)
Definition language_gate (effective_foreign_choice : string)
    (merged : list Merged) : list Merged :=
  if Nat.ltb 0 (length (List.filter (fun m => notna (m_original_language m))
                                    merged))
  then
    if String.eqb effective_foreign_choice "exclude" then
      List.filter
        (fun m => isna (m_original_language m)
                  || bool_decide (m_original_language m = Some "en"))
        merged
    else
      List.filter
        (fun m => notna (m_original_language m)
                  && negb (bool_decide (m_original_language m = Some "en")))
        merged
  else merged.

(** Lines 206-224: the foreign filter using the TMDB language. *)
Definition foreign_filter (env : Environment)
    (effective_foreign_choice : string) (merged : list Merged)
    (LANG_CACHE : gmap Z (option string))
  : list Merged * gmap Z (option string) :=
  if String.eqb effective_foreign_choice "exclude"
     || String.eqb effective_foreign_choice "only"
  then
    let '(langs, LANG_CACHE) := resolve_languages env merged LANG_CACHE in
    let merged := zip_with set_language merged langs in
    (language_gate effective_foreign_choice merged, LANG_CACHE)
  else (merged, LANG_CACHE).

(** Lines 226-243: hidden gems vs normal popularity. *)
Definition final_ordering (popularity_pref : string) (top_n : nat)
    (merged : list Merged) : list Merged :=
  if String.eqb popularity_pref "hidden" then
    let hidden_threshold := 5000%Z in
    let merged := pd.sort_values_desc m_final_score merged in
    let hidden :=
      List.filter
        (fun m => Z.ltb (c_num_ratings (m_candidate m)) hidden_threshold)
        merged in
    if Nat.leb top_n (length hidden) then pd.head top_n hidden
    else
      let rest :=
        List.filter
          (fun m => Z.leb hidden_threshold (c_num_ratings (m_candidate m)))
          merged in
      hidden ++ pd.head (top_n - length hidden) rest
  else pd.head top_n (pd.sort_values_desc m_final_score merged).

(** Lines 245-264: one dict per row. *)
Definition to_result (env : Environment) (row : Merged) : Recommendation :=
  let c := m_candidate row in
  mkRecommendation (c_movie_id c) (c_title c) (c_genres c) (Some (c_year c))
    (c_avg_rating c) (c_num_ratings c) (m_history_score row)
    (m_pref_score row) (m_final_score row)
    (get_poster_url env (c_tmdb_id c)).

Section core.

Variable cosine_similarity : list (list Q) -> nat -> nat -> Q.
Variable log1p : Q -> Q.

(** Lines 141-204 of [compute_hybrid_recs]: the rows that are left after
    the rated-item exclusion, the genre gate and the positive-score
    filter, before the foreign filter. *)
Definition fused_candidates (db : Database) (user_id : Z)
    (genres_chosen : list string) (year_min : Z) (popularity_pref : string)
    (alpha : float) : Result (list Merged) :=
  (* 1) base candidate pool, 1a) drop movies this user already rated *)
  let candidates := candidate_pool db user_id in
  (* 2) history based scores *)
  hist_df ← recommend_from_history cosine_similarity db user_id 500 30;
  let hist_df :=
    drop_duplicates (map (fun h => (h_movie_id h, h_score h)) hist_df) in
  (* 3) preference based scoring on the candidate set *)
  genre_weights ← chosen_weights genres_chosen zero_weights;
  let prefs := mkPrefs genre_weights year_min popularity_pref in
  (* optional hard filter on genres if any chosen *)
  let candidates :=
    match genres_chosen with
    | [] => candidates
    | _ =>
        let cols_used := omap (dict_get genre_map) genres_chosen in
        List.filter (genre_match cols_used) candidates
    end in
  let candidates :=
    zip candidates (score_by_preferences log1p candidates prefs) in
  (* 4) join history scores onto the candidates *)
  let merged := merge_left candidates hist_df in
  (* 5) normalize and combine *)
  mret (fuse alpha merged).

Definition compute_hybrid_recs (env : Environment) (db : Database)
    (LANG_CACHE : gmap Z (option string)) (user_id : Z)
    (genres_chosen : list string) (year_min : Z) (popularity_pref : string)
    (alpha : float) (foreign_choice : string) (top_n : nat)
  : Result (list Recommendation * gmap Z (option string)) :=
  (* If no TMDB key, foreign filter cannot work. Treat as "any". *)
  let effective_foreign_choice :=
    if no_api_key env then "any" else foreign_choice in
  merged ← fused_candidates db user_id genres_chosen year_min
             popularity_pref alpha;
  (* 6) foreign filter using TMDB language *)
  let '(merged, LANG_CACHE) :=
    foreign_filter env effective_foreign_choice merged LANG_CACHE in
  (* 7) hidden gems vs normal popularity *)
  let merged := final_ordering popularity_pref top_n merged in
  (* 8) convert to list of dicts for the template *)
  mret (map (to_result env) merged, LANG_CACHE).

(** *** The route [/] *)

(** The builtin [float(s)]: [None] when it raises ValueError. *)
Variable py_float : string -> option float.

Record Request := mkRequest {
  method : string;
  form : list (string * string)
}.

(** [request.form.getlist(key)] and [request.form.get(key, default)]. *)
Definition getlist (form : list (string * string)) (key : string)
  : list string :=
  map snd (List.filter (fun kv => String.eqb (fst kv) key) form).

Definition form_get (form : list (string * string)) (key dflt : string)
  : string :=
  match getlist form key with
  | [] => dflt
  | v :: _ => v
  end.

(** The arguments of one call of [compute_hybrid_recs]. *)
Record CoreCall := mkCoreCall {
  call_user_id : Z;
  call_genres_chosen : list string;
  call_year_min : Z;
  call_popularity_pref : string;
  call_alpha : float;
  call_foreign_choice : string;
  call_top_n : nat
}.

(** Lines 286-299: what [index] reads from the form before it calls the
    core; the only statement that can raise is [float(...)]. *)
Definition read_form (MY_USER_ID : Z) (req : Request) : Result CoreCall :=
  let user_id := MY_USER_ID in
  let genres_chosen := getlist (form req) "genres" in
  let year_choice := form_get (form req) "year_choice" "any" in
  let year_min :=
    if String.eqb year_choice "after2000" then 2000%Z
    else if String.eqb year_choice "after1980" then 1980%Z
    else 1900%Z in
  let pop_choice := form_get (form req) "pop_choice" "mixed" in
  match py_float (form_get (form req) "alpha" "0.4") with
  | None =>
      raise (ValueError
               (could_not_convert_to_float (form_get (form req) "alpha" "0.4")))
  | Some alpha =>
      let foreign_choice := form_get (form req) "foreign_choice" "any" in
      mret (mkCoreCall user_id genres_chosen year_min pop_choice alpha
              foreign_choice 10)
  end.

(** Lines 301-309: the call itself. *)
Definition call_core (env : Environment) (db : Database)
    (LANG_CACHE : gmap Z (option string)) (c : CoreCall)
  : Result (list Recommendation * gmap Z (option string)) :=
  compute_hybrid_recs env db LANG_CACHE (call_user_id c)
    (call_genres_chosen c) (call_year_min c) (call_popularity_pref c)
    (call_alpha c) (call_foreign_choice c) (call_top_n c).

(** What [index] hands to the template. *)
Record Page := mkPage {
  error : option Exception;
  results : option (list Recommendation);
  default_genres : list string;
  default_year_choice : string;
  default_pop_choice : string;
  default_alpha : float;
  default_foreign_choice : string
}.

Definition index (env : Environment) (db : Database) (MY_USER_ID : Z)
    (LANG_CACHE : gmap Z (option string)) (req : Request)
  : Page * gmap Z (option string) :=
  let defaults e :=
    mkPage e None ["Horror"] "any" "mixed" (Some 0.4%Q) "any" in
  if String.eqb (method req) "POST" then
    match read_form MY_USER_ID req with
    | inl e => (defaults (Some e), LANG_CACHE)
    | inr c =>
        match call_core env db LANG_CACHE c with
        | inl e => (defaults (Some e), LANG_CACHE)
        | inr (results, LANG_CACHE) =>
            (mkPage None (Some results)
               (match call_genres_chosen c with
                | [] => ["Horror"]
                | gs => gs
                end)
               (form_get (form req) "year_choice" "any")
               (call_popularity_pref c) (call_alpha c)
               (call_foreign_choice c),
             LANG_CACHE)
        end
    end
  else (defaults None, LANG_CACHE).

End core.

End app.

(** * Specification-side definitions *)

(** ** Min-max normalization *)

Definition is_min (lo : Q) (qs : list Q) : Prop :=
  In lo qs /\ forall x, In x qs -> (lo <= x)%Q.

Definition is_max (hi : Q) (qs : list Q) : Prop :=
  In hi qs /\ forall x, In x qs -> (x <= hi)%Q.

Definition all_equal (qs : list Q) : Prop :=
  forall x y, In x qs -> In y qs -> (x == y)%Q.


(** ** The final result of [compute_hybrid_recs] *)

Section eligible.

Variable cosine_similarity : list (list Q) -> nat -> nat -> Q.
Variable log1p : Q -> Q.

(** The eligible items after all filters: the rows of [merged] that reach
    step 7 of [compute_hybrid_recs]. *)
Definition eligible_rows (env : app.Environment) (db : Database)
    (LANG_CACHE : gmap Z (option string)) (user_id : Z)
    (genres_chosen : list string) (year_min : Z) (popularity_pref : string)
    (alpha : float) (foreign_choice : string) : Result (list app.Merged) :=
  merged ← app.fused_candidates cosine_similarity log1p db user_id
             genres_chosen year_min popularity_pref alpha;
  mret (fst (app.foreign_filter env
               (if app.no_api_key env then "any" else foreign_choice)
               merged LANG_CACHE)).

End eligible.

(** A list of result dicts in descending order of [final_score], all of
    them numbers. *)
Definition ranked_desc (recs : list app.Recommendation) : Prop :=
  StronglySorted
    (fun r1 r2 => fge (app.final_score_of r1) (app.final_score_of r2) = true)
    recs.

(** Below the gem threshold of the final ordering. *)
Definition is_gem (r : app.Recommendation) : Prop :=
  (app.num_ratings r < 5000)%Z.

(** The same test on a row of [merged]. *)
Definition gem_row (m : app.Merged) : bool :=
  Z.ltb (c_num_ratings (app.m_candidate m)) 5000.

(** A row of [merged] with a strictly positive final score. *)
Definition positive_row (m : app.Merged) : Prop :=
  fgt (app.m_final_score m) (Some 0%Q) = true.

(** The list of dicts of a run, without the cache it leaves behind. *)
Definition recommendations
    (r : Result (list app.Recommendation * gmap Z (option string)))
  : Result (list app.Recommendation) :=
  match r with
  | inl e => inl e
  | inr (recs, _) => inr recs
  end.

Section lookups.

Variable cosine_similarity : list (list Q) -> nat -> nat -> Q.
Variable log1p : Q -> Q.

(** The language lookups of a run: one answer per row that reaches step 6
    of [compute_hybrid_recs] when the key is configured and the policy is
    "exclude" or "only". *)
Definition language_lookups (env : app.Environment) (db : Database)
    (LANG_CACHE : gmap Z (option string)) (user_id : Z)
    (genres_chosen : list string) (year_min : Z) (popularity_pref : string)
    (alpha : float) : Result (list (app.Merged * option string)) :=
  merged ← app.fused_candidates cosine_similarity log1p db user_id
             genres_chosen year_min popularity_pref alpha;
  mret (zip merged (fst (app.resolve_languages env merged LANG_CACHE))).

(** The external lookup yields no usable value for any remaining
    candidate. *)
Definition no_usable_language (env : app.Environment) (db : Database)
    (LANG_CACHE : gmap Z (option string)) (user_id : Z)
    (genres_chosen : list string) (year_min : Z) (popularity_pref : string)
    (alpha : float) : Prop :=
  forall lookups,
    language_lookups env db LANG_CACHE user_id genres_chosen year_min
      popularity_pref alpha = inr lookups ->
    Forall (fun ml => snd ml = None) lookups.

End lookups.

(** ** The history scorer *)

(** [sim_df[i][j]]: the similarity the scorer reads for a rated movie [i]
    and a movie [j] of the neighbourhood, the entry of column [i] at row
    [j]; zero for a label outside the neighbourhood. *)
Definition similarity (movie_ids : list Z) (sim_matrix : nat -> nat -> Q)
    (i j : Z) : Q :=
  match pd.get_loc movie_ids j, pd.get_loc movie_ids i with
  | Some a, Some p => sim_matrix a p
  | _, _ => 0.0%Q
  end.

(** The score of item [j]: 0, plus similarity(i, j) * (rating_i - 3.0) for
    each item [i] the user rated. *)
Definition propagated_score (movie_ids : list Z)
    (sim_matrix : nat -> nat -> Q) (rated : list (Z * Q)) (j : Z) : Q :=
  fold_left
    (fun acc '(i, rating_i) =>
       acc + similarity movie_ids sim_matrix i j * (rating_i - 3.0))%Q
    rated 0.0%Q.

(** Every item of the universe scored, the rated items removed, the
    strictly positive scores kept. *)
Definition history_scores_spec (movie_ids : list Z)
    (sim_matrix : nat -> nat -> Q) (rated : list (Z * Q)) : list (Z * Q) :=
  let scored :=
    map (fun j => (j, propagated_score movie_ids sim_matrix rated j))
        movie_ids in
  let unrated :=
    List.filter (fun '(j, _) => negb (bool_decide (j ∈ map fst rated)))
                scored in
  List.filter (fun '(_, s) => Qlt_bool 0 s) unrated.

Section history_conditions.

Import recommender_history.

Variable cosine_similarity : list (list Q) -> nat -> nat -> Q.

(** The target user has no ratings. *)
Definition no_history (db : Database) (user_id : Z) : Prop :=
  select_user_ratings db user_id = [].

(** The support-restricted neighbourhood rating set, with the defaults
    [recommend_from_history] builds it with. *)
Definition neighborhood (db : Database) (user_id : Z) : list Rating :=
  local_ratings db user_id 3000 5.

Definition no_local_support (db : Database) (user_id : Z) : Prop :=
  neighborhood db user_id = [].

(** The target user's row of the pivoted matrix. *)
Definition user_row (db : Database) (user_id : Z) : option (list float) :=
  pd.loc (pivot_table (neighborhood db user_id)) user_id.

(** The unrated items with a strictly positive propagated score. *)
Definition propagated (db : Database) (user_id : Z) : list (Z * Q) :=
  let rating_matrix := pivot_table (neighborhood db user_id) in
  positive_scores (pd.columns rating_matrix)
    (cosine_similarity (pd.transpose (fillna0 rating_matrix)))
    (dropna (pd.columns rating_matrix) (default [] (user_row db user_id))).

Definition no_signal (db : Database) (user_id : Z) : Prop :=
  propagated db user_id = [].

(** The positively scored items found in the catalogue with at least
    [min_ratings] ratings. *)
Definition recommendable (db : Database) (user_id : Z) (min_ratings : Z)
  : list HistRow :=
  List.filter (fun h => Z.leb min_ratings (h_num_ratings h))
    (join_stats (propagated db user_id) (movie_features_with_links db)).

Definition nothing_recommendable (db : Database) (user_id : Z)
    (min_ratings : Z) : Prop :=
  recommendable db user_id min_ratings = [].

End history_conditions.

(** ** The preference score of one candidate *)

Section preference_formula.

Variable log1p : Q -> Q.

(** The selected genres of a profile, with their weights: the genres whose
    weight is not zero (2.0 in every profile the repository builds). *)
Definition selected_genres (prefs : Prefs) : list (GenreCol * Q) :=
  List.filter (fun cw => negb (Qeq_bool (snd cw) 0)) (genre_weights prefs).

(** log(1 + rating_count) *)
Definition log_count (c : Candidate) : Q :=
  log1p (inject_Z (c_num_ratings c)).

(** The sum of the weights of the selected genres whose flag is true. *)
Definition genre_bonus (prefs : Prefs) (c : Candidate) : Q :=
  fold_left
    (fun acc cw => if flag (fst cw) (c_flags c) then acc + snd cw else acc)%Q
    (selected_genres prefs) 0%Q.

(** At least one genre is selected and none of the selected-genre flags
    is true. *)
Definition no_genre_match (prefs : Prefs) (c : Candidate) : bool :=
  match selected_genres prefs with
  | [] => false
  | sel => negb (existsb (fun cw => flag (fst cw) (c_flags c)) sel)
  end.

(** The popularity term of the selected mode, for a candidate of the
    pool. *)
Definition popularity_term (pool : list Candidate) (mode : string)
    (c : Candidate) : float :=
  let n := inject_Z (c_num_ratings c) in
  let logs := map (fun c' => Some (log_count c')) pool in
  if String.eqb mode "popular" then Some (log_count c)
  else if String.eqb mode "hidden" then
    fsub (Some (Qmax 0 ((500 - n) / 500) * 3.0)%Q)
         (fmul (fsub (Some (log_count c)) (pd.min logs)) (Some 0.2%Q))
  else
    fmul (fsub (Some (log_count c)) (pd.mean logs)) (Some 0.3%Q).

(** Average rating, plus the genre bonus, minus 3.0 without genre match,
    minus 2.0 below the minimum year, plus the popularity term. *)
Definition preference_score (pool : list Candidate) (prefs : Prefs)
    (c : Candidate) : float :=
  let s := fadd (c_avg_rating c) (Some (genre_bonus prefs c)) in
  let s := fsub s (Some (if no_genre_match prefs c then 3.0 else 0)%Q) in
  let s :=
    fsub s (Some (if Z.ltb (c_year c) (year_min prefs) then 2.0 else 0)%Q) in
  fadd s (popularity_term pool (popularity_pref prefs) c).

(** What [score_by_preferences] computes at the row of one candidate, in
    the order of its statements. *)
Definition row_score (df : list Candidate) (prefs : Prefs) (c : Candidate)
  : float :=
  let scores := c_avg_rating c in
  let scores :=
    fold_left
      (fun acc cw =>
         if negb (Qeq_bool (snd cw) 0) then
           fadd acc (recommender_prefs.boost (fst cw) (snd cw) c)
         else acc)
      (genre_weights prefs) scores in
  let selected_cols := map fst (selected_genres prefs) in
  let scores :=
    match selected_cols with
    | [] => scores
    | _ =>
        if recommender_prefs.genre_match selected_cols c then scores
        else fsub scores (Some 3.0%Q)
    end in
  let scores :=
    if Z.leb (year_min prefs) (c_year c) then scores
    else fsub scores (Some 2.0%Q) in
  let n := inject_Z (c_num_ratings c) in
  let logs := recommender_prefs.log_pop log1p df in
  if String.eqb (popularity_pref prefs) "popular" then
    fadd scores (Some (log_count c))
  else if String.eqb (popularity_pref prefs) "hidden" then
    fsub (fadd scores (Some (Qmax ((500.0 - n) / 500.0) 0.0 * 3.0)%Q))
         (fmul (fsub (Some (log_count c)) (pd.min logs)) (Some 0.2%Q))
  else
    fadd scores (fmul (fsub (Some (log_count c)) (pd.mean logs)) (Some 0.3%Q)).

End preference_formula.

(** One turn of the genre loop on the number it accumulates. *)
Definition boost_step (c : Candidate) (acc : Q) (cw : GenreCol * Q) : Q :=
  if negb (Qeq_bool (snd cw) 0) then
    (acc + inject_Z (Z.b2z (flag (fst cw) (c_flags c))) * snd cw)%Q
  else acc.

(** The weights the repository gives: 2.0 for a chosen genre, 0.0 for the
    others. *)
Definition policy_weights (weights : list (GenreCol * Q)) : Prop :=
  Forall (fun cw => snd cw = 0.0%Q \/ snd cw = 2.0%Q) weights.

(** * Sample data *)

(** ** Stand-ins for the library functions *)

Definition dot (u v : list Q) : Q :=
  fold_left Qplus (zip_with Qmult u v) 0%Q.

(** Square root of a rational, exact on squares of rationals. *)
Definition Qsqrt (q : Q) : Q :=
  Qmake (Z.sqrt (Qnum q * Zpos (Qden q))) (Qden q).

(** Cosine similarity of rows [a] and [b] of [X]; exact when both norms
    are rational, which the sample ratings are chosen for. A zero row has
    similarity 0 with every row. *)
Definition cosine_exact (X : list (list Q)) (a b : nat) : Q :=
  let u := nth a X [] in
  let v := nth b X [] in
  Qred (dot u v / (Qsqrt (dot u u) * Qsqrt (dot v v))).

(** An integer logarithm in place of [numpy.log1p]. *)
Definition log1p_sample (x : Q) : Q := inject_Z (Z.log2 (Qfloor x + 1)).

Definition digit_of (c : ascii) : option Z :=
  let n := nat_of_ascii c in
  if ((48 <=? n) && (n <=? 57))%nat then Some (Z.of_nat (n - 48)) else None.

(** Value and number of digits of a string of decimal digits. *)
Fixpoint digits (s : string) (acc : Z) (n : nat) : option (Z * nat) :=
  match s with
  | EmptyString => Some (acc, n)
  | String c rest =>
      match digit_of c with
      | Some d => digits rest (10 * acc + d) (S n)
      | None => None
      end
  end.

(** A stand-in for the builtin [float], used on sample requests only. It
    agrees with [float] on plain decimal numerals ("0.4", "1.5", "12")
    and on text without digits such as "much"; the signs, exponents,
    "nan", "inf" and surrounding white space that [float] also accepts
    are refused here. *)
Definition decimal (s : string) : option float :=
  match recommender_prefs.split "." s with
  | [ip] =>
      match digits ip 0 0 with
      | Some (v, S _) => Some (Some (inject_Z v))
      | _ => None
      end
  | [ip; fp] =>
      match digits ip 0 0, digits fp 0 0 with
      | Some (v, S _), Some (w, S k) =>
          Some (Some (Qred (inject_Z v
                            + inject_Z w / inject_Z (10 ^ Z.of_nat (S k)))))
      | _, _ => None
      end
  | _ => None
  end.

(** ** A small store *)

Definition rate (user_id movie_id : Z) (rating : Q) : Rating :=
  mkRating user_id movie_id rating.

(** User 0 rated movies 1 and 3. Users 1 to 4 rated movies 1 and 2, user 5
    rated movies 2 and 3, user 9 shares no movie with user 0. *)
Definition sample_ratings : list Rating :=
  [rate 0 1 4.5; rate 0 3 4.0;
   rate 1 1 3.0; rate 1 2 2.0;
   rate 2 1 3.0; rate 2 2 2.0;
   rate 3 1 3.0; rate 3 2 2.0;
   rate 4 1 3.0; rate 4 2 2.0;
   rate 5 2 3.0; rate 5 3 2.5;
   rate 9 4 5.0]%Q.

Definition no_flags : GenreFlags :=
  mkFlags false false false false false false false.

Definition action_flags : GenreFlags :=
  mkFlags true false false false false false false.

Definition horror_flags : GenreFlags :=
  mkFlags false false false true false false false.

Definition sample_catalog : list FeatureRow :=
  [mkFeature 1 "Alpha" "Action" (Some 1999%Z) (Some 4.2%Q) 6000
     action_flags (Some 101%Z);
   mkFeature 2 "Beta" "Horror" (Some 2005%Z) (Some 3.9%Q) 40
     horror_flags (Some 102%Z);
   mkFeature 3 "Gamma" "Comedy" (Some 1985%Z) (Some 3.1%Q) 100
     no_flags (Some 103%Z);
   mkFeature 4 "Delta" "Horror" (Some 2010%Z) (Some 3.5%Q) 7000
     horror_flags (Some 104%Z);
   mkFeature 5 "Epsilon" "Drama" None NaN 200
     no_flags None;
   mkFeature 6 "Zeta" "Action" (Some 2001%Z) (Some 2.8%Q) 9000
     action_flags (Some 106%Z);
   mkFeature 7 "Eta" "Action" (Some 1970%Z) (Some 4.9%Q) 5
     action_flags (Some 107%Z)].

Definition sample_db : Database :=
  mkDatabase sample_ratings sample_catalog sample_catalog.

(** The same store with a catalogue in which movie 2 has only 12
    ratings. *)
Definition sparse_catalog : list FeatureRow :=
  map (fun f =>
         if Z.eqb (f_movie_id f) 2 then
           mkFeature 2 "Beta" "Horror" (Some 2005%Z) (Some 3.9%Q) 12
             horror_flags (Some 102%Z)
         else f)
      sample_catalog.

Definition sparse_db : Database :=
  mkDatabase sample_ratings sparse_catalog sparse_catalog.

(** User 0 rated movies 1 and 3; movie 1 has four ratings and movie 3 has
    three among user 0 and its neighbours 1 to 5, who all rated movie 2. *)
Definition orphan_ratings : list Rating :=
  [rate 0 1 4.5; rate 0 3 4.0;
   rate 1 1 3.0; rate 2 1 3.0; rate 3 1 3.0;
   rate 4 3 2.0; rate 5 3 2.5;
   rate 1 2 2.0; rate 2 2 2.0; rate 3 2 2.0; rate 4 2 2.0; rate 5 2 3.0]%Q.

Definition orphan_db : Database :=
  mkDatabase orphan_ratings sample_catalog sample_catalog.

(** ** The provider *)

Definition sample_tmdb (tmdb_id : Z) : option app.TmdbMovie :=
  if Z.eqb tmdb_id 102 then
    Some (app.mkTmdbMovie (Some "/beta.jpg") (Some "fr"))
  else if Z.eqb tmdb_id 106 then
    Some (app.mkTmdbMovie (Some "/zeta.jpg") (Some "en"))
  else None.

Definition sample_env : app.Environment :=
  app.mkEnvironment (Some "key") sample_tmdb.

Definition offline_env : app.Environment :=
  app.mkEnvironment None sample_tmdb.

(** The three answers typed at the prompt of [ask_preferences]: horror,
    no preference on the year, a mix for popularity. *)
Definition sample_answers : recommender_prefs.Answers :=
  recommender_prefs.mkAnswers "4" "3" "2".

(** ** The request boundary *)

(** The text of the form field [alpha], "0.4" when the field is absent. *)
Definition alpha_field (req : app.Request) : string :=
  app.form_get (app.form req) "alpha" "0.4".

(** A fusion weight of [0, 1]. *)
Definition valid_alpha (alpha : float) : Prop :=
  exists q, alpha = Some q /\ (0 <= q)%Q /\ (q <= 1)%Q.

(** A form that asks for a fusion weight of 1.5, and one whose weight is
    no number. *)
Definition heavy_request : app.Request :=
  app.mkRequest "POST" [("genres", "Horror"); ("alpha", "1.5")].

Definition garbled_request : app.Request :=
  app.mkRequest "POST" [("genres", "Horror"); ("alpha", "much")].


(** ** Further sample data *)

(** A store in which user 0 rated every movie exactly 3.0. *)
Definition neutral_ratings : list Rating :=
  map (fun r => if Z.eqb (r_user_id r) 0 then rate 0 (r_movie_id r) 3.0 else r)
      sample_ratings.

Definition neutral_db : Database :=
  mkDatabase neutral_ratings sample_catalog sample_catalog.

(** The candidates of the small catalogue as rows in front of the foreign
    filter, all with the same scores. *)
Definition sample_rows : list app.Merged :=
  map (fun c =>
         app.mkMerged c (c_avg_rating c) (Some 0.0%Q) (Some 0.0%Q)
           (Some 1%Q) (Some 0.4%Q) None)
      (load_rows sample_catalog).

(** ** Further specification-side definitions *)

(** The score of a candidate before popularity shaping: average rating,
    plus the genre bonus, minus the penalties. *)
Definition base_score (prefs : Prefs) (c : Candidate) : float :=
  let s := fadd (c_avg_rating c) (Some (genre_bonus prefs c)) in
  let s := fsub s (Some (if no_genre_match prefs c then 3.0 else 0)%Q) in
  fsub s (Some (if Z.ltb (c_year c) (year_min prefs) then 2.0 else 0)%Q).

(** The seven genre columns in the order of the weight dicts. *)
Definition genre_columns : list GenreCol :=
  [is_action; is_comedy; is_drama; is_horror; is_romance; is_scifi;
   is_animation].

(** * Binary64 *)

(** The two functions whose properties turn on rounding and overflow,
    embedded over IEEE 754 binary64: a double is a [spec_float] of the
    standard library, and the operations are its correctly rounded
    (round to nearest, ties to even) operations at precision 53 and
    maximal exponent 1024. *)
Module binary64.

Import SpecFloat.

Definition prec : Z := 53.
Definition emax : Z := 1024.

Definition double := spec_float.

Definition NaN : double := S754_nan.

Definition isna (x : double) : bool :=
  match x with S754_nan => true | _ => false end.

Definition fadd : double -> double -> double := SFadd prec emax.
Definition fsub : double -> double -> double := SFsub prec emax.
Definition fmul : double -> double -> double := SFmul prec emax.
Definition fdiv : double -> double -> double := SFdiv prec emax.

(** [x < y], [x >= y] and [x == y]: false as soon as one is NaN. *)
Definition flt (x y : double) : bool := SFltb x y.
Definition fge (x y : double) : bool := SFleb y x.
Definition feqb (x y : double) : bool := SFeqb x y.

(** The double of an integer ([float(z)]), and the double a decimal
    literal [n / d] denotes when [n] and [d] are doubles themselves: the
    correctly rounded quotient. *)
Definition of_Z (z : Z) : double := binary_normalize prec emax z 0 false.

Definition lit (n d : Z) : double := fdiv (of_Z n) (of_Z d).




(** [Series.min()], [Series.max()]: NaN cells are skipped, NaN when no
    number is left. *)
Definition nan_fold (better : double -> double -> bool) (acc x : double)
  : double :=
  match acc, x with
  | S754_nan, _ => x
  | _, S754_nan => acc
  | _, _ => if better x acc then x else acc
  end.

Definition min (s : list double) : double :=
  fold_left (nan_fold flt) s NaN.

Definition max (s : list double) : double :=
  fold_left (nan_fold (fun x acc => flt acc x)) s NaN.

(** Lines 8-15 of hybrid_recommender.py and 48-54 of app.py. *)
Definition min_max_normalize (series : list double) : list double :=
  let s := series in
  let s_min := min s in
  let s_max := max s in
  if isna s_min || isna s_max || feqb s_max s_min then
    map (fun _ => S754_zero false) s
  else
    map (fun x => fdiv (fsub x s_min) (fsub s_max s_min)) s.

(** [alpha * pref_norm + (1.0 - alpha) * history_norm] at one row. *)
Definition final_score (alpha pref_norm history_norm : double) : double :=
  fadd (fmul alpha pref_norm) (fmul (fsub (of_Z 1) alpha) history_norm).



End binary64.

(** * Properties *)

(** ** Floats and series *)

Lemma Qlt_bool_iff (a b : Q) : Qlt_bool a b = true <-> (a < b)%Q.
Proof.
  unfold Qlt_bool. rewrite negb_true_iff. split.
  - intros H. apply Qnot_le_lt. intros Hle.
    apply Qle_bool_iff in Hle. congruence.
  - intros H. destruct (Qle_bool b a) eqn:E; [|reflexivity].
    apply Qle_bool_iff in E. exfalso. exact (Qlt_not_le _ _ H E).
Qed.

Lemma nan_fold_numbers (op : Q -> Q -> Q) (rest : list Q) (q : Q) :
  fold_left (pd.nan_fold op) (map Some rest) (Some q)
  = Some (fold_left op rest q).
Proof.
  revert q. induction rest as [|a rest IH]; intros q; simpl; [reflexivity|].
  apply IH.
Qed.

Section extremum.

(** A binary choice [op] that is a lower bound for the order [R]. *)
Variable op : Q -> Q -> Q.
Variable R : Q -> Q -> Prop.
Hypothesis op_choice : forall a b, op a b = a \/ op a b = b.
Hypothesis op_l : forall a b, R (op a b) a.
Hypothesis op_r : forall a b, R (op a b) b.
Hypothesis R_refl : forall a, R a a.
Hypothesis R_trans : forall a b c, R a b -> R b c -> R a c.

Lemma fold_left_extremum (rest : list Q) (q : Q) :
  In (fold_left op rest q) (q :: rest)
  /\ forall x, In x (q :: rest) -> R (fold_left op rest q) x.
Proof.
  revert q. induction rest as [|a rest IH]; intros q; simpl.
  - split; [left; reflexivity|]. intros x [<-|[]]. apply R_refl.
  - destruct (IH (op q a)) as [Hin Hle].
    set (m := fold_left op rest (op q a)) in *. split.
    + destruct Hin as [Heq|Hin].
      * destruct (op_choice q a) as [E|E]; rewrite E in Heq; auto.
      * right. right. exact Hin.
    + intros x [<-|[<-|Hx]].
      * eapply R_trans; [apply Hle; left; reflexivity | apply op_l].
      * eapply R_trans; [apply Hle; left; reflexivity | apply op_r].
      * apply Hle. right. exact Hx.
Qed.

End extremum.

Lemma Qmin_choice (a b : Q) : Qmin a b = a \/ Qmin a b = b.
Proof.
  unfold Qmin, GenericMinMax.gmin. destruct (a ?= b)%Q; auto.
Qed.

Lemma Qmax_choice (a b : Q) : Qmax a b = a \/ Qmax a b = b.
Proof.
  unfold Qmax, GenericMinMax.gmax. destruct (a ?= b)%Q; auto.
Qed.

Lemma fold_Qmin_is_min (q : Q) (rest : list Q) :
  is_min (fold_left Qmin rest q) (q :: rest).
Proof.
  apply (fold_left_extremum Qmin Qle).
  - apply Qmin_choice.
  - apply Q.le_min_l.
  - apply Q.le_min_r.
  - apply Qle_refl.
  - apply Qle_trans.
Qed.

Lemma fold_Qmax_is_max (q : Q) (rest : list Q) :
  is_max (fold_left Qmax rest q) (q :: rest).
Proof.
  apply (fold_left_extremum Qmax (fun a b => (b <= a)%Q)).
  - apply Qmax_choice.
  - apply Q.le_max_l.
  - apply Q.le_max_r.
  - apply Qle_refl.
  - intros a b c Hab Hbc. eapply Qle_trans; eassumption.
Qed.

Lemma min_numbers (q : Q) (rest : list Q) :
  pd.min (map Some (q :: rest)) = Some (fold_left Qmin rest q).
Proof. unfold pd.min. simpl. apply nan_fold_numbers. Qed.

Lemma max_numbers (q : Q) (rest : list Q) :
  pd.max (map Some (q :: rest)) = Some (fold_left Qmax rest q).
Proof. unfold pd.max. simpl. apply nan_fold_numbers. Qed.

(** ** Min-max normalization *)

Lemma min_max_normalize_same :
  app.min_max_normalize = hybrid_recommender.min_max_normalize.
Proof. reflexivity. Qed.

Lemma rescaled_in_range (lo hi x : Q) :
  (lo <= x)%Q -> (x <= hi)%Q -> (lo < hi)%Q ->
  (0 <= (x - lo) / (hi - lo))%Q /\ ((x - lo) / (hi - lo) <= 1)%Q.
Proof.
  intros Hlo Hhi Hlt. split.
  - apply Qle_shift_div_l; lra.
  - apply Qle_shift_div_r; lra.
Qed.

(** A NaN cell of the input stays NaN. *)
Example min_max_normalize_nan :
  app.min_max_normalize [Some 1.0%Q; NaN; Some 2.0%Q]
  = [Some ((1.0 - 1.0) / (2.0 - 1.0))%Q; NaN;
     Some ((2.0 - 1.0) / (2.0 - 1.0))%Q].
Proof. reflexivity. Qed.

(** ** Fusion *)

(** ** Sorting, filtering, truncating *)

#[global] Instance desc_total : Total pd.desc.
Proof.
  intros [a|] [b|]; simpl; auto.
  destruct (Qlt_le_dec a b) as [H|H]; [right; apply Qlt_le_weak|left]; exact H.
Qed.

#[global] Instance desc_trans : Transitive pd.desc.
Proof.
  intros [a|] [b|] [c|]; simpl; auto; try contradiction.
  intros Hba Hcb. eapply Qle_trans; eassumption.
Qed.

#[global] Instance desc_by_total {A} (key : A -> float) :
  Total (pd.desc_by key).
Proof. intros x y. apply desc_total. Qed.

#[global] Instance desc_by_trans {A} (key : A -> float) :
  Transitive (pd.desc_by key).
Proof. intros x y z. apply desc_trans. Qed.

Lemma sort_values_desc_sorted {A} (key : A -> float) (df : list A) :
  StronglySorted (pd.desc_by key) (pd.sort_values_desc key df).
Proof. apply StronglySorted_merge_sort; apply _. Qed.

Lemma sort_values_desc_perm {A} (key : A -> float) (df : list A) :
  Permutation (pd.sort_values_desc key df) df.
Proof. apply merge_sort_Permutation. Qed.

Lemma filter_sublist {A} (f : A -> bool) (l : list A) :
  List.filter f l `sublist_of` l.
Proof.
  induction l as [|x l IH]; simpl; [constructor|].
  destruct (f x); constructor; exact IH.
Qed.

Lemma sublist_In {A} (l1 l2 : list A) (x : A) :
  l1 `sublist_of` l2 -> In x l1 -> In x l2.
Proof.
  induction 1 as [|y l1 l2 _ IH|y l1 l2 _ IH]; simpl; intuition.
Qed.

Lemma sublist_Forall' {A} (P : A -> Prop) (l1 l2 : list A) :
  l1 `sublist_of` l2 -> Forall P l2 -> Forall P l1.
Proof.
  intros Hsub HP. apply List.Forall_forall. intros x Hx.
  rewrite List.Forall_forall in HP. apply HP.
  eapply sublist_In; eassumption.
Qed.

Lemma StronglySorted_sublist {A} (R : A -> A -> Prop) (l1 l2 : list A) :
  l1 `sublist_of` l2 -> StronglySorted R l2 -> StronglySorted R l1.
Proof.
  induction 1 as [|y l1 l2 Hsub IH|y l1 l2 Hsub IH]; intros Hs.
  - constructor.
  - apply StronglySorted_inv in Hs. destruct Hs as [Hs Hall].
    constructor; [apply IH; exact Hs|].
    eapply sublist_Forall'; eassumption.
  - apply StronglySorted_inv in Hs. apply IH. apply Hs.
Qed.

Lemma StronglySorted_weaken {A} (R R' : A -> A -> Prop) (P : A -> Prop)
    (l : list A) :
  (forall x y, P x -> P y -> R x y -> R' x y) ->
  Forall P l -> StronglySorted R l -> StronglySorted R' l.
Proof.
  intros HR HP Hs. induction Hs as [|x l Hs IH Hall]; [constructor|].
  apply Forall_cons_1 in HP. destruct HP as [Px Pl].
  constructor; [apply IH; exact Pl|].
  rewrite List.Forall_forall in *. intros y Hy.
  apply HR; [exact Px | apply Pl; exact Hy | apply Hall; exact Hy].
Qed.

Lemma filter_Forall {A} (f : A -> bool) (l : list A) :
  Forall (fun x => f x = true) (List.filter f l).
Proof.
  apply List.Forall_forall. intros x Hx. apply filter_In in Hx. apply Hx.
Qed.

(** ** The final ordering in hidden mode *)

Lemma final_ordering_hidden (top_n : nat) (merged : list app.Merged) :
  exists gems rest,
    app.final_ordering "hidden" top_n merged = gems ++ rest
    /\ Forall (fun m => gem_row m = true) gems
    /\ Forall (fun m => gem_row m = false) rest
    /\ gems `sublist_of` pd.sort_values_desc app.m_final_score merged
    /\ rest `sublist_of` pd.sort_values_desc app.m_final_score merged
    /\ length (gems ++ rest) = Nat.min top_n (length merged).
Proof.
  unfold app.final_ordering. cbn [String.eqb Ascii.eqb Bool.eqb].
  set (sorted := pd.sort_values_desc app.m_final_score merged).
  set (hidden := List.filter _ sorted).
  assert (Hlen : length merged = length sorted).
  { symmetry. apply Permutation_length, sort_values_desc_perm. }
  assert (Hhid : hidden = List.filter gem_row sorted) by reflexivity.
  assert (Hgem : Forall (fun m => gem_row m = true) hidden).
  { rewrite Hhid. apply filter_Forall. }
  assert (Hsub : hidden `sublist_of` sorted).
  { rewrite Hhid. apply filter_sublist. }
  assert (Hrest : forall l, List.filter
            (fun m => Z.leb 5000 (c_num_ratings (app.m_candidate m))) l
          = List.filter (fun m => negb (gem_row m)) l).
  { intros l. apply filter_ext. intros m. unfold gem_row.
    rewrite Z.leb_antisym. reflexivity. }
  pose proof (filter_length gem_row sorted) as Hpart.
  rewrite <- Hhid in Hpart.
  destruct (Nat.leb top_n (length hidden)) eqn:E.
  - apply Nat.leb_le in E. exists (pd.head top_n hidden), [].
    rewrite app_nil_r. repeat split.
    + eapply sublist_Forall'; [apply sublist_take|exact Hgem].
    + constructor.
    + etransitivity; [apply sublist_take|exact Hsub].
    + apply sublist_nil_l.
    + unfold pd.head. rewrite length_take. lia.
  - apply Nat.leb_gt in E. rewrite Hrest.
    set (rest := List.filter (fun m => negb (gem_row m)) sorted) in *.
    exists hidden, (pd.head (top_n - length hidden) rest).
    repeat split.
    + exact Hgem.
    + eapply sublist_Forall'; [apply sublist_take|].
      eapply Forall_impl; [apply filter_Forall|].
      intros m Hm. simpl in Hm. apply negb_true_iff in Hm. exact Hm.
    + exact Hsub.
    + etransitivity; [apply sublist_take|apply filter_sublist].
    + rewrite length_app. unfold pd.head. rewrite length_take. lia.
Qed.

(** ** What reaches the final ordering *)

Lemma fuse_positive (alpha : float)
    (merged : list (Candidate * float * float)) :
  Forall positive_row (app.fuse alpha merged).
Proof. unfold app.fuse. apply filter_Forall. Qed.

Lemma zip_with_set_language_Forall (P : app.Merged -> Prop)
    (merged : list app.Merged) (langs : list (option string)) :
  (forall m lang, P m -> P (app.set_language m lang)) ->
  Forall P merged -> Forall P (zip_with app.set_language merged langs).
Proof.
  intros Hset HP. revert langs.
  induction HP as [|m merged Pm _ IH]; intros [|lang langs]; simpl;
    constructor; auto.
Qed.

Lemma language_gate_sublist (choice : string) (merged : list app.Merged) :
  app.language_gate choice merged `sublist_of` merged.
Proof.
  unfold app.language_gate.
  destruct (Nat.ltb _ _); [|reflexivity].
  destruct (String.eqb _ _); apply filter_sublist.
Qed.

Lemma foreign_filter_Forall (P : app.Merged -> Prop) (env : app.Environment)
    (choice : string) (merged : list app.Merged)
    (cache : gmap Z (option string)) :
  (forall m lang, P m -> P (app.set_language m lang)) ->
  Forall P merged ->
  Forall P (fst (app.foreign_filter env choice merged cache)).
Proof.
  intros Hset HP. unfold app.foreign_filter.
  destruct (_ || _); [|exact HP].
  destruct (app.resolve_languages env merged cache) as [langs cache'].
  simpl. eapply sublist_Forall'; [apply language_gate_sublist|].
  apply zip_with_set_language_Forall; assumption.
Qed.

Section core_facts.

Variable cosine_similarity : list (list Q) -> nat -> nat -> Q.
Variable log1p : Q -> Q.

(** The shape of a successful run of lines 141-204. *)
Lemma fused_candidates_inv (db : Database) (user_id : Z)
    (genres_chosen : list string) (year_min : Z) (popularity_pref : string)
    (alpha : float) (rows : list app.Merged) :
  app.fused_candidates cosine_similarity log1p db user_id genres_chosen
    year_min popularity_pref alpha = inr rows ->
  exists hist_df genre_weights candidates,
    recommender_history.recommend_from_history cosine_similarity db user_id
      500 30 = inr hist_df
    /\ app.chosen_weights genres_chosen zero_weights = inr genre_weights
    /\ candidates `sublist_of` app.candidate_pool db user_id
    /\ rows =
       app.fuse alpha
         (app.merge_left
            (zip candidates
               (recommender_prefs.score_by_preferences log1p candidates
                  (mkPrefs genre_weights year_min popularity_pref)))
            (app.drop_duplicates
               (map (fun h => (recommender_history.h_movie_id h,
                               recommender_history.h_score h)) hist_df))).
Proof.
  unfold app.fused_candidates. intros H.
  destruct (recommender_history.recommend_from_history _ _ _ _ _)
    as [e|hist_df]; [discriminate|].
  cbn [mbind Result_bind] in H.
  destruct (app.chosen_weights genres_chosen zero_weights)
    as [e|genre_weights]; [discriminate|].
  cbn [mbind Result_bind mret Result_ret] in H.
  injection H as <-.
  eexists hist_df, genre_weights, _. repeat split.
  destruct genres_chosen; [reflexivity|apply filter_sublist].
Qed.

Lemma fused_candidates_positive (db : Database) (user_id : Z)
    (genres_chosen : list string) (year_min : Z) (popularity_pref : string)
    (alpha : float) (rows : list app.Merged) :
  app.fused_candidates cosine_similarity log1p db user_id genres_chosen
    year_min popularity_pref alpha = inr rows ->
  Forall positive_row rows.
Proof.
  intros H. apply fused_candidates_inv in H.
  destruct H as (hist_df & gw & cands & _ & _ & _ & ->).
  apply fuse_positive.
Qed.

(** [compute_hybrid_recs] is the final ordering of the eligible rows. *)
Lemma compute_hybrid_recs_inv (env : app.Environment) (db : Database)
    (cache : gmap Z (option string)) (user_id : Z)
    (genres_chosen : list string) (year_min : Z) (popularity_pref : string)
    (alpha : float) (foreign_choice : string) (top_n : nat)
    (recs : list app.Recommendation) (cache' : gmap Z (option string)) :
  app.compute_hybrid_recs cosine_similarity log1p env db cache user_id
    genres_chosen year_min popularity_pref alpha foreign_choice top_n
  = inr (recs, cache') ->
  exists eligible,
    eligible_rows cosine_similarity log1p env db cache user_id genres_chosen
      year_min popularity_pref alpha foreign_choice = inr eligible
    /\ Forall positive_row eligible
    /\ recs = map (app.to_result env)
                (app.final_ordering popularity_pref top_n eligible).
Proof.
  unfold app.compute_hybrid_recs, eligible_rows. intros H.
  destruct (app.fused_candidates _ _ _ _ _ _ _ _) as [e|merged] eqn:E;
    [discriminate|].
  cbn [mbind Result_bind mret Result_ret] in *.
  pose proof (fused_candidates_positive _ _ _ _ _ _ _ E) as Hpos.
  pose proof (foreign_filter_Forall positive_row env
                (if app.no_api_key env then "any" else foreign_choice)
                merged cache (fun m lang Hm => Hm) Hpos) as Hpos'.
  destruct (app.foreign_filter env _ merged cache) as [merged' c'].
  injection H as <- <-.
  exists merged'. repeat split. exact Hpos'.
Qed.

(** C6. In hidden mode the result of [compute_hybrid_recs] is the gems
    (rating count below 5000) followed by the other items, each part in
    descending order of final_score, and its size is the smaller of top_n
    and the number of eligible items after all filters. *)
Theorem hidden_gems_first (env : app.Environment) (db : Database)
    (cache : gmap Z (option string)) (user_id : Z)
    (genres_chosen : list string) (year_min : Z) (alpha : float)
    (foreign_choice : string) (top_n : nat)
    (recs : list app.Recommendation) (cache' : gmap Z (option string)) :
  app.compute_hybrid_recs cosine_similarity log1p env db cache user_id
    genres_chosen year_min "hidden" alpha foreign_choice top_n
  = inr (recs, cache') ->
  exists gems rest eligible,
    eligible_rows cosine_similarity log1p env db cache user_id genres_chosen
      year_min "hidden" alpha foreign_choice = inr eligible
    /\ recs = gems ++ rest
    /\ Forall is_gem gems
    /\ Forall (fun r => ~ is_gem r) rest
    /\ ranked_desc gems
    /\ ranked_desc rest
    /\ length recs = Nat.min top_n (length eligible).
Proof.
  intros H. apply compute_hybrid_recs_inv in H.
  destruct H as (eligible & Hel & Hpos & ->).
  destruct (final_ordering_hidden top_n eligible)
    as (gems & rest & -> & Hgems & Hrest & Hsg & Hsr & Hlen).
  assert (Hsorted : forall l,
            l `sublist_of` pd.sort_values_desc app.m_final_score eligible ->
            ranked_desc (map (app.to_result env) l)).
  { intros l Hl. unfold ranked_desc.
    apply (StronglySorted_fmap (app.to_result env)
             (fun m1 m2 => fge (app.m_final_score m1) (app.m_final_score m2)
                           = true)).
    { intros m1 m2 Hm. exact Hm. }
    apply (StronglySorted_weaken (pd.desc_by app.m_final_score) _
             positive_row).
    - unfold positive_row, pd.desc_by. intros m1 m2 H1 H2.
      destruct (app.m_final_score m1), (app.m_final_score m2);
        try discriminate.
      simpl. intros Hle. apply Qle_bool_iff. exact Hle.
    - eapply sublist_Forall'; [exact Hl|].
      eapply Permutation_Forall; [|exact Hpos].
      symmetry. apply sort_values_desc_perm.
    - eapply StronglySorted_sublist; [exact Hl|].
      apply sort_values_desc_sorted. }
  exists (map (app.to_result env) gems), (map (app.to_result env) rest),
    eligible.
  repeat split.
  - exact Hel.
  - apply map_app.
  - apply Forall_map. eapply Forall_impl; [exact Hgems|].
    intros m Hm. unfold is_gem, gem_row in *. simpl. lia.
  - apply Forall_map. eapply Forall_impl; [exact Hrest|].
    intros m Hm. unfold is_gem, gem_row in *. simpl. lia.
  - apply Hsorted, Hsg.
  - apply Hsorted, Hsr.
  - rewrite length_map. exact Hlen.
Qed.

End core_facts.

(** ** The language gate *)

Lemma Forall_zip_with {A B C} (P : C -> Prop) (f : A -> B -> C)
    (l : list A) (k : list B) :
  (forall x y, P (f x y)) -> Forall P (zip_with f l k).
Proof.
  intros Hf. revert k.
  induction l as [|x l IH]; intros [|y k]; simpl; constructor; auto.
Qed.

Lemma fuse_language_none (alpha : float)
    (merged : list (Candidate * float * float)) :
  Forall (fun m => app.m_original_language m = None) (app.fuse alpha merged).
Proof.
  unfold app.fuse. eapply sublist_Forall'; [apply filter_sublist|].
  apply Forall_zip_with.
  intros [[c ps] sc] [[[hs hn] pn] fs]. reflexivity.
Qed.

Lemma set_language_None (m : app.Merged) :
  app.m_original_language m = None -> app.set_language m None = m.
Proof. destruct m. simpl. intros ->. reflexivity. Qed.

Lemma resolve_languages_length (env : app.Environment)
    (merged : list app.Merged) (cache : gmap Z (option string)) :
  length (fst (app.resolve_languages env merged cache)) = length merged.
Proof.
  revert cache. induction merged as [|m merged IH]; intros cache; simpl.
  - reflexivity.
  - destruct (app.get_original_language env _ cache) as [lang cache1].
    specialize (IH cache1).
    destruct (app.resolve_languages env merged cache1) as [langs cache2].
    simpl in *. f_equal. exact IH.
Qed.

Lemma zip_with_set_language_none (merged : list app.Merged)
    (langs : list (option string)) :
  Forall (fun m => app.m_original_language m = None) merged ->
  Forall (fun l => l = None) langs ->
  length langs = length merged ->
  zip_with app.set_language merged langs = merged.
Proof.
  intros Hm. revert langs.
  induction Hm as [|m merged Hnone _ IH]; intros [|l langs] Hl Hlen;
    simpl in *; try discriminate; [reflexivity|].
  apply Forall_cons_1 in Hl. destruct Hl as [-> Hl].
  rewrite set_language_None by exact Hnone. f_equal.
  apply IH; [exact Hl|]. lia.
Qed.

Lemma language_gate_skipped (choice : string) (merged : list app.Merged) :
  Forall (fun m => app.m_original_language m = None) merged ->
  app.language_gate choice merged = merged.
Proof.
  intros Hnone. unfold app.language_gate.
  replace (List.filter (fun m => notna (app.m_original_language m)) merged)
    with (@nil app.Merged); [reflexivity|].
  induction Hnone as [|m merged Hm _ IH]; simpl; [reflexivity|].
  rewrite Hm. simpl. exact IH.
Qed.

Lemma zip_snd_Forall {A B} (P : B -> Prop) (l : list A) (k : list B) :
  length k = length l -> Forall (fun ab => P (snd ab)) (zip l k) -> Forall P k.
Proof.
  revert k. induction l as [|x l IH]; intros [|y k] Hlen H; simpl in *;
    try discriminate; constructor.
  - apply Forall_cons_1 in H. apply H.
  - apply IH; [lia|]. apply Forall_cons_1 in H. apply H.
Qed.

Lemma zip_with_In {A B C} (f : A -> B -> C) (l : list A) (k : list B)
    (x : A) (y : B) :
  In (x, y) (zip l k) -> In (f x y) (zip_with f l k).
Proof.
  revert k. induction l as [|a l IH]; intros [|b k]; simpl; try tauto.
  intros [Heq|Hin]; [left; congruence|right; auto].
Qed.

Lemma zip_In_snd {A B} (l : list A) (k : list B) (x : A) (y : B) :
  In (x, y) (zip l k) -> In y k.
Proof.
  revert k. induction l as [|a l IH]; intros [|b k]; simpl; try tauto.
  intros [Heq|Hin]; [left; congruence|right; eauto].
Qed.

(** Without API key every lookup answers None and leaves the cache as it
    is. *)
Lemma resolve_languages_no_key (env : app.Environment)
    (merged : list app.Merged) (cache : gmap Z (option string)) :
  app.no_api_key env = true ->
  fst (app.resolve_languages env merged cache) = map (fun _ => None) merged.
Proof.
  intros Hkey. revert cache.
  induction merged as [|m merged IH]; intros cache; simpl; [reflexivity|].
  unfold app.get_original_language. rewrite Hkey.
  specialize (IH cache).
  destruct (app.resolve_languages env merged cache) as [langs cache'].
  simpl in *. rewrite IH. reflexivity.
Qed.

Lemma zip_In_fst {A B} (l : list A) (k : list B) (x : A) (y : B) :
  In (x, y) (zip l k) -> In x l.
Proof.
  revert k. induction l as [|a l IH]; intros [|b k]; simpl; try tauto.
  intros [Heq|Hin]; [left; congruence|right; eauto].
Qed.

(** When the gate is not skipped, "exclude" keeps the rows without language
    and "only" keeps none of them. *)
Lemma language_gate_unknown (merged : list app.Merged) (m : app.Merged) :
  In m merged ->
  app.m_original_language m = None ->
  (exists m', In m' merged /\ app.m_original_language m' <> None) ->
  In m (app.language_gate "exclude" merged)
  /\ ~ In m (app.language_gate "only" merged).
Proof.
  intros Hin Hnone (m' & Hin' & Hsome). unfold app.language_gate.
  assert (Nat.ltb 0 (length (List.filter
            (fun m => notna (app.m_original_language m)) merged)) = true)
    as ->.
  { apply Nat.ltb_lt.
    assert (In m' (List.filter
              (fun m => notna (app.m_original_language m)) merged)) as Hf.
    { apply filter_In. split; [exact Hin'|].
      destruct (app.m_original_language m'); [reflexivity|congruence]. }
    destruct (List.filter _ merged); [destruct Hf|simpl; lia]. }
  cbn [String.eqb Ascii.eqb Bool.eqb]. split.
  - apply filter_In. split; [exact Hin|]. rewrite Hnone. reflexivity.
  - intros Hf. apply filter_In in Hf. destruct Hf as [_ Hf].
    rewrite Hnone in Hf. discriminate.
Qed.

Section language_policy.

Variable cosine_similarity : list (list Q) -> nat -> nat -> Q.
Variable log1p : Q -> Q.

(** The eligible rows when the key is configured and the policy is
    "exclude" or "only". *)
Lemma eligible_rows_gated (env : app.Environment) (db : Database)
    (cache : gmap Z (option string)) (user_id : Z)
    (genres_chosen : list string) (year_min : Z) (popularity_pref : string)
    (alpha : float) (choice : string) (merged : list app.Merged) :
  app.no_api_key env = false ->
  choice = "exclude" \/ choice = "only" ->
  app.fused_candidates cosine_similarity log1p db user_id genres_chosen
    year_min popularity_pref alpha = inr merged ->
  eligible_rows cosine_similarity log1p env db cache user_id genres_chosen
    year_min popularity_pref alpha choice
  = inr (app.language_gate choice
           (zip_with app.set_language merged
              (fst (app.resolve_languages env merged cache)))).
Proof.
  intros Hkey Hchoice Hfused. unfold eligible_rows.
  rewrite Hfused, Hkey. cbn [mbind Result_bind mret Result_ret].
  unfold app.foreign_filter.
  destruct (app.resolve_languages env merged cache) as [langs cache'].
  destruct Hchoice as [-> | ->]; reflexivity.
Qed.

(** C7. (1) Without API key, or when the language lookup yields nothing
    for every remaining candidate, policy "exclude" returns exactly the
    ordered result of policy "any". (2) When some lookup succeeds, a row
    whose lookup yields nothing is among the eligible rows of policy
    "exclude" and is not among those of policy "only". *)
Theorem foreign_policy_unknown_language (env : app.Environment)
    (db : Database) (cache : gmap Z (option string)) (user_id : Z)
    (genres_chosen : list string) (year_min : Z) (popularity_pref : string)
    (alpha : float) (top_n : nat) :
  (app.no_api_key env = true
   \/ no_usable_language cosine_similarity log1p env db cache user_id
        genres_chosen year_min popularity_pref alpha ->
   recommendations
     (app.compute_hybrid_recs cosine_similarity log1p env db cache user_id
        genres_chosen year_min popularity_pref alpha "exclude" top_n)
   = recommendations
       (app.compute_hybrid_recs cosine_similarity log1p env db cache user_id
          genres_chosen year_min popularity_pref alpha "any" top_n))
  /\ (forall lookups m,
        language_lookups cosine_similarity log1p env db cache user_id
          genres_chosen year_min popularity_pref alpha = inr lookups ->
        (exists ml, In ml lookups /\ snd ml <> None) ->
        In (m, None) lookups ->
        (exists kept,
            eligible_rows cosine_similarity log1p env db cache user_id
              genres_chosen year_min popularity_pref alpha "exclude"
            = inr kept /\ In m kept)
        /\ (exists kept,
               eligible_rows cosine_similarity log1p env db cache user_id
                 genres_chosen year_min popularity_pref alpha "only"
               = inr kept /\ ~ In m kept)).
Proof.
  split.
  - intros H. unfold app.compute_hybrid_recs.
    destruct (app.no_api_key env) eqn:Hkey; [reflexivity|].
    destruct H as [H|H]; [discriminate|].
    unfold no_usable_language, language_lookups in H.
    destruct (app.fused_candidates _ _ _ _ _ _ _ _) as [e|merged] eqn:E;
      [reflexivity|].
    cbn [mbind Result_bind mret Result_ret] in *.
    specialize (H _ eq_refl).
    apply fused_candidates_inv in E.
    destruct E as (hist & gw & cands & _ & _ & _ & ->).
    set (merged := app.fuse alpha _) in *.
    pose proof (fuse_language_none alpha
                  (app.merge_left
                     (zip cands
                        (recommender_prefs.score_by_preferences log1p cands
                           (mkPrefs gw year_min popularity_pref)))
                     (app.drop_duplicates
                        (map (fun h => (recommender_history.h_movie_id h,
                                        recommender_history.h_score h))
                             hist)))) as Hnone.
    fold merged in Hnone.
    pose proof (resolve_languages_length env merged cache) as Hlen.
    apply (zip_snd_Forall (fun l => l = None)) in H; [|exact Hlen].
    unfold app.foreign_filter. cbn [String.eqb Ascii.eqb Bool.eqb orb].
    destruct (app.resolve_languages env merged cache) as [langs cache'].
    simpl in H, Hlen.
    rewrite zip_with_set_language_none by assumption.
    rewrite language_gate_skipped by assumption.
    reflexivity.
  - intros lookups m Hlook Hsome Hin.
    unfold language_lookups in Hlook.
    destruct (app.fused_candidates _ _ _ _ _ _ _ _) as [e|merged] eqn:E;
      [discriminate|].
    cbn [mbind Result_bind mret Result_ret] in Hlook.
    injection Hlook as <-.
    assert (Hkey : app.no_api_key env = false).
    { destruct (app.no_api_key env) eqn:Hkey; [exfalso|reflexivity].
      destruct Hsome as ([m' l'] & Hin' & Hl'). apply Hl'. simpl.
      rewrite (resolve_languages_no_key env merged cache Hkey) in Hin'.
      apply zip_In_snd in Hin'. apply in_map_iff in Hin'.
      destruct Hin' as (? & <- & _). reflexivity. }
    rewrite !(eligible_rows_gated env db cache user_id genres_chosen
                year_min popularity_pref alpha _ merged Hkey) by auto.
    apply fused_candidates_inv in E.
    destruct E as (hist & gw & cands & _ & _ & _ & Emerged).
    assert (Hnone : Forall (fun m => app.m_original_language m = None)
                      merged).
    { rewrite Emerged. apply fuse_language_none. }
    set (langs := fst (app.resolve_languages env merged cache)) in *.
    assert (Hm : app.m_original_language m = None).
    { rewrite List.Forall_forall in Hnone. apply Hnone.
      eapply zip_In_fst. exact Hin. }
    pose proof (zip_with_In app.set_language _ _ _ _ Hin) as Hin'.
    rewrite set_language_None in Hin' by exact Hm.
    destruct Hsome as ([m' l'] & Hin2 & Hl'). simpl in Hl'.
    assert (Hex : exists r, In r (zip_with app.set_language merged langs)
                            /\ app.m_original_language r <> None).
    { exists (app.set_language m' l').
      split; [apply zip_with_In; exact Hin2|exact Hl']. }
    destruct (language_gate_unknown _ m Hin' Hm Hex) as [Hkeep Hdrop].
    split; eexists; split; try reflexivity; assumption.
Qed.

End language_policy.

(** ** Rated-item exclusion in [compute_hybrid_recs] *)

Lemma Forall_zip_with_fst {A B C} (P : A -> Prop) (Q : C -> Prop)
    (f : A -> B -> C) (l : list A) (k : list B) :
  (forall x y, P x -> Q (f x y)) -> Forall P l -> Forall Q (zip_with f l k).
Proof.
  intros Hf HP. revert k.
  induction HP as [|x l Px _ IH]; intros [|y k]; simpl; constructor; auto.
Qed.

Lemma candidate_pool_unrated (db : Database) (user_id : Z) :
  Forall (fun c => c_movie_id c ∉ app.get_user_rated_movie_ids db user_id)
         (app.candidate_pool db user_id).
Proof.
  unfold app.candidate_pool. case_bool_decide as Hempty.
  - rewrite Hempty. apply List.Forall_forall. intros c _. set_solver.
  - eapply Forall_impl; [apply filter_Forall|].
    intros c Hc. simpl in Hc. apply negb_true_iff in Hc.
    apply bool_decide_eq_false in Hc. exact Hc.
Qed.

Lemma merge_left_candidates (P : Candidate -> Prop)
    (candidates : list (Candidate * float)) (hist_df : list (Z * Q)) :
  Forall (fun cs => P (fst cs)) candidates ->
  Forall (fun row => P (fst (fst row))) (app.merge_left candidates hist_df).
Proof.
  intros HP. unfold app.merge_left. apply List.Forall_forall.
  intros row Hrow. apply in_flat_map in Hrow.
  destruct Hrow as ([c ps] & Hin & Hrow).
  rewrite List.Forall_forall in HP. specialize (HP _ Hin). simpl in HP.
  destruct (List.filter _ hist_df) as [|[m0 s0] ms].
  - destruct Hrow as [<-|[]]. exact HP.
  - apply in_map_iff in Hrow. destruct Hrow as ([m s] & <- & _). exact HP.
Qed.

Lemma fuse_candidates (P : Candidate -> Prop) (alpha : float)
    (merged : list (Candidate * float * float)) :
  Forall (fun row => P (fst (fst row))) merged ->
  Forall (fun m => P (app.m_candidate m)) (app.fuse alpha merged).
Proof.
  intros HP. unfold app.fuse.
  eapply sublist_Forall'; [apply filter_sublist|].
  eapply Forall_zip_with_fst; [|exact HP].
  intros [[c ps] sc] [[[hs hn] pn] fs] Hc. exact Hc.
Qed.

Lemma zip_fst_Forall {A B} (P : A -> Prop) (l : list A) (k : list B) :
  Forall P l -> Forall (fun ab => P (fst ab)) (zip l k).
Proof.
  intros HP. apply Forall_zip_with_fst with (P := P); auto.
Qed.

Lemma final_ordering_In (popularity_pref : string) (top_n : nat)
    (merged : list app.Merged) (m : app.Merged) :
  In m (app.final_ordering popularity_pref top_n merged) -> In m merged.
Proof.
  assert (Hsorted : forall l x,
            l `sublist_of` pd.sort_values_desc app.m_final_score merged ->
            In x l -> In x merged).
  { intros l x Hl Hx.
    eapply Permutation_in; [apply sort_values_desc_perm|].
    eapply sublist_In; eassumption. }
  unfold app.final_ordering.
  destruct (String.eqb popularity_pref "hidden").
  - destruct (Nat.leb _ _).
    + apply Hsorted. etransitivity; [apply sublist_take|apply filter_sublist].
    + intros Hin. apply in_app_or in Hin. destruct Hin as [Hin|Hin].
      * eapply Hsorted; [apply filter_sublist|exact Hin].
      * eapply Hsorted; [|exact Hin].
        etransitivity; [apply sublist_take|apply filter_sublist].
  - apply Hsorted. apply sublist_take.
Qed.

Section exclusion.

Variable cosine_similarity : list (list Q) -> nat -> nat -> Q.
Variable log1p : Q -> Q.

(** Every eligible row is a candidate of the pool that is left after the
    rated-item exclusion. *)
Lemma eligible_rows_unrated (env : app.Environment) (db : Database)
    (cache : gmap Z (option string)) (user_id : Z)
    (genres_chosen : list string) (year_min : Z) (popularity_pref : string)
    (alpha : float) (foreign_choice : string) (eligible : list app.Merged) :
  eligible_rows cosine_similarity log1p env db cache user_id genres_chosen
    year_min popularity_pref alpha foreign_choice = inr eligible ->
  Forall (fun m => c_movie_id (app.m_candidate m)
                   ∉ app.get_user_rated_movie_ids db user_id) eligible.
Proof.
  unfold eligible_rows. intros H.
  destruct (app.fused_candidates _ _ _ _ _ _ _ _) as [e|merged] eqn:E;
    [discriminate|].
  cbn [mbind Result_bind mret Result_ret] in H. injection H as <-.
  apply foreign_filter_Forall; [intros m lang Hm; exact Hm|].
  apply fused_candidates_inv in E.
  destruct E as (hist & gw & cands & _ & _ & Hsub & ->).
  apply (fuse_candidates
           (fun c => c_movie_id c ∉ app.get_user_rated_movie_ids db user_id)).
  apply (merge_left_candidates
           (fun c => c_movie_id c ∉ app.get_user_rated_movie_ids db user_id)).
  apply (zip_fst_Forall
           (fun c => c_movie_id c ∉ app.get_user_rated_movie_ids db user_id)).
  eapply sublist_Forall'; [exact Hsub|apply candidate_pool_unrated].
Qed.

(** The part of the rated-item exclusion that holds: no dict returned by
    [compute_hybrid_recs] carries a movie id of the user's rating set. *)
Lemma compute_hybrid_recs_excludes_rated (env : app.Environment)
    (db : Database) (cache : gmap Z (option string)) (user_id : Z)
    (genres_chosen : list string) (year_min : Z) (popularity_pref : string)
    (alpha : float) (foreign_choice : string) (top_n : nat)
    (recs : list app.Recommendation) (cache' : gmap Z (option string)) :
  app.compute_hybrid_recs cosine_similarity log1p env db cache user_id
    genres_chosen year_min popularity_pref alpha foreign_choice top_n
  = inr (recs, cache') ->
  Forall (fun r => app.movie_id r
                   ∉ app.get_user_rated_movie_ids db user_id) recs.
Proof.
  intros H. apply compute_hybrid_recs_inv in H.
  destruct H as (eligible & Hel & _ & ->).
  apply eligible_rows_unrated in Hel.
  apply List.Forall_forall. intros r Hr. apply in_map_iff in Hr.
  destruct Hr as (m & <- & Hm). apply final_ordering_In in Hm.
  rewrite List.Forall_forall in Hel. exact (Hel m Hm).
Qed.

End exclusion.

(** ** Labels and positions *)

Lemma get_loc_sound (labels : list Z) (key : Z) (i : nat) :
  pd.get_loc labels key = Some i -> labels !! i = Some key.
Proof.
  revert i. induction labels as [|l labels IH]; intros i; simpl.
  - discriminate.
  - destruct (Z.eqb_spec l key) as [->|Hne].
    + intros [= <-]. reflexivity.
    + destruct (pd.get_loc labels key) as [p|]; [|discriminate].
      intros [= <-]. simpl. apply IH. reflexivity.
Qed.

Lemma get_loc_NoDup (labels : list Z) (key : Z) (i : nat) :
  NoDup labels -> labels !! i = Some key -> pd.get_loc labels key = Some i.
Proof.
  intros Hnd. revert i.
  induction Hnd as [|l labels Hnotin _ IH]; intros i; simpl.
  - discriminate.
  - destruct i as [|i]; simpl.
    + intros [= ->]. rewrite Z.eqb_refl. reflexivity.
    + intros Hi. destruct (Z.eqb_spec l key) as [->|Hne].
      * exfalso. apply Hnotin. eapply list_elem_of_lookup_2. exact Hi.
      * rewrite (IH _ Hi). reflexivity.
Qed.

Lemma get_loc_In (labels : list Z) (key : Z) :
  In key labels -> exists i, pd.get_loc labels key = Some i.
Proof.
  induction labels as [|l labels IH]; simpl; [tauto|].
  intros Hin. destruct (Z.eqb_spec l key) as [->|Hne]; [eauto|].
  destruct Hin as [Heq|Hin]; [congruence|].
  destruct (IH Hin) as [i ->]. simpl. eauto.
Qed.

Lemma sorted_unique_In (l : list Z) (x : Z) :
  In x (pd.sorted_unique l) <-> In x l.
Proof.
  unfold pd.sorted_unique. rewrite <- !list_elem_of_In.
  rewrite merge_sort_Permutation. apply elem_of_remove_dups.
Qed.

Lemma sorted_unique_NoDup (l : list Z) : NoDup (pd.sorted_unique l).
Proof.
  unfold pd.sorted_unique. rewrite merge_sort_Permutation.
  apply NoDup_remove_dups.
Qed.

Lemma zip_with_map_map {A B C D} (f : B -> C -> D) (g : A -> B)
    (h : A -> C) (l : list A) :
  zip_with f (map g l) (map h l) = map (fun x => f (g x) (h x)) l.
Proof. induction l as [|x l IH]; simpl; [reflexivity|]. f_equal. exact IH. Qed.

Lemma zip_map_r {A B} (g : A -> B) (l : list A) :
  zip l (map g l) = map (fun x => (x, g x)) l.
Proof. induction l as [|x l IH]; simpl; [reflexivity|]. f_equal. exact IH. Qed.

(** ** The history scorer *)

Section history_scorer.

Import recommender_history.

Variable sim_matrix : nat -> nat -> Q.

Lemma sim_column_similarity (movie_ids : list Z) (i : Z) (p : nat) :
  NoDup movie_ids ->
  pd.get_loc movie_ids i = Some p ->
  map (fun a => sim_matrix a p) (seq 0 (length movie_ids))
  = map (similarity movie_ids sim_matrix i) movie_ids.
Proof.
  intros Hnd Hp. apply list_eq. intros a.
  change (@map) with (@fmap list _). rewrite !list_lookup_fmap.
  destruct (movie_ids !! a) as [j|] eqn:Ej; simpl.
  - rewrite lookup_seq_lt by (eapply lookup_lt_Some; exact Ej). simpl.
    unfold similarity. rewrite (get_loc_NoDup _ _ _ Hnd Ej), Hp.
    reflexivity.
  - rewrite lookup_seq_ge; [reflexivity|].
    apply lookup_ge_None. exact Ej.
Qed.

(** The loop of lines 116-120 from any starting scores, one item at a
    time. *)
Lemma spread_from (movie_ids : list Z) (rated : list (Z * Q))
    (start : Z -> Q) :
  NoDup movie_ids ->
  (forall i, In i (map fst rated) -> In i movie_ids) ->
  fold_left
    (fun scores '(movie_id, rating) =>
       match sim_column movie_ids sim_matrix movie_id with
       | None => scores
       | Some col =>
           zip_with Qplus scores (map (fun s => s * (rating - 3.0))%Q col)
       end)
    rated (map start movie_ids)
  = map (fun j =>
           fold_left
             (fun acc '(i, rating_i) =>
                acc + similarity movie_ids sim_matrix i j
                      * (rating_i - 3.0))%Q
             rated (start j))
        movie_ids.
Proof.
  intros Hnd. revert start.
  induction rated as [|[i r] rated IH]; intros start Hin; cbn [fold_left].
  - reflexivity.
  - destruct (get_loc_In movie_ids i) as [p Hp].
    { apply Hin. left. reflexivity. }
    unfold sim_column at 2. rewrite Hp.
    rewrite (sim_column_similarity _ _ _ Hnd Hp).
    rewrite map_map, zip_with_map_map.
    rewrite (IH (fun j => start j
                          + similarity movie_ids sim_matrix i j * (r - 3.0))%Q).
    + reflexivity.
    + intros k Hk. apply Hin. right. exact Hk.
Qed.

Lemma spread_pointwise (movie_ids : list Z) (rated : list (Z * Q)) :
  NoDup movie_ids ->
  (forall i, In i (map fst rated) -> In i movie_ids) ->
  spread movie_ids sim_matrix rated
  = map (propagated_score movie_ids sim_matrix rated) movie_ids.
Proof.
  intros Hnd Hin. unfold spread, propagated_score.
  apply (spread_from movie_ids rated (fun _ => 0.0%Q) Hnd Hin).
Qed.

Lemma positive_scores_spec (movie_ids : list Z) (rated : list (Z * Q)) :
  NoDup movie_ids ->
  (forall i, In i (map fst rated) -> In i movie_ids) ->
  positive_scores movie_ids sim_matrix rated
  = history_scores_spec movie_ids sim_matrix rated.
Proof.
  intros Hnd Hin. unfold positive_scores, history_scores_spec.
  rewrite (spread_pointwise _ _ Hnd Hin), zip_map_r. reflexivity.
Qed.

Lemma dropna_labels (labels : list Z) (row : list float) (i : Z) :
  In i (map fst (dropna labels row)) -> In i labels.
Proof.
  unfold dropna. revert row.
  induction labels as [|l labels IH]; intros [|x row]; simpl; try tauto.
  destruct x as [q|]; simpl; [|intros H; right; eauto].
  intros [<-|H]; [left; reflexivity|right; eauto].
Qed.


End history_scorer.

(** ** The target user's row *)

Lemma numbers_map_Some (l : list Q) : pd.numbers (map Some l) = l.
Proof.
  unfold pd.numbers. induction l as [|q l IH]; simpl; [reflexivity|].
  f_equal. exact IH.
Qed.

Lemma mean_of_numbers (l : list Q) :
  l <> [] -> exists q, pd.mean (map Some l) = Some q.
Proof.
  intros Hne. unfold pd.mean. rewrite numbers_map_Some.
  destruct l; [congruence|eauto].
Qed.

Section user_row_facts.

Import recommender_history.

(** The row [rating_matrix.loc[user_id]] belongs to a user of the rating
    set and holds, per column, the mean of that user's ratings of the
    movie. *)
Lemma loc_pivot_table (rs : list Rating) (user_id : Z) (row : list float) :
  pd.loc (pivot_table rs) user_id = Some row ->
  In user_id (map r_user_id rs)
  /\ row = map (fun m =>
                  pd.mean
                    (map (fun r => Some (r_rating r))
                       (List.filter
                          (fun r => Z.eqb (r_user_id r) user_id
                                    && Z.eqb (r_movie_id r) m) rs)))
               (pd.columns (pivot_table rs)).
Proof.
  unfold pd.loc, pivot_table. cbn [pd.index pd.values pd.columns].
  destruct (pd.get_loc _ user_id) as [i|] eqn:Ei; [|discriminate].
  apply get_loc_sound in Ei. intros Hrow.
  change (@map) with (@fmap list _) in Hrow at 1.
  rewrite list_lookup_fmap, Ei in Hrow. injection Hrow as <-.
  split; [|reflexivity].
  apply sorted_unique_In. apply list_elem_of_In.
  eapply list_elem_of_lookup_2. exact Ei.
Qed.

Lemma loc_pivot_table_None (rs : list Rating) (user_id : Z) :
  pd.loc (pivot_table rs) user_id = None <-> ~ In user_id (map r_user_id rs).
Proof.
  split.
  - intros Hnone Hin. apply sorted_unique_In in Hin.
    destruct (get_loc_In _ _ Hin) as [i Hi].
    unfold pd.loc, pivot_table in Hnone.
    cbn [pd.index pd.values pd.columns] in Hnone. rewrite Hi in Hnone.
    apply get_loc_sound in Hi.
    change (@map) with (@fmap list _) in Hnone at 1.
    rewrite list_lookup_fmap, Hi in Hnone. discriminate.
  - intros Hnotin. destruct (pd.loc (pivot_table rs) user_id) eqn:E;
      [|reflexivity].
    apply loc_pivot_table in E. tauto.
Qed.

Lemma dropna_map_In (labels : list Z) (g : Z -> float) (m : Z) (q : Q) :
  In m labels -> g m = Some q -> In (m, q) (dropna labels (map g labels)).
Proof.
  unfold dropna. intros Hin Hg.
  induction labels as [|l labels IH]; simpl; [destruct Hin|].
  destruct Hin as [->|Hin].
  - rewrite Hg. left. reflexivity.
  - destruct (g l); [right|]; auto.
Qed.

(** A row of the pivoted matrix always holds a rating: the test of lines
    107-108 never fires. *)
Lemma pivot_row_rated (rs : list Rating) (user_id : Z) (row : list float) :
  pd.loc (pivot_table rs) user_id = Some row ->
  dropna (pd.columns (pivot_table rs)) row <> [].
Proof.
  intros Hrow. apply loc_pivot_table in Hrow. destruct Hrow as [Hin ->].
  apply in_map_iff in Hin. destruct Hin as (r & Hu & Hr).
  set (g := fun m => pd.mean _).
  destruct (mean_of_numbers
              (map r_rating
                 (List.filter
                    (fun r0 => Z.eqb (r_user_id r0) user_id
                               && Z.eqb (r_movie_id r0) (r_movie_id r)) rs)))
    as [q Hq].
  { intros Hnil. apply map_eq_nil in Hnil.
    assert (In r (@nil Rating)) as [].
    rewrite <- Hnil. apply filter_In. split; [exact Hr|].
    rewrite Hu, !Z.eqb_refl. reflexivity. }
  rewrite map_map in Hq.
  assert (In (r_movie_id r, q)
            (dropna (pd.columns (pivot_table rs))
               (map g (pd.columns (pivot_table rs))))) as Hin.
  { apply dropna_map_In; [|exact Hq].
    apply sorted_unique_In. apply in_map. exact Hr. }
  intros Hnil. rewrite Hnil in Hin. destruct Hin.
Qed.

End user_row_facts.

(** ** Errors of [recommend_from_history] *)

Section history_errors.

Import recommender_history.

Variable cosine_similarity : list (list Q) -> nat -> nat -> Q.

(** The run of [recommend_from_history] in terms of the four conditions
    and the row lookup. *)
Lemma recommend_from_history_cases (db : Database) (user_id : Z)
    (top_n : nat) (min_ratings : Z) :
  recommend_from_history cosine_similarity db user_id top_n min_ratings
  = match select_user_ratings db user_id with
    | [] => raise (ValueError (user_has_no_ratings user_id))
    | _ =>
      match neighborhood db user_id with
      | [] => raise (ValueError not_enough_overlapping_data)
      | _ =>
        match user_row db user_id with
        | None => raise (KeyError_label user_id)
        | Some _ =>
          match propagated cosine_similarity db user_id with
          | [] => raise (ValueError no_positive_scored_movies)
          | _ =>
            match recommendable cosine_similarity db user_id min_ratings with
            | [] => raise (ValueError no_candidates_left)
            | rows =>
                inr (pd.head top_n
                       (pd.sort_values_desc (fun h => Some (h_score h))
                          rows))
            end
          end
        end
      end
    end.
Proof.
  unfold recommend_from_history, _build_local_matrix, recommendable,
    propagated, user_row, neighborhood.
  destruct (select_user_ratings db user_id) as [|ur urs]; [reflexivity|].
  destruct (local_ratings db user_id 3000 5) as [|r rs] eqn:Eloc;
    [reflexivity|].
  cbn [mbind Result_bind]. cbn [fillna0 pd.columns].
  destruct (pd.loc (pivot_table (r :: rs)) user_id) as [row|] eqn:Erow;
    [|reflexivity].
  cbn [from_option id].
  pose proof (pivot_row_rated _ _ _ Erow) as Hrated.
  destruct (dropna (pd.columns (pivot_table (r :: rs))) row) as [|x xs] eqn:Ed;
    [congruence|].
  destruct (positive_scores _ _ (x :: xs)) as [|s ss]; [reflexivity|].
  destruct (List.filter _ (join_stats (s :: ss) _)); reflexivity.
Qed.

(** What the function scores is the propagation of the history scorer. *)
Lemma propagated_spec (db : Database) (user_id : Z) :
  let rating_matrix := pivot_table (neighborhood db user_id) in
  propagated cosine_similarity db user_id
  = history_scores_spec (pd.columns rating_matrix)
      (cosine_similarity (pd.transpose (fillna0 rating_matrix)))
      (dropna (pd.columns rating_matrix) (default [] (user_row db user_id))).
Proof.
  unfold propagated. apply positive_scores_spec.
  - apply sorted_unique_NoDup.
  - apply dropna_labels.
Qed.

End history_errors.

Section history_error_conditions.

Import recommender_history.

Variable cosine_similarity : list (list Q) -> nat -> nat -> Q.

(** C2, amended. Whenever the lookup of the target user's row, if it is
    reached, finds the row: [recommend_from_history] raises if and only if
    one of four conditions holds, namely the target user has no ratings,
    the support-restricted neighbourhood rating set is empty, propagation
    leaves no unrated item with a strictly positive score, or no positively
    scored item is found in the catalogue with at least [min_ratings]
    ratings; each condition raises its own ValueError, and in every other
    case the function returns a result. *)
Theorem recommend_from_history_raises (db : Database) (user_id : Z)
    (top_n : nat) (min_ratings : Z) :
  (~ no_history db user_id -> ~ no_local_support db user_id ->
   is_Some (user_row db user_id)) ->
  let run :=
    recommend_from_history cosine_similarity db user_id top_n min_ratings in
  let failing :=
    no_history db user_id
    \/ no_local_support db user_id
    \/ no_signal cosine_similarity db user_id
    \/ nothing_recommendable cosine_similarity db user_id min_ratings in
  (raised run <-> failing)
  /\ (returned run <-> ~ failing)
  /\ (no_history db user_id ->
      run = raise (ValueError (user_has_no_ratings user_id)))
  /\ (~ no_history db user_id -> no_local_support db user_id ->
      run = raise (ValueError not_enough_overlapping_data))
  /\ (~ no_history db user_id -> ~ no_local_support db user_id ->
      no_signal cosine_similarity db user_id ->
      run = raise (ValueError no_positive_scored_movies))
  /\ (~ no_history db user_id -> ~ no_local_support db user_id ->
      ~ no_signal cosine_similarity db user_id ->
      nothing_recommendable cosine_similarity db user_id min_ratings ->
      run = raise (ValueError no_candidates_left)).
Proof.
  intros Hrow run failing. subst run failing.
  rewrite recommend_from_history_cases.
  unfold no_history, no_local_support, no_signal, nothing_recommendable
    in *.
  destruct (select_user_ratings db user_id) as [|ur urs].
  { simpl. intuition congruence. }
  destruct (neighborhood db user_id) as [|r rs].
  { simpl. intuition congruence. }
  destruct (user_row db user_id) as [row|].
  2:{ destruct Hrow as [row Hrow]; congruence. }
  destruct (propagated cosine_similarity db user_id) as [|s ss].
  { simpl. intuition congruence. }
  destruct (recommendable cosine_similarity db user_id min_ratings)
    as [|h hs].
  { simpl. intuition congruence. }
  simpl. intuition congruence.
Qed.

End history_error_conditions.

Section history_samples.

Import recommender_history.

Lemma recommend_from_history_raises_witness :
  returned (recommend_from_history cosine_exact sample_db 0 10 30)
  /\ ~ (no_history sample_db 0
        \/ no_local_support sample_db 0
        \/ no_signal cosine_exact sample_db 0
        \/ nothing_recommendable cosine_exact sample_db 0 30).
Proof.
  assert (Hrow : ~ no_history sample_db 0 -> ~ no_local_support sample_db 0 ->
                 is_Some (user_row sample_db 0)).
  { intros _ _. vm_compute. eauto. }
  assert (Hok : ~ (no_history sample_db 0
                   \/ no_local_support sample_db 0
                   \/ no_signal cosine_exact sample_db 0
                   \/ nothing_recommendable cosine_exact sample_db 0 30)).
  { intros [H|[H|[H|H]]]; vm_compute in H; discriminate. }
  split; [|exact Hok].
  exact (proj2 (proj1 (proj2 (recommend_from_history_raises cosine_exact
                                sample_db 0 10 30 Hrow))) Hok).
Defined.

(** On the store [sparse_db] user 0 has ratings, the neighbourhood is not
    empty and movie 2 gets the positive score 0.96, yet the function
    raises, because the catalogue counts only 12 ratings for movie 2. *)
Lemma recommend_from_history_raises_counterexample :
  ~ (raised (recommend_from_history cosine_exact sparse_db 0 10 30)
     <-> no_history sparse_db 0
         \/ no_local_support sparse_db 0
         \/ no_signal cosine_exact sparse_db 0).
Proof.
  intros [Hraised _].
  assert (raised (recommend_from_history cosine_exact sparse_db 0 10 30))
    as Hrun by (vm_compute; exact I).
  destruct (Hraised Hrun) as [H|[H|H]]; vm_compute in H; discriminate.
Qed.

Example sparse_db_run :
  recommend_from_history cosine_exact sparse_db 0 10 30
  = raise (ValueError no_candidates_left)
  /\ propagated cosine_exact sparse_db 0 = [(2%Z, Qmake 24000 25000)].
Proof. split; vm_compute; reflexivity. Qed.

(** C10, at the store [orphan_db]: user 0 has two ratings and the locally
    support-filtered rating set is not empty, but none of user 0's movies
    survives the filter, the pivoted matrix has no row for user 0 and the
    lookup of line 105 raises KeyError, whatever the similarity. *)
Theorem user_row_lost (cosine_similarity : list (list Q) -> nat -> nat -> Q) :
  select_user_ratings orphan_db 0 = [(1%Z, 4.5%Q); (3%Z, 4.0%Q)]
  /\ map r_movie_id (neighborhood orphan_db 0) = [2; 2; 2; 2; 2]%Z
  /\ pd.index (pivot_table (neighborhood orphan_db 0)) = [1; 2; 3; 4; 5]%Z
  /\ user_row orphan_db 0 = None
  /\ recommend_from_history cosine_similarity orphan_db 0 10 30
     = raise (KeyError_label 0).
Proof. repeat split; vm_compute; reflexivity. Qed.

(** On the sample ratings the stand-in is the cosine similarity: the
    squared norms of the two item columns are 56.25 and 25, the squares of
    7.5 and 5, and the similarity of movies 1 and 2 is 24 / 37.5. *)
Example cosine_exact_sample :
  let X := pd.transpose (fillna0 (pivot_table (neighborhood sample_db 0))) in
  X = [[4.5; 3.0; 3.0; 3.0; 3.0; 0]; [0; 2.0; 2.0; 2.0; 2.0; 3.0]]%Q
  /\ (Qsqrt (dot (nth 0 X []) (nth 0 X [])) == 7.5)%Q
  /\ (Qsqrt (dot (nth 1 X []) (nth 1 X [])) == 5)%Q
  /\ cosine_exact X 0 1 = Qmake 16 25.
Proof. vm_compute. repeat split; reflexivity. Qed.

(** The scenario of the specification: ratings A = 5 and B = 1; C is
    similar to A (0.8) and dissimilar to B (0.1), D the other way round.
    C scores 0.8 * 2 + 0.1 * (-2) = 1.4 and is kept, D scores -1.4 and is
    dropped, A and B are rated and dropped. *)
Example history_scenario :
  map (fun ms => (fst ms, Qred (snd ms)))
    (positive_scores [1; 2; 3; 4]%Z
       (fun a p =>
          nth p (nth a [[1; 0; 0.8; 0.1]; [0; 1; 0.1; 0.8];
                        [0.8; 0.1; 1; 0]; [0.1; 0.8; 0; 1]]%Q []) 0%Q)
       [(1%Z, 5.0%Q); (2%Z, 1.0%Q)])
  = [(3%Z, Qmake 7 5)].
Proof. vm_compute. reflexivity. Qed.

End history_samples.

(** ** Rated-item exclusion in [recommend_hybrid] *)

(** C1, at the store [sample_db]: user 0 rated movie 1, and movie 1 is in
    the list [recommend_hybrid] returns for user 0. The preference side
    ranks the whole catalogue and nothing removes the user's rated movies
    from it. *)
Theorem recommend_hybrid_returns_rated :
  recommender_history.select_user_ratings sample_db 0
  = [(1%Z, 4.5%Q); (3%Z, 4.0%Q)]
  /\ exists rows,
       hybrid_recommender.recommend_hybrid cosine_exact log1p_sample
         sample_db sample_answers 0 (Some 0.5%Q) 10 = inr rows
       /\ map hybrid_recommender.y_movie_id rows = [2; 4; 1; 6; 5]%Z
       /\ Exists (fun row => hybrid_recommender.y_movie_id row
                             ∈ app.get_user_rated_movie_ids sample_db 0)
                 rows.
Proof.
  split; [vm_compute; reflexivity|].
  eexists. split; [vm_compute; reflexivity|].
  split; [reflexivity|].
  apply Exists_cons_tl, Exists_cons_tl, Exists_cons_hd.
  vm_compute. reflexivity.
Qed.

(** ** Sample runs of [compute_hybrid_recs] *)

Lemma hidden_gems_first_witness :
  exists recs gems rest eligible,
    eligible_rows cosine_exact log1p_sample sample_env sample_db ∅ 0 []
      1900 "hidden" (Some 0.4%Q) "any" = inr eligible
    /\ recs = gems ++ rest
    /\ Forall is_gem gems
    /\ Forall (fun r => ~ is_gem r) rest
    /\ ranked_desc gems
    /\ ranked_desc rest
    /\ length recs = Nat.min 3 (length eligible).
Proof.
  eexists.
  eapply (hidden_gems_first cosine_exact log1p_sample sample_env sample_db
            ∅ 0 [] 1900 (Some 0.4%Q) "any" 3 _ _).
  vm_compute. reflexivity.
Defined.

Example hidden_run_ids :
  match app.compute_hybrid_recs cosine_exact log1p_sample sample_env
          sample_db ∅ 0 [] 1900 "hidden" (Some 0.4%Q) "any" 3 with
  | inr (recs, _) => map app.movie_id recs
  | inl _ => []
  end = [2; 5; 4]%Z.
Proof. vm_compute. reflexivity. Qed.

Lemma foreign_policy_unknown_language_witness :
  recommendations
    (app.compute_hybrid_recs cosine_exact log1p_sample offline_env
       sample_db ∅ 0 [] 1900 "hidden" (Some 0.4%Q) "exclude" 3)
  = recommendations
      (app.compute_hybrid_recs cosine_exact log1p_sample offline_env
         sample_db ∅ 0 [] 1900 "hidden" (Some 0.4%Q) "any" 3)
  /\ exists m,
       c_movie_id (app.m_candidate m) = 4%Z
       /\ (exists kept,
              eligible_rows cosine_exact log1p_sample sample_env sample_db
                ∅ 0 [] 1900 "hidden" (Some 0.4%Q) "exclude" = inr kept
              /\ In m kept)
       /\ (exists kept,
              eligible_rows cosine_exact log1p_sample sample_env sample_db
                ∅ 0 [] 1900 "hidden" (Some 0.4%Q) "only" = inr kept
              /\ ~ In m kept).
Proof.
  split.
  - apply (foreign_policy_unknown_language cosine_exact log1p_sample
             offline_env sample_db ∅ 0 [] 1900 "hidden" (Some 0.4%Q) 3).
    left. reflexivity.
  - destruct (language_lookups cosine_exact log1p_sample sample_env
                sample_db ∅ 0 [] 1900 "hidden" (Some 0.4%Q))
      as [e|lookups] eqn:E; [vm_compute in E; discriminate|].
    assert (exists m, c_movie_id (app.m_candidate m) = 4%Z
                      /\ In (m, None) lookups
                      /\ exists ml, In ml lookups /\ snd ml <> None)
      as (m & Hid & Hin & Hsome).
    { vm_compute in E. injection E as <-.
      eexists. split; [|split].
      2:{ right. left. reflexivity. }
      - reflexivity.
      - eexists. split; [left; reflexivity|]. discriminate. }
    exists m. split; [exact Hid|].
    apply (proj2 (foreign_policy_unknown_language cosine_exact log1p_sample
                    sample_env sample_db ∅ 0 [] 1900 "hidden"
                    (Some 0.4%Q) 3) lookups m); auto.
Defined.

(** ** Preference scores *)

Lemma rarity_eq (n : Q) :
  (Qmax ((500.0 - n) / 500.0) 0.0 == Qmax 0 ((500 - n) / 500))%Q.
Proof.
  rewrite Q.max_comm. apply Q.max_compat; [reflexivity|].
  field.
Qed.

Section preference_rows.

Import recommender_prefs.

Variable log1p : Q -> Q.

Lemma sub_where_not_map {A} (mask : A -> bool) (d : Q) (g : A -> float)
    (l : list A) :
  pd.sub_where_not (map mask l) d (map g l)
  = map (fun x => if mask x then g x else fsub (g x) (Some d)) l.
Proof. unfold pd.sub_where_not. apply zip_with_map_map. Qed.

Lemma genre_boosts_rows (df : list Candidate) (weights : list (GenreCol * Q))
    (selected : list GenreCol) (g : Candidate -> float) :
  fold_left
    (fun '(selected_cols, scores) '(col, weight) =>
       if negb (Qeq_bool weight 0) then
         (selected_cols ++ [col],
          zip_with fadd scores (map (boost col weight) df))
       else (selected_cols, scores))
    weights (selected, map g df)
  = (selected
     ++ map fst (List.filter (fun cw => negb (Qeq_bool (snd cw) 0)) weights),
     map (fun c =>
            fold_left
              (fun acc cw =>
                 if negb (Qeq_bool (snd cw) 0) then
                   fadd acc (boost (fst cw) (snd cw) c)
                 else acc)
              weights (g c))
         df).
Proof.
  revert selected g.
  induction weights as [|[col w] weights IH]; intros selected g;
    cbn [fold_left List.filter map fst snd].
  - rewrite app_nil_r. reflexivity.
  - destruct (negb (Qeq_bool w 0)).
    + rewrite zip_with_map_map, IH. cbn [map fst].
      rewrite <- app_assoc. reflexivity.
    + apply IH.
Qed.

Lemma score_by_preferences_rows (df : list Candidate) (prefs : Prefs) :
  score_by_preferences log1p df prefs = map (row_score log1p df prefs) df.
Proof.
  unfold score_by_preferences, genre_boosts.
  rewrite genre_boosts_rows. cbn [app].
  fold (selected_genres prefs).
  unfold row_score.
  set (sel := map fst (selected_genres prefs)).
  set (boosted := fun c : Candidate =>
                    fold_left _ (genre_weights prefs) (c_avg_rating c)).
  assert (Hfinish : forall scored : Candidate -> float,
    (if String.eqb (popularity_pref prefs) "popular" then
       zip_with fadd (map scored df) (log_pop log1p df)
     else if String.eqb (popularity_pref prefs) "hidden" then
       zip_with fsub
         (zip_with fadd (map scored df)
            (map (fun r => Some (r * 3.0)%Q)
               (map (fun p => Qmax ((500.0 - p) / 500.0) 0.0)%Q
                  (map (fun c => inject_Z (c_num_ratings c)) df))))
         (map (fun l => fmul (fsub l (pd.min (log_pop log1p df)))
                          (Some 0.2%Q))
              (log_pop log1p df))
     else
       zip_with fadd (map scored df)
         (map (fun l => fmul (fsub l (pd.mean (log_pop log1p df)))
                          (Some 0.3%Q))
              (log_pop log1p df)))
    = map (fun c =>
             if String.eqb (popularity_pref prefs) "popular" then
               fadd (scored c) (Some (log_count log1p c))
             else if String.eqb (popularity_pref prefs) "hidden" then
               fsub (fadd (scored c)
                       (Some (Qmax ((500.0 - inject_Z (c_num_ratings c))
                                    / 500.0) 0.0 * 3.0)%Q))
                    (fmul (fsub (Some (log_count log1p c))
                             (pd.min (log_pop log1p df)))
                          (Some 0.2%Q))
             else
               fadd (scored c)
                    (fmul (fsub (Some (log_count log1p c))
                             (pd.mean (log_pop log1p df)))
                          (Some 0.3%Q)))
          df).
  { intros scored. unfold log_pop at 1 3 5.
    destruct (String.eqb (popularity_pref prefs) "popular").
    - apply zip_with_map_map.
    - destruct (String.eqb (popularity_pref prefs) "hidden").
      + rewrite !map_map, !zip_with_map_map. reflexivity.
      + rewrite !map_map, zip_with_map_map. reflexivity. }
  destruct sel as [|col sel'].
  - rewrite sub_where_not_map. apply Hfinish.
  - rewrite !sub_where_not_map. apply Hfinish.
Qed.

Lemma fold_boost_None (c : Candidate) (weights : list (GenreCol * Q)) :
  fold_left
    (fun acc cw =>
       if negb (Qeq_bool (snd cw) 0) then fadd acc (boost (fst cw) (snd cw) c)
       else acc)
    weights NaN = NaN.
Proof.
  induction weights as [|[col w] weights IH]; simpl; [reflexivity|].
  destruct (negb (Qeq_bool w 0)); exact IH.
Qed.

Lemma fold_boost_Some (c : Candidate) (weights : list (GenreCol * Q)) (a : Q) :
  fold_left
    (fun acc cw =>
       if negb (Qeq_bool (snd cw) 0) then fadd acc (boost (fst cw) (snd cw) c)
       else acc)
    weights (Some a) = Some (fold_left (boost_step c) weights a).
Proof.
  revert a. induction weights as [|[col w] weights IH]; intros a; simpl;
    [reflexivity|].
  unfold boost_step at 2. simpl.
  destruct (negb (Qeq_bool w 0)); apply IH.
Qed.

Lemma fold_boost_step_proper (c : Candidate) (weights : list (GenreCol * Q))
    (x y : Q) :
  (x == y)%Q ->
  (fold_left (boost_step c) weights x == fold_left (boost_step c) weights y)%Q.
Proof.
  revert x y. induction weights as [|[col w] weights IH]; intros x y Hxy;
    simpl; [exact Hxy|].
  apply IH. unfold boost_step. simpl.
  destruct (negb (Qeq_bool w 0)); [rewrite Hxy; reflexivity|exact Hxy].
Qed.

Lemma fold_boost_step_bonus (c : Candidate) (weights : list (GenreCol * Q))
    (a acc : Q) :
  (fold_left (boost_step c) weights (a + acc)
   == a + fold_left
            (fun acc cw =>
               if flag (fst cw) (c_flags c) then acc + snd cw else acc)
            (List.filter (fun cw => negb (Qeq_bool (snd cw) 0)) weights)
            acc)%Q.
Proof.
  revert acc. induction weights as [|[col w] weights IH]; intros acc;
    cbn [fold_left List.filter snd fst]; [reflexivity|].
  unfold boost_step at 2. cbn [fst snd].
  destruct (negb (Qeq_bool w 0)); cbn [fold_left fst snd]; [|apply IH].
  rewrite <- IH. apply fold_boost_step_proper.
  destruct (flag col (c_flags c)); simpl; ring.
Qed.

Lemma genre_match_existsb (c : Candidate) (sel : list (GenreCol * Q)) :
  genre_match (map fst sel) c
  = existsb (fun cw => flag (fst cw) (c_flags c)) sel.
Proof.
  unfold genre_match.
  assert (H : forall acc, (0 <= acc)%Z ->
            Z.ltb 0 (fold_left Z.add
                       (map (fun col => Z.b2z (flag col (c_flags c)))
                            (map fst sel)) acc)
            = Z.ltb 0 acc
              || existsb (fun cw => flag (fst cw) (c_flags c)) sel).
  { induction sel as [|[col w] sel IH]; intros acc Hacc; simpl.
    - rewrite orb_false_r. reflexivity.
    - rewrite IH by (destruct (flag col (c_flags c)); simpl; lia).
      destruct (flag col (c_flags c)); simpl.
      + rewrite orb_true_r.
        replace (0 <? acc + 1)%Z with true by (symmetry; apply Z.ltb_lt; lia).
        reflexivity.
      + rewrite Z.add_0_r. reflexivity. }
  rewrite H by lia. reflexivity.
Qed.

Lemma row_score_formula (df : list Candidate) (prefs : Prefs) (c : Candidate) :
  feq (row_score log1p df prefs c) (preference_score log1p df prefs c).
Proof.
  unfold row_score, preference_score, popularity_term, no_genre_match.
  change (log_pop log1p df)
    with (map (fun c' => Some (log_count log1p c')) df).
  rewrite (Z.ltb_antisym (year_min prefs) (c_year c)).
  pose proof (rarity_eq (inject_Z (c_num_ratings c))) as Hrar.
  set (r1 := Qmax _ 0.0) in *. set (r2 := Qmax 0 _) in *.
  assert (Hnan :
    forall lo mu : float,
      feq
        (let scores := NaN in
         let scores :=
           match map fst (selected_genres prefs) with
           | [] => scores
           | _ =>
               if genre_match (map fst (selected_genres prefs)) c then scores
               else fsub scores (Some 3.0%Q)
           end in
         let scores :=
           if Z.leb (year_min prefs) (c_year c) then scores
           else fsub scores (Some 2.0%Q) in
         if String.eqb (popularity_pref prefs) "popular" then
           fadd scores (Some (log_count log1p c))
         else if String.eqb (popularity_pref prefs) "hidden" then
           fsub (fadd scores (Some (r1 * 3.0)%Q))
                (fmul (fsub (Some (log_count log1p c)) lo) (Some 0.2%Q))
         else
           fadd scores (fmul (fsub (Some (log_count log1p c)) mu)
                          (Some 0.3%Q)))
        NaN).
  { intros lo mu.
    destruct (map fst (selected_genres prefs));
      [|destruct (genre_match _ c)];
      destruct (Z.leb (year_min prefs) (c_year c));
      destruct (String.eqb (popularity_pref prefs) "popular");
      destruct (String.eqb (popularity_pref prefs) "hidden");
      exact I. }
  destruct (c_avg_rating c) as [a|].
  2:{ rewrite fold_boost_None. cbn [fadd fsub float_map2 NaN].
      apply Hnan. }
  clear Hnan. rewrite fold_boost_Some.
  pose proof (fold_boost_step_bonus c (genre_weights prefs) a 0) as Hb.
  fold (selected_genres prefs) in Hb. fold (genre_bonus prefs c) in Hb.
  set (bonus := genre_bonus prefs c) in *.
  assert (Hb' : (fold_left (boost_step c) (genre_weights prefs) a
                 == a + bonus)%Q).
  { rewrite <- Hb. apply fold_boost_step_proper. ring. }
  clear Hb. set (b := fold_left (boost_step c) _ a) in *.
  destruct (pd.min _) as [lo|]; destruct (pd.mean _) as [mu|];
    (destruct (selected_genres prefs) as [|cw sel] eqn:Esel;
     [ cbn [map]
     | rewrite <- Esel, genre_match_existsb, Esel;
       destruct (existsb _ (cw :: sel)); cbn [map negb] ];
     destruct (Z.leb (year_min prefs) (c_year c));
     destruct (String.eqb (popularity_pref prefs) "popular");
     destruct (String.eqb (popularity_pref prefs) "hidden");
     cbn; try exact I; lra).
Qed.

(** C4. For every candidate pool and preference profile, the score of
    each candidate of the pool is its average rating, plus the weight (2.0
    by policy) of each selected genre whose flag is true, minus 3.0 when
    some genre is selected and no selected-genre flag is true, minus 2.0
    when its year is below the minimum year, plus the popularity term of
    the mode, which in hidden mode is
    max(0, (500 - rating_count) / 500) * 3.0
    - (log(1 + rating_count) - min over the pool of log(1 + rating_count))
      * 0.2. *)
Theorem score_by_preferences_formula (df : list Candidate) (prefs : Prefs) :
  Forall2 (fun c score => feq score (preference_score log1p df prefs c))
          df (score_by_preferences log1p df prefs).
Proof.
  rewrite score_by_preferences_rows.
  generalize (row_score_formula df prefs).
  generalize (row_score log1p df prefs) (preference_score log1p df prefs).
  intros g f Hgf. induction df as [|c l IH]; simpl; constructor; auto.
Qed.

End preference_rows.

(** The profiles the repository builds carry the policy weights. *)
Lemma dict_set_policy (weights : list (GenreCol * Q)) (col : GenreCol) :
  policy_weights weights -> policy_weights (dict_set weights col 2.0%Q).
Proof.
  unfold policy_weights. induction 1 as [|[k w] weights Hw Hws IH]; simpl.
  - constructor; [right; reflexivity|constructor].
  - destruct (decide (k = col)).
    + constructor; [right; reflexivity|assumption].
    + constructor; [exact Hw|exact IH].
Qed.

Lemma zero_weights_policy : policy_weights zero_weights.
Proof.
  unfold policy_weights, zero_weights.
  repeat (constructor; [left; reflexivity|]). constructor.
Qed.

Lemma chosen_weights_policy (genres_chosen : list string)
    (weights weights' : list (GenreCol * Q)) :
  policy_weights weights ->
  app.chosen_weights genres_chosen weights = inr weights' ->
  policy_weights weights'.
Proof.
  revert weights. induction genres_chosen as [|g gs IH]; intros weights Hw;
    cbn [app.chosen_weights mret Result_ret].
  - intros [= <-]. exact Hw.
  - destruct (dict_get app.genre_map g) as [col|];
      [|unfold raise; intros H; discriminate H].
    apply IH. apply dict_set_policy. exact Hw.
Qed.

Lemma ask_preferences_policy (stdin : recommender_prefs.Answers) :
  policy_weights (genre_weights (recommender_prefs.ask_preferences stdin)).
Proof.
  unfold recommender_prefs.ask_preferences. cbn [genre_weights].
  generalize zero_weights_policy. generalize zero_weights.
  induction (map recommender_prefs.strip _) as [|p picks IH];
    intros weights Hw; cbn [fold_left]; [exact Hw|].
  apply IH.
  destruct (dict_get recommender_prefs.id_to_col p); [|exact Hw].
  apply dict_set_policy. exact Hw.
Qed.

(** Under the policy weights every selected genre weighs 2.0. *)
Lemma selected_genres_policy (prefs : Prefs) :
  policy_weights (genre_weights prefs) ->
  Forall (fun cw => snd cw = 2.0%Q) (selected_genres prefs).
Proof.
  unfold policy_weights, selected_genres. intros Hw.
  apply List.Forall_forall. intros [col w] Hin. apply filter_In in Hin.
  destruct Hin as [Hin Hnz]. rewrite List.Forall_forall in Hw.
  destruct (Hw _ Hin) as [H|H]; simpl in *; [|exact H].
  rewrite H in Hnz. discriminate.
Qed.

(** ** The request boundary *)

Section boundary.

Variable cosine_similarity : list (list Q) -> nat -> nat -> Q.
Variable log1p : Q -> Q.
Variable py_float : string -> option float.

(** C9, amended. A fusion weight that is no number is rejected at the
    request boundary: [float] raises before [compute_hybrid_recs] is
    called, and the page carries the error and no results. Every weight
    that [float] accepts, inside or outside [0, 1], is passed to
    [compute_hybrid_recs] as it is: the call that [index] makes is the
    call of [compute_hybrid_recs] with that weight, and the page is built
    from what this call returns or raises. *)
Theorem index_alpha_boundary (env : app.Environment) (db : Database)
    (MY_USER_ID : Z) (cache : gmap Z (option string)) (req : app.Request) :
  (py_float (alpha_field req) = None ->
   app.read_form py_float MY_USER_ID req
   = raise (ValueError (could_not_convert_to_float (alpha_field req)))
   /\ (app.method req = "POST" ->
       app.index cosine_similarity log1p py_float env db MY_USER_ID cache req
       = (app.mkPage
            (Some (ValueError (could_not_convert_to_float (alpha_field req))))
            None ["Horror"] "any" "mixed" (Some 0.4%Q) "any",
          cache)))
  /\ (forall alpha,
        py_float (alpha_field req) = Some alpha ->
        exists call,
          app.read_form py_float MY_USER_ID req = inr call
          /\ app.call_alpha call = alpha
          /\ app.call_core cosine_similarity log1p env db cache call
             = app.compute_hybrid_recs cosine_similarity log1p env db cache
                 MY_USER_ID (app.call_genres_chosen call)
                 (app.call_year_min call) (app.call_popularity_pref call)
                 alpha (app.call_foreign_choice call) 10
          /\ (app.method req = "POST" ->
              app.index cosine_similarity log1p py_float env db MY_USER_ID
                cache req
              = match
                  app.compute_hybrid_recs cosine_similarity log1p env db
                    cache MY_USER_ID (app.call_genres_chosen call)
                    (app.call_year_min call) (app.call_popularity_pref call)
                    alpha (app.call_foreign_choice call) 10
                with
                | inl e =>
                    (app.mkPage (Some e) None ["Horror"] "any" "mixed"
                       (Some 0.4%Q) "any",
                     cache)
                | inr (results, cache') =>
                    (app.mkPage None (Some results)
                       (match app.call_genres_chosen call with
                        | [] => ["Horror"]
                        | gs => gs
                        end)
                       (app.form_get (app.form req) "year_choice" "any")
                       (app.call_popularity_pref call) alpha
                       (app.call_foreign_choice call),
                     cache')
                end)).
Proof.
  unfold alpha_field. split.
  - intros Hnone.
    assert (Hread : app.read_form py_float MY_USER_ID req
                    = raise (ValueError
                               (could_not_convert_to_float
                                  (app.form_get (app.form req) "alpha"
                                     "0.4")))).
    { unfold app.read_form. rewrite Hnone. reflexivity. }
    split; [exact Hread|].
    intros Hpost. unfold app.index. rewrite Hpost, Hread. reflexivity.
  - intros alpha Hsome.
    assert (Hread : exists call,
              app.read_form py_float MY_USER_ID req = inr call
              /\ app.call_alpha call = alpha
              /\ app.call_user_id call = MY_USER_ID
              /\ app.call_top_n call = 10).
    { unfold app.read_form. rewrite Hsome. eexists. repeat split. }
    destruct Hread as (call & Hread & Halpha & Huser & Htop).
    exists call. split; [exact Hread|]. split; [exact Halpha|].
    unfold app.index, app.call_core. rewrite Hread, Halpha, Huser, Htop.
    split; [reflexivity|]. intros Hpost. rewrite Hpost.
    destruct (app.compute_hybrid_recs _ _ _ _ _ _ _ _ _ _ _ _)
      as [e|[results cache']]; [reflexivity|].
    unfold app.read_form in Hread. rewrite Hsome in Hread.
    injection Hread as <-. reflexivity.
Qed.

End boundary.

Lemma index_alpha_boundary_witness :
  app.read_form decimal 9999999 garbled_request
  = raise (ValueError (could_not_convert_to_float "much"))
  /\ exists call,
       app.read_form decimal 9999999 heavy_request = inr call
       /\ app.call_alpha call = Some (Qmake 3 2)
       /\ app.call_core cosine_exact log1p_sample sample_env sample_db ∅
            call
          = app.compute_hybrid_recs cosine_exact log1p_sample sample_env
              sample_db ∅ 9999999 (app.call_genres_chosen call)
              (app.call_year_min call) (app.call_popularity_pref call)
              (Some (Qmake 3 2)) (app.call_foreign_choice call) 10
       /\ (app.method heavy_request = "POST" ->
           app.index cosine_exact log1p_sample decimal sample_env
             sample_db 9999999 ∅ heavy_request
           = match
               app.compute_hybrid_recs cosine_exact log1p_sample
                 sample_env sample_db ∅ 9999999
                 (app.call_genres_chosen call) (app.call_year_min call)
                 (app.call_popularity_pref call) (Some (Qmake 3 2))
                 (app.call_foreign_choice call) 10
             with
             | inl e =>
                 (app.mkPage (Some e) None ["Horror"] "any" "mixed"
                    (Some 0.4%Q) "any",
                  ∅)
             | inr (results, cache') =>
                 (app.mkPage None (Some results)
                    (match app.call_genres_chosen call with
                     | [] => ["Horror"]
                     | gs => gs
                     end)
                    (app.form_get (app.form heavy_request) "year_choice"
                       "any")
                    (app.call_popularity_pref call) (Some (Qmake 3 2))
                    (app.call_foreign_choice call),
                  cache')
             end).
Proof.
  split.
  - apply (index_alpha_boundary cosine_exact log1p_sample decimal
             sample_env sample_db 9999999 ∅ garbled_request).
    reflexivity.
  - apply (index_alpha_boundary cosine_exact log1p_sample decimal
             sample_env sample_db 9999999 ∅ heavy_request).
    reflexivity.
Defined.

(** The form [heavy_request] asks for the weight 1.5, outside [0, 1], and
    [compute_hybrid_recs] is called with it. *)
Lemma index_alpha_counterexample :
  ~ (forall req,
       ~ (exists alpha, decimal (alpha_field req) = Some alpha
                        /\ valid_alpha alpha) ->
       raised (app.read_form decimal 9999999 req)).
Proof.
  intros H. apply (H heavy_request).
  intros (alpha & Halpha & q & -> & H0 & H1).
  vm_compute in Halpha. injection Halpha as <-.
  revert H1. vm_compute. intros H1. apply H1. reflexivity.
Qed.

Example index_heavy_request :
  let page :=
    fst (app.index cosine_exact log1p_sample decimal sample_env sample_db 0
           ∅ heavy_request) in
  app.error page = None
  /\ app.default_alpha page = Some (Qmake 3 2)
  /\ option_map
       (map (fun r => (app.movie_id r, option_map Qred (app.final_score_of r))))
       (app.results page)
     = Some [(4%Z, Some (Qmake 3 2))].
Proof. vm_compute. repeat split; reflexivity. Qed.

(** * Further properties of the code *)

(** ** The neighbourhood of [_build_local_matrix] *)

Section neighbourhood.

Import recommender_history.

(** X1. Lines 35-49 of recommender_history.py. The neighbour query returns
    at most [max_neighbors] users, each once, never the target user, and
    each of them rated one of the target's movies. *)
Theorem select_neighbors_bounds (db : Database) (rated_ids : list Z)
    (user_id : Z) (max_neighbors : nat) :
  length (select_neighbors db rated_ids user_id max_neighbors)
    <= max_neighbors
  /\ NoDup (select_neighbors db rated_ids user_id max_neighbors)
  /\ Forall
       (fun v =>
          v <> user_id
          /\ exists r, In r (ratings db) /\ r_user_id r = v
                       /\ In (r_movie_id r) rated_ids)
       (select_neighbors db rated_ids user_id max_neighbors).
Proof.
  unfold select_neighbors. split; [apply firstn_le_length|]. split.
  - eapply sublist_NoDup; [apply NoDup_remove_dups|apply sublist_take].
  - apply Forall_take. apply List.Forall_forall. intros v Hv.
    rewrite <- list_elem_of_In, elem_of_remove_dups, list_elem_of_In in Hv.
    apply in_map_iff in Hv. destruct Hv as (r & <- & Hr).
    apply filter_In in Hr. destruct Hr as [Hr Hcond].
    apply andb_true_iff in Hcond. destruct Hcond as [Hm Hu].
    apply bool_decide_eq_true in Hm. apply negb_true_iff in Hu.
    apply Z.eqb_neq in Hu. split; [exact Hu|].
    exists r. repeat split; [exact Hr|]. apply list_elem_of_In. exact Hm.
Qed.

Lemma filter_filter_key {A} (key : A -> Z) (P : Z -> bool) (m : Z)
    (l : list A) :
  List.filter (fun r => Z.eqb (key r) m) (List.filter (fun r => P (key r)) l)
  = if P m then List.filter (fun r => Z.eqb (key r) m) l else [].
Proof.
  induction l as [|x l IH]; simpl; [destruct (P m); reflexivity|].
  destruct (P (key x)) eqn:EP; simpl.
  - destruct (Z.eqb_spec (key x) m) as [<-|Hne].
    + rewrite IH, EP. reflexivity.
    + exact IH.
  - rewrite IH. destruct (Z.eqb_spec (key x) m) as [<-|Hne].
    + rewrite EP. reflexivity.
    + reflexivity.
Qed.

(** The support filter does not change the count of a movie it keeps. *)
Lemma value_counts_keep_popular (n : nat) (rs : list Rating) (m : Z) :
  value_counts (keep_popular n rs) m
  = if Nat.leb n (value_counts rs m) then value_counts rs m else 0%nat.
Proof.
  unfold value_counts at 1, keep_popular.
  rewrite (filter_filter_key r_movie_id
             (fun k => Nat.leb n (value_counts rs k))).
  destruct (Nat.leb n (value_counts rs m)); reflexivity.
Qed.

(** X2. Lines 68-80 of recommender_history.py. Every movie that is a column
    of the pivoted matrix has at least [min_movie_ratings] ratings in the
    filtered rating set itself: the filter leaves no movie with thinner
    support behind. *)
Theorem local_support_kept (min_movie_ratings : nat) (rs : list Rating) :
  Forall
    (fun m =>
       min_movie_ratings
       <= value_counts (keep_popular min_movie_ratings rs) m)
    (pd.columns (pivot_table (keep_popular min_movie_ratings rs))).
Proof.
  apply List.Forall_forall. intros m Hm. cbn [pivot_table pd.columns] in Hm.
  apply sorted_unique_In, in_map_iff in Hm. destruct Hm as (r & <- & Hr).
  rewrite value_counts_keep_popular.
  unfold keep_popular in Hr. apply filter_In in Hr. destruct Hr as [_ Hr].
  rewrite Hr. apply Nat.leb_le. exact Hr.
Qed.

End neighbourhood.

(** ** What [recommend_from_history] returns *)

Lemma join_stats_In (score_df : list (Z * Q)) (movie_stats : list FeatureRow)
    (h : recommender_history.HistRow) :
  In h (recommender_history.join_stats score_df movie_stats) ->
  In (recommender_history.h_movie_id h, recommender_history.h_score h)
     score_df
  /\ exists f, In f movie_stats
               /\ f_movie_id f = recommender_history.h_movie_id h
               /\ f_num_ratings f = recommender_history.h_num_ratings h.
Proof.
  unfold recommender_history.join_stats. intros Hin.
  apply in_flat_map in Hin. destruct Hin as ([m s] & Hms & Hin).
  apply in_map_iff in Hin. destruct Hin as (f & <- & Hf).
  apply filter_In in Hf. destruct Hf as [Hf Hid].
  apply Z.eqb_eq in Hid. simpl. split; [exact Hms|].
  exists f. repeat split; assumption.
Qed.

Lemma positive_scores_In (movie_ids : list Z) (sim_matrix : nat -> nat -> Q)
    (rated : list (Z * Q)) (m : Z) (s : Q) :
  In (m, s) (recommender_history.positive_scores movie_ids sim_matrix rated) ->
  (0 < s)%Q /\ In m movie_ids /\ ~ In m (map fst rated).
Proof.
  unfold recommender_history.positive_scores. intros Hin.
  apply filter_In in Hin. destruct Hin as [Hin Hpos].
  apply filter_In in Hin. destruct Hin as [Hin Hun].
  apply Qlt_bool_iff in Hpos. apply negb_true_iff in Hun.
  apply bool_decide_eq_false in Hun. split; [exact Hpos|]. split.
  - eapply zip_In_fst. exact Hin.
  - intros Hm. apply Hun. apply list_elem_of_In. exact Hm.
Qed.

Lemma dropna_map_inv (labels : list Z) (g : Z -> float) (m : Z) (q : Q) :
  In (m, q) (recommender_history.dropna labels (map g labels)) ->
  In m labels /\ g m = Some q.
Proof.
  unfold recommender_history.dropna.
  induction labels as [|l labels IH]; simpl; [tauto|].
  destruct (g l) as [x|] eqn:E; simpl.
  - intros [[= <- <-]|Hin]; [auto|]. destruct (IH Hin). auto.
  - intros Hin. destruct (IH Hin). auto.
Qed.

Lemma filter_nothing {A} (f : A -> bool) (l : list A) :
  Forall (fun x => f x = false) l -> List.filter f l = [].
Proof.
  induction 1 as [|x l Hx _ IH]; simpl; [reflexivity|].
  rewrite Hx. exact IH.
Qed.

Section history_results.

Import recommender_history.

Variable cosine_similarity : list (list Q) -> nat -> nat -> Q.

(** The shape of a successful run. *)
Lemma recommend_from_history_inv (db : Database) (user_id : Z)
    (top_n : nat) (min_ratings : Z) (rows : list HistRow) :
  recommend_from_history cosine_similarity db user_id top_n min_ratings
  = inr rows ->
  exists row,
    user_row db user_id = Some row
    /\ recommendable cosine_similarity db user_id min_ratings <> []
    /\ rows = pd.head top_n
                (pd.sort_values_desc (fun h => Some (h_score h))
                   (recommendable cosine_similarity db user_id min_ratings)).
Proof.
  rewrite recommend_from_history_cases.
  destruct (select_user_ratings db user_id); [discriminate|].
  destruct (neighborhood db user_id); [discriminate|].
  destruct (user_row db user_id) as [row|]; [|discriminate].
  destruct (propagated cosine_similarity db user_id); [discriminate|].
  destruct (recommendable cosine_similarity db user_id min_ratings)
    as [|h hs]; [discriminate|].
  intros [= <-]. exists row. repeat split. discriminate.
Qed.

Lemma rows_of_recommendable (db : Database) (user_id : Z) (top_n : nat)
    (min_ratings : Z) (h : HistRow) :
  In h (pd.head top_n
          (pd.sort_values_desc (fun h => Some (h_score h))
             (recommendable cosine_similarity db user_id min_ratings))) ->
  In h (recommendable cosine_similarity db user_id min_ratings).
Proof.
  intros Hin. eapply Permutation_in; [apply sort_values_desc_perm|].
  eapply sublist_In; [apply sublist_take|exact Hin].
Qed.

Lemma recommend_from_history_rows (db : Database) (user_id : Z)
    (top_n : nat) (min_ratings : Z) (rows : list HistRow) :
  recommend_from_history cosine_similarity db user_id top_n min_ratings
  = inr rows ->
  Forall (fun h => (0 < h_score h)%Q /\ (min_ratings <= h_num_ratings h)%Z)
         rows.
Proof.
  intros H. apply recommend_from_history_inv in H.
  destruct H as (row & _ & Hne & ->).
  apply List.Forall_forall. intros h Hin.
  apply rows_of_recommendable in Hin. unfold recommendable in Hin.
  apply filter_In in Hin. destruct Hin as [Hin Hmin].
  apply Z.leb_le in Hmin. split; [|exact Hmin].
  apply join_stats_In in Hin. destruct Hin as [Hin _].
  unfold propagated in Hin. apply positive_scores_In in Hin. apply Hin.
Qed.

(** X3. Lines 125-154 of recommender_history.py. A returned frame has at
    most [top_n] rows, at least one when [top_n] is positive, in descending
    order of score; every score is strictly positive and every row has at
    least [min_ratings] ratings in the catalogue. *)
Theorem recommend_from_history_result (db : Database) (user_id : Z)
    (top_n : nat) (min_ratings : Z) (rows : list HistRow) :
  recommend_from_history cosine_similarity db user_id top_n min_ratings
  = inr rows ->
  length rows <= top_n
  /\ (0 < top_n -> rows <> [])
  /\ StronglySorted (fun h1 h2 => (h_score h2 <= h_score h1)%Q) rows
  /\ Forall (fun h => (0 < h_score h)%Q
                      /\ (min_ratings <= h_num_ratings h)%Z) rows.
Proof.
  intros H. pose proof (recommend_from_history_rows _ _ _ _ _ H) as Hrows.
  apply recommend_from_history_inv in H.
  destruct H as (row & _ & Hne & ->). split; [apply firstn_le_length|].
  split; [|split; [|exact Hrows]].
  - intros Hn Hnil. apply (f_equal length) in Hnil.
    unfold pd.head in Hnil. rewrite length_take in Hnil.
    rewrite (Permutation_length (sort_values_desc_perm _ _)) in Hnil.
    destruct (recommendable cosine_similarity db user_id min_ratings);
      [congruence|simpl in Hnil; lia].
  - eapply StronglySorted_sublist; [apply sublist_take|].
    apply (sort_values_desc_sorted (fun h => Some (h_score h))).
Qed.

(** The filtered rating set is the support filter of a rating set that
    holds every rating of the target user. *)
Lemma neighborhood_shape (db : Database) (user_id : Z) :
  exists ratings_local,
    neighborhood db user_id = keep_popular 5 ratings_local
    /\ forall r, In r (ratings db) -> r_user_id r = user_id ->
                 In r ratings_local.
Proof.
  unfold neighborhood, local_ratings. eexists. split; [reflexivity|].
  intros r Hr Hu. unfold select_ratings_of. apply filter_In.
  split; [exact Hr|]. apply bool_decide_eq_true. rewrite Hu.
  apply list_elem_of_In.
  destruct (select_neighbors _ _ _ _ ++ [user_id]) as [|u us] eqn:E.
  - left. reflexivity.
  - rewrite <- E. apply in_or_app. right. left. reflexivity.
Qed.

(** A rating of the target user for a movie of the matrix is itself in the
    filtered rating set. *)
Lemma target_rating_kept (db : Database) (user_id : Z) (r : Rating) :
  In r (ratings db) -> r_user_id r = user_id ->
  In (r_movie_id r) (pd.columns (pivot_table (neighborhood db user_id))) ->
  In r (neighborhood db user_id).
Proof.
  intros Hr Hu Hcol.
  destruct (neighborhood_shape db user_id) as (L & HL & Hown).
  rewrite HL in *. cbn [pivot_table pd.columns] in Hcol.
  apply sorted_unique_In, in_map_iff in Hcol.
  destruct Hcol as (r' & Hrm & Hr').
  unfold keep_popular in *. apply filter_In in Hr'.
  destruct Hr' as [_ Hcount]. rewrite Hrm in Hcount.
  apply filter_In. split; [apply Hown; assumption|exact Hcount].
Qed.

(** X4. Lines 104-123 of recommender_history.py. No returned row is a movie
    the target user has rated: a rated movie either has too little local
    support to be a column of the matrix, or it is dropped as already seen. *)
Theorem recommend_from_history_unrated (db : Database) (user_id : Z)
    (top_n : nat) (min_ratings : Z) (rows : list HistRow) :
  recommend_from_history cosine_similarity db user_id top_n min_ratings
  = inr rows ->
  Forall
    (fun h => ~ In (h_movie_id h) (map fst (select_user_ratings db user_id)))
    rows.
Proof.
  intros H. apply recommend_from_history_inv in H.
  destruct H as (row & Hrow & _ & ->).
  apply List.Forall_forall. intros h Hin Hrated.
  apply rows_of_recommendable in Hin. unfold recommendable in Hin.
  apply filter_In in Hin. destruct Hin as [Hin _].
  apply join_stats_In in Hin. destruct Hin as [Hin _].
  unfold propagated in Hin. rewrite Hrow in Hin. cbn [from_option id] in Hin.
  apply positive_scores_In in Hin. destruct Hin as (_ & Hcol & Hunrated).
  apply Hunrated. clear Hunrated.
  unfold select_user_ratings in Hrated. rewrite map_map in Hrated.
  apply in_map_iff in Hrated. destruct Hrated as (r & Hm & Hr).
  simpl in Hm. apply filter_In in Hr. destruct Hr as [Hr Hu].
  apply Z.eqb_eq in Hu. rewrite <- Hm in Hcol |- *.
  pose proof (target_rating_kept db user_id r Hr Hu Hcol) as Hkept.
  unfold user_row in Hrow. apply loc_pivot_table in Hrow.
  destruct Hrow as [_ ->].
  set (g := fun m => pd.mean _).
  destruct (mean_of_numbers
              (map r_rating
                 (List.filter
                    (fun r0 => Z.eqb (r_user_id r0) user_id
                               && Z.eqb (r_movie_id r0) (r_movie_id r))
                    (neighborhood db user_id)))) as [q Hq].
  { intros Hnil. apply map_eq_nil in Hnil.
    assert (In r (@nil Rating)) as [].
    rewrite <- Hnil. apply filter_In. split; [exact Hkept|].
    rewrite Hu, !Z.eqb_refl. reflexivity. }
  rewrite map_map in Hq.
  apply (in_map fst) with (x := (r_movie_id r, q)).
  apply dropna_map_In; [exact Hcol|exact Hq].
Qed.

End history_results.

(** ** Neutral ratings *)

Lemma Qsum_from (l : list Q) (acc : Q) :
  (fold_left Qplus l acc == acc + pd.Qsum l)%Q.
Proof.
  unfold pd.Qsum. revert acc.
  induction l as [|x l IH]; intros acc; simpl; [ring|].
  rewrite (IH (acc + x)%Q), (IH (0 + x)%Q). ring.
Qed.

Lemma Qsum_constant (c : Q) (l : list Q) :
  (forall x, In x l -> (x == c)%Q) ->
  (pd.Qsum l == c * inject_Z (Z.of_nat (length l)))%Q.
Proof.
  induction l as [|x l IH]; intros Hc.
  - unfold pd.Qsum. simpl. ring.
  - unfold pd.Qsum. cbn [fold_left]. rewrite Qsum_from.
    rewrite IH by (intros y Hy; apply Hc; right; exact Hy).
    rewrite (Hc x) by (left; reflexivity).
    cbn [length]. rewrite Nat2Z.inj_succ. unfold Z.succ.
    rewrite inject_Z_plus. ring.
Qed.

(** The mean of ratings that are all equal to [c] is [c]. *)
Lemma mean_constant (c : Q) (l : list Q) (q : Q) :
  (forall x, In x l -> (x == c)%Q) ->
  pd.mean (map Some l) = Some q -> (q == c)%Q.
Proof.
  intros Hc. unfold pd.mean. rewrite numbers_map_Some.
  destruct l as [|x l]; [discriminate|]. intros [= <-].
  set (n := inject_Z (Z.of_nat (length (x :: l)))).
  assert (Hn : ~ (n == 0)%Q).
  { unfold n. cbn [length]. rewrite Nat2Z.inj_succ.
    unfold Qeq, inject_Z. simpl. lia. }
  rewrite (Qsum_constant c) by exact Hc. fold n.
  change (inject_Z (Z.of_nat (S (length l)))) with n. clearbody n.
  field. exact Hn.
Qed.

Section neutral.

Import recommender_history.

Variable cosine_similarity : list (list Q) -> nat -> nat -> Q.

Lemma propagated_score_neutral (movie_ids : list Z)
    (sim_matrix : nat -> nat -> Q) (rated : list (Z * Q)) (j : Z) :
  Forall (fun ir => (snd ir == 3.0)%Q) rated ->
  (propagated_score movie_ids sim_matrix rated j == 0)%Q.
Proof.
  unfold propagated_score.
  assert (H : forall acc, Forall (fun ir => (snd ir == 3.0)%Q) rated ->
            (fold_left
               (fun acc '(i, rating_i) =>
                  acc + similarity movie_ids sim_matrix i j
                        * (rating_i - 3.0))%Q rated acc == acc)%Q).
  { induction rated as [|[i r] rated IH]; intros acc Hall; simpl;
      [reflexivity|].
    apply Forall_cons_1 in Hall. destruct Hall as [Hr Hall]. simpl in Hr.
    rewrite IH by exact Hall. rewrite Hr. ring. }
  intros Hall. rewrite H by exact Hall. reflexivity.
Qed.

Lemma positive_scores_neutral (movie_ids : list Z)
    (sim_matrix : nat -> nat -> Q) (rated : list (Z * Q)) :
  NoDup movie_ids ->
  (forall i, In i (map fst rated) -> In i movie_ids) ->
  Forall (fun ir => (snd ir == 3.0)%Q) rated ->
  positive_scores movie_ids sim_matrix rated = [].
Proof.
  intros Hnd Hin Hall. rewrite positive_scores_spec by assumption.
  unfold history_scores_spec. apply filter_nothing.
  eapply sublist_Forall'; [apply filter_sublist|].
  apply List.Forall_forall. intros [j s] Hjs.
  apply in_map_iff in Hjs. destruct Hjs as (j' & [= <- <-] & _).
  destruct (Qlt_bool 0 _) eqn:E; [|reflexivity].
  apply Qlt_bool_iff in E.
  rewrite (propagated_score_neutral movie_ids sim_matrix rated j' Hall) in E.
  exfalso. revert E. apply Qlt_irrefl.
Qed.

(** X5. Lines 116-130 of recommender_history.py. When every rating of the
    target user is the neutral 3.0, every rating delta is zero and no score
    can be positive: the function never returns and never reaches the
    catalogue join. *)
Theorem neutral_ratings_give_no_signal (db : Database) (user_id : Z)
    (top_n : nat) (min_ratings : Z) :
  (forall r, In r (ratings db) -> r_user_id r = user_id ->
             (r_rating r == 3.0)%Q) ->
  In (recommend_from_history cosine_similarity db user_id top_n min_ratings)
     [raise (ValueError (user_has_no_ratings user_id));
      raise (ValueError not_enough_overlapping_data);
      raise (KeyError_label user_id);
      raise (ValueError no_positive_scored_movies)].
Proof.
  intros Hneutral. rewrite recommend_from_history_cases.
  destruct (select_user_ratings db user_id); [left; reflexivity|].
  destruct (neighborhood db user_id) as [|r0 rs0] eqn:EN;
    [right; left; reflexivity|].
  destruct (user_row db user_id) as [row|] eqn:Erow;
    [|right; right; left; reflexivity].
  assert (Hnone : propagated cosine_similarity db user_id = []).
  { unfold propagated. rewrite Erow. cbn [from_option id].
    apply positive_scores_neutral.
    - apply sorted_unique_NoDup.
    - apply dropna_labels.
    - unfold user_row in Erow. apply loc_pivot_table in Erow.
      destruct Erow as [_ ->]. apply List.Forall_forall.
      intros [m q] Hmq. apply dropna_map_inv in Hmq.
      destruct Hmq as [_ Hq]. simpl.
      rewrite <- map_map in Hq. apply (mean_constant 3.0) in Hq;
        [exact Hq|].
      intros x Hx. apply in_map_iff in Hx. destruct Hx as (r & <- & Hr).
      apply filter_In in Hr. destruct Hr as [Hr Hum].
      apply andb_true_iff in Hum. destruct Hum as [Hu _].
      apply Z.eqb_eq in Hu. apply Hneutral; [|exact Hu].
      destruct (neighborhood_shape db user_id) as (L & HL & _).
      clear -Hr. unfold neighborhood, local_ratings, keep_popular,
        select_ratings_of in Hr.
      apply filter_In in Hr. destruct Hr as [Hr _].
      apply filter_In in Hr. apply Hr. }
  rewrite Hnone. right. right. right. left. reflexivity.
Qed.

End neutral.

Section history_witnesses.

Import recommender_history.

Lemma recommend_from_history_result_witness :
  exists rows,
    recommend_from_history cosine_exact sample_db 0 10 30 = inr rows
    /\ length rows <= 10
    /\ (0 < 10 -> rows <> [])
    /\ StronglySorted (fun h1 h2 => (h_score h2 <= h_score h1)%Q) rows
    /\ Forall (fun h => (0 < h_score h)%Q /\ (30 <= h_num_ratings h)%Z) rows.
Proof.
  eexists. split; [vm_compute; reflexivity|].
  apply (recommend_from_history_result cosine_exact sample_db 0 10 30).
  vm_compute. reflexivity.
Defined.

Lemma recommend_from_history_unrated_witness :
  exists rows,
    recommend_from_history cosine_exact sample_db 0 10 30 = inr rows
    /\ Forall
         (fun h => ~ In (h_movie_id h)
                        (map fst (select_user_ratings sample_db 0)))
         rows.
Proof.
  eexists. split; [vm_compute; reflexivity|].
  apply (recommend_from_history_unrated cosine_exact sample_db 0 10 30).
  vm_compute. reflexivity.
Defined.

Lemma neutral_ratings_give_no_signal_witness :
  In (recommend_from_history cosine_exact neutral_db 0 10 30)
     [raise (ValueError (user_has_no_ratings 0));
      raise (ValueError not_enough_overlapping_data);
      raise (KeyError_label 0);
      raise (ValueError no_positive_scored_movies)].
Proof.
  apply (neutral_ratings_give_no_signal cosine_exact neutral_db 0 10 30).
  intros r Hr Hu. vm_compute in Hr.
  repeat (destruct Hr as [<-|Hr]; [try reflexivity; discriminate Hu|]).
  destruct Hr.
Defined.

Example neutral_db_run :
  recommend_from_history cosine_exact neutral_db 0 10 30
  = raise (ValueError no_positive_scored_movies).
Proof. vm_compute. reflexivity. Qed.

End history_witnesses.

(** ** The preference profile *)

Lemma dict_set_keys {V} (d : list (GenreCol * V)) (key : GenreCol) (v : V) :
  In key (map fst d) -> map fst (dict_set d key v) = map fst d.
Proof.
  induction d as [|[k w] d IH]; simpl; [tauto|].
  intros Hin. destruct (decide (k = key)) as [->|Hne]; [reflexivity|].
  simpl. f_equal. apply IH. destruct Hin; [congruence|assumption].
Qed.

Lemma genre_columns_all (col : GenreCol) : In col genre_columns.
Proof. destruct col; simpl; tauto. Qed.

(** X6. Lines 9-62 of recommender_prefs.py. Whatever is typed at the three
    prompts, the profile is well formed: the weight dict keeps the seven
    genre columns in their order, every weight is 0.0 or 2.0, the minimum
    year is 2000, 1980 or 1900 and the popularity mode is one of the three
    modes. *)
Theorem ask_preferences_profile (stdin : recommender_prefs.Answers) :
  map fst (genre_weights (recommender_prefs.ask_preferences stdin))
  = genre_columns
  /\ policy_weights (genre_weights (recommender_prefs.ask_preferences stdin))
  /\ In (year_min (recommender_prefs.ask_preferences stdin))
        [2000; 1980; 1900]%Z
  /\ In (popularity_pref (recommender_prefs.ask_preferences stdin))
        ["popular"; "hidden"; "mixed"].
Proof.
  split; [|split; [apply ask_preferences_policy|]].
  - unfold recommender_prefs.ask_preferences. cbn [genre_weights].
    assert (H0 : map fst zero_weights = genre_columns) by reflexivity.
    revert H0. generalize zero_weights.
    induction (map recommender_prefs.strip _) as [|p picks IH];
      intros weights Hw; cbn [fold_left]; [exact Hw|].
    apply IH. destruct (dict_get recommender_prefs.id_to_col p) as [col|];
      [|exact Hw].
    rewrite dict_set_keys; [exact Hw|].
    rewrite Hw. apply genre_columns_all.
  - unfold recommender_prefs.ask_preferences.
    cbn [year_min popularity_pref]. split.
    + destruct (String.eqb _ "1"); [left; reflexivity|].
      destruct (String.eqb _ "2"); simpl; tauto.
    + destruct (String.eqb _ "1"); [left; reflexivity|].
      destruct (String.eqb _ "3"); simpl; tauto.
Qed.

(** ** The loaded candidates *)

Lemma fillna_number (mu x : float) :
  (match x with None => mu | Some q => Some q end) = NaN ->
  x = NaN /\ mu = NaN.
Proof. destruct x; [discriminate|]. intros ->. split; reflexivity. Qed.

Lemma mean_is_number (s : pd.Series) :
  (exists q, In (Some q) s) -> pd.mean s <> NaN.
Proof.
  intros [q Hq]. unfold pd.mean.
  assert (Hin : In q (pd.numbers s)).
  { unfold pd.numbers. apply list_elem_of_In, list_elem_of_omap.
    exists (Some q). split; [apply list_elem_of_In; exact Hq|reflexivity]. }
  destruct (pd.numbers s); [destruct Hin|discriminate].
Qed.

Lemma load_rows_In (view : list FeatureRow) (c : Candidate) :
  In c (load_rows view) ->
  (10 <= c_num_ratings c)%Z
  /\ exists f, In f view /\ f_movie_id f = c_movie_id c
               /\ f_num_ratings f = c_num_ratings c
               /\ f_flags f = c_flags c.
Proof.
  unfold load_rows. intros Hc. apply in_map_iff in Hc.
  destruct Hc as (f & <- & Hf). apply filter_In in Hf.
  destruct Hf as [Hf Hn]. apply Z.leb_le in Hn. simpl.
  split; [exact Hn|]. exists f. repeat split. exact Hf.
Qed.

(** X7. Lines 110-115 of app.py and 64-69 of recommender_prefs.py. Every
    loaded candidate is a row of the view with at least 10 ratings, and
    every such row is loaded; as soon as one of these rows has an average
    rating, no loaded candidate is left without one. *)
Theorem load_rows_support (view : list FeatureRow) :
  Forall
    (fun c => (10 <= c_num_ratings c)%Z
              /\ exists f, In f view /\ f_movie_id f = c_movie_id c
                           /\ f_num_ratings f = c_num_ratings c
                           /\ f_flags f = c_flags c)
    (load_rows view)
  /\ map c_movie_id (load_rows view)
     = map f_movie_id
         (List.filter (fun f => Z.leb 10 (f_num_ratings f)) view)
  /\ ((exists f q, In f view /\ (10 <= f_num_ratings f)%Z
                   /\ f_avg_rating f = Some q) ->
      Forall (fun c => c_avg_rating c <> NaN) (load_rows view)).
Proof.
  split; [|unfold load_rows; split].
  - apply List.Forall_forall. intros c Hc. apply load_rows_In. exact Hc.
  - rewrite map_map. reflexivity.
  - intros (f & q & Hf & Hn & Hq).
    apply List.Forall_forall. intros c Hc. apply in_map_iff in Hc.
    destruct Hc as (f' & <- & _). simpl. intros Hnan.
    apply fillna_number in Hnan. destruct Hnan as [_ Hmean].
    revert Hmean. apply mean_is_number. exists q.
    rewrite <- Hq. apply in_map. apply filter_In. split; [exact Hf|].
    apply Z.leb_le. exact Hn.
Qed.

Lemma load_rows_support_witness :
  Forall (fun c => c_avg_rating c <> NaN) (load_rows sample_catalog).
Proof.
  apply (load_rows_support sample_catalog).
  eexists _, _. split; [left; reflexivity|]. split; [|reflexivity].
  vm_compute. discriminate.
Defined.

(** ** The genre answer of [ask_preferences] *)

Lemma dict_get_set {K V} `{EqDecision K} (d : list (K * V)) (key k : K)
    (v : V) :
  dict_get (dict_set d key v) k
  = if decide (key = k) then Some v else dict_get d k.
Proof.
  induction d as [|[k0 w] d IH]; cbn [dict_set dict_get].
  - destruct (decide (key = k)); reflexivity.
  - destruct (decide (k0 = key)) as [->|Hne]; cbn [dict_get].
    + destruct (decide (key = k)); reflexivity.
    + rewrite IH. destruct (decide (k0 = k)) as [->|Hne'];
        [|reflexivity].
      destruct (decide (key = k)); [congruence|reflexivity].
Qed.

Lemma id_to_col_inj (p i : string) (col : GenreCol) :
  dict_get recommender_prefs.id_to_col i = Some col ->
  dict_get recommender_prefs.id_to_col p = Some col -> p = i.
Proof.
  unfold recommender_prefs.id_to_col. cbn [dict_get].
  repeat (destruct (decide (_ = i)); [subst i|]);
    intros [= <-];
    repeat (destruct (decide (_ = p)); [subst p|]);
    intros H; try reflexivity; discriminate H.
Qed.

Lemma picks_weights (picks : list string) (gw : list (GenreCol * Q))
    (i : string) (col : GenreCol) :
  dict_get recommender_prefs.id_to_col i = Some col ->
  dict_get
    (fold_left
       (fun gw p =>
          match dict_get recommender_prefs.id_to_col p with
          | Some col => dict_set gw col 2.0%Q
          | None => gw
          end)
       picks gw) col
  = if bool_decide (i ∈ picks) then Some 2.0%Q else dict_get gw col.
Proof.
  intros Hi. revert gw.
  induction picks as [|p picks IH]; intros gw; cbn [fold_left].
  - rewrite bool_decide_eq_false_2; [reflexivity|]. apply not_elem_of_nil.
  - rewrite IH. clear IH.
    destruct (decide (p = i)) as [->|Hne].
    + rewrite Hi. rewrite dict_get_set.
      rewrite (bool_decide_eq_true_2 (i ∈ i :: picks));
        [|apply elem_of_cons; left; reflexivity].
      destruct (decide (col = col)); [|congruence].
      destruct (bool_decide (i ∈ picks)); reflexivity.
    + assert (Hget :
        dict_get
          match dict_get recommender_prefs.id_to_col p with
          | Some col0 => dict_set gw col0 2.0%Q
          | None => gw
          end col = dict_get gw col).
      { destruct (dict_get recommender_prefs.id_to_col p) as [col'|] eqn:Ep;
          [|reflexivity].
        rewrite dict_get_set.
        destruct (decide (col' = col)) as [->|]; [|reflexivity].
        exfalso. apply Hne. eapply id_to_col_inj; eassumption. }
      rewrite Hget.
      destruct (bool_decide (i ∈ picks)) eqn:E.
      * apply bool_decide_eq_true in E.
        rewrite bool_decide_eq_true_2; [reflexivity|].
        apply elem_of_cons. right. exact E.
      * apply bool_decide_eq_false in E.
        rewrite bool_decide_eq_false_2; [reflexivity|].
        intros H. apply elem_of_cons in H.
        destruct H as [H|H]; [congruence|tauto].
Qed.

(** X8. Lines 12-29 of recommender_prefs.py. For an answer made of
    characters below U+0100, the genre of number [i] gets the weight 2.0
    exactly when [i] is one of the comma-separated parts of the answer,
    the white space that [str.strip()] removes around it aside; it keeps
    0.0 otherwise. Parts that are no genre number are ignored, and the
    answer may name any number of genres: nothing holds it to the three
    the prompt asks for. *)
Theorem ask_preferences_picks (stdin : recommender_prefs.Answers)
    (i : string) (col : GenreCol) :
  dict_get recommender_prefs.id_to_col i = Some col ->
  dict_get (genre_weights (recommender_prefs.ask_preferences stdin)) col
  = Some (if bool_decide
               (i ∈ map recommender_prefs.strip
                      (recommender_prefs.split ","
                         (recommender_prefs.ans_genres stdin)))
          then 2.0%Q else 0.0%Q).
Proof.
  intros Hi. unfold recommender_prefs.ask_preferences.
  cbn [genre_weights]. rewrite (picks_weights _ _ i col Hi).
  set (parts := recommender_prefs.split "," _).
  assert (Hzero : dict_get zero_weights col = Some 0.0%Q)
    by (destruct col; reflexivity).
  rewrite Hzero.
  assert (Hiff : In i (map recommender_prefs.strip
                         (List.filter
                            (fun p => negb (String.eqb
                                              (recommender_prefs.strip p) ""))
                            parts))
                 <-> In i (map recommender_prefs.strip parts)).
  { rewrite !in_map_iff. split.
    - intros (p & Hp & Hin). apply filter_In in Hin.
      exists p. split; [exact Hp|apply Hin].
    - intros (p & Hp & Hin). exists p. split; [exact Hp|].
      apply filter_In. split; [exact Hin|]. rewrite Hp.
      apply negb_true_iff, String.eqb_neq. intros ->.
      revert Hi. clear. unfold recommender_prefs.id_to_col.
      cbn [dict_get]. repeat (destruct (decide (_ = ""));
                              [discriminate|]). discriminate. }
  rewrite <- !list_elem_of_In in Hiff.
  rewrite (bool_decide_ext _ _ Hiff).
  destruct (bool_decide _); reflexivity.
Qed.

Lemma ask_preferences_picks_witness :
  dict_get
    (genre_weights
       (recommender_prefs.ask_preferences
          (recommender_prefs.mkAnswers " 4, 9 ,1,,4,2,6" "3" "2")))
    is_horror
  = Some (if bool_decide
               ("4" ∈ map recommender_prefs.strip
                        (recommender_prefs.split ","
                           (recommender_prefs.ans_genres
                              (recommender_prefs.mkAnswers
                                 " 4, 9 ,1,,4,2,6" "3" "2"))))
          then 2.0%Q else 0.0%Q).
Proof.
  apply (ask_preferences_picks
           (recommender_prefs.mkAnswers " 4, 9 ,1,,4,2,6" "3" "2")
           "4" is_horror).
  reflexivity.
Defined.

(** A no-break space (U+00A0) and a next-line character (U+0085) around a
    number are stripped like a blank. *)
Example nbsp_answer :
  selected_genres
    (recommender_prefs.ask_preferences
       (recommender_prefs.mkAnswers
          (String (ascii_of_nat 160) ("4" +:+ String (ascii_of_nat 133) ",2"))
          "3" "2"))
  = [(is_comedy, 2.0%Q); (is_horror, 2.0%Q)].
Proof. vm_compute. reflexivity. Qed.

Example four_genres_accepted :
  selected_genres
    (recommender_prefs.ask_preferences
       (recommender_prefs.mkAnswers " 4, 9 ,1,,4,2,6" "3" "2"))
  = [(is_action, 2.0%Q); (is_comedy, 2.0%Q); (is_horror, 2.0%Q);
     (is_scifi, 2.0%Q)].
Proof. vm_compute. reflexivity. Qed.

(** ** Popularity shaping *)

Lemma Forall2_map_In {A B} (P : A -> B -> Prop) (g : A -> B) (l : list A) :
  (forall x, In x l -> P x (g x)) -> Forall2 P l (map g l).
Proof.
  induction l as [|x l IH]; intros H; simpl; constructor.
  - apply H. left. reflexivity.
  - apply IH. intros y Hy. apply H. right. exact Hy.
Qed.

Section popularity.

Import recommender_prefs.

Variable log1p : Q -> Q.

(** The score of a row is its base score plus the popularity term. *)
Lemma row_score_base (df : list Candidate) (prefs : Prefs) (c : Candidate) :
  feq (row_score log1p df prefs c)
      (fadd (base_score prefs c)
            (popularity_term log1p df (popularity_pref prefs) c)).
Proof. apply row_score_formula. Qed.

Lemma pool_logs (df : list Candidate) :
  map (fun c' => Some (log_count log1p c')) df
  = map Some (map (log_count log1p) df).
Proof. rewrite map_map. reflexivity. Qed.

Lemma rarity_bounds (n : Z) :
  (0 <= n)%Z ->
  (Qmax 0 ((500 - inject_Z n) / 500) <= 1)%Q
  /\ ((500 <= n)%Z -> (Qmax 0 ((500 - inject_Z n) / 500) == 0)%Q).
Proof.
  intros Hn. rewrite Zle_Qle in Hn.
  assert (Hdiv : ((500 - inject_Z n) / 500 <= 1)%Q).
  { apply Qle_shift_div_r; [reflexivity|]. change (inject_Z 0) with 0%Q in Hn.
    lra. }
  split.
  - apply Q.max_lub; [discriminate|exact Hdiv].
  - intros H500. rewrite Zle_Qle in H500.
    change (inject_Z 500) with 500%Q in H500.
    apply Q.max_l. apply Qle_shift_div_r; [reflexivity|]. lra.
Qed.

(** X10. Lines 100-113 of recommender_prefs.py, the hidden branch. For a
    candidate with a number as base score, hidden-gem shaping adds at most
    3.0, and it adds nothing to a candidate with 500 ratings or more. *)
Theorem hidden_mode_reward_bounds (df : list Candidate)
    (weights : list (GenreCol * Q)) (year_min : Z) :
  Forall2
    (fun c score =>
       forall b q,
         base_score (mkPrefs weights year_min "hidden") c = Some b ->
         score = Some q ->
         (0 <= c_num_ratings c)%Z ->
         (q <= b + 3)%Q /\ ((500 <= c_num_ratings c)%Z -> (q <= b)%Q))
    df (score_by_preferences log1p df (mkPrefs weights year_min "hidden")).
Proof.
  rewrite score_by_preferences_rows. apply Forall2_map_In.
  intros c Hc b q Hb Hq Hn.
  pose proof (row_score_base df (mkPrefs weights year_min "hidden") c) as H.
  rewrite Hq, Hb in H. unfold popularity_term in H.
  cbn [popularity_pref String.eqb Ascii.eqb Bool.eqb] in H.
  rewrite pool_logs in H.
  destruct (map (log_count log1p) df) as [|l0 ls] eqn:El.
  { destruct df; [destruct Hc|discriminate]. }
  rewrite min_numbers in H.
  destruct (fold_Qmin_is_min l0 ls) as [_ Hlo].
  assert (Hle : (fold_left Qmin ls l0 <= log_count log1p c)%Q).
  { apply Hlo. rewrite <- El. apply in_map. exact Hc. }
  destruct (rarity_bounds (c_num_ratings c) Hn) as [Hr1 Hr0].
  set (r := Qmax 0 _) in *. set (lo := fold_left Qmin ls l0) in *.
  simpl in H. split.
  - rewrite H. lra.
  - intros H500. specialize (Hr0 H500). rewrite H. lra.
Qed.

(** X11. Lines 124-137 of recommender_prefs.py. [recommend_from_preferences]
    returns the smaller of [top_n] and the number of catalogue rows with at
    least 10 ratings, in descending order of preference score, every row
    from the catalogue with at least 10 ratings. *)
Theorem recommend_from_preferences_result (db : Database) (prefs : Prefs)
    (top_n : nat) :
  length (recommend_from_preferences log1p db prefs top_n)
  = Nat.min top_n
      (length (List.filter (fun f => Z.leb 10 (f_num_ratings f))
                           (movie_features db)))
  /\ StronglySorted (fun p1 p2 => pd.desc (p_pref_score p1) (p_pref_score p2))
       (recommend_from_preferences log1p db prefs top_n)
  /\ Forall
       (fun p => (10 <= p_num_ratings p)%Z
                 /\ exists f, In f (movie_features db)
                              /\ f_movie_id f = p_movie_id p)
       (recommend_from_preferences log1p db prefs top_n).
Proof.
  unfold recommend_from_preferences, load_candidates.
  rewrite score_by_preferences_rows, zip_map_r.
  set (df := load_rows (movie_features db)).
  set (scored := map _ df).
  split; [|split].
  - rewrite length_map. unfold pd.head. rewrite length_take.
    rewrite (Permutation_length (sort_values_desc_perm _ _)).
    unfold scored, df, load_rows. rewrite !length_map. reflexivity.
  - apply (StronglySorted_fmap _ (pd.desc_by snd)).
    { intros [c1 s1] [c2 s2] H. exact H. }
    eapply StronglySorted_sublist; [apply sublist_take|].
    apply sort_values_desc_sorted.
  - apply List.Forall_forall. intros p Hp. apply in_map_iff in Hp.
    destruct Hp as ([c s] & <- & Hcs). simpl.
    assert (Hc : In c df).
    { assert (In (c, s) scored) as Hin.
      { eapply Permutation_in; [apply sort_values_desc_perm|].
        eapply sublist_In; [apply sublist_take|exact Hcs]. }
      unfold scored in Hin. apply in_map_iff in Hin.
      destruct Hin as (c' & [= <- _] & Hc'). exact Hc'. }
    destruct (load_rows_In (movie_features db) c Hc)
      as (Hn & f & Hf & Hid & _).
    split; [exact Hn|]. exists f. split; assumption.
Qed.

End popularity.

(** ** Min-max normalization of any series *)

Lemma nan_fold_skips (op : Q -> Q -> Q) (s : pd.Series) (acc : float) :
  fold_left (pd.nan_fold op) s acc
  = fold_left (pd.nan_fold op) (map Some (pd.numbers s)) acc.
Proof.
  unfold pd.numbers. revert acc.
  induction s as [|x s IH]; intros acc; [reflexivity|].
  destruct x as [q|]; cbn [fold_left omap map id option_map].
  - apply IH.
  - rewrite <- IH. destruct acc; reflexivity.
Qed.

Lemma min_skips (s : pd.Series) : pd.min s = pd.min (map Some (pd.numbers s)).
Proof. apply nan_fold_skips. Qed.

Lemma max_skips (s : pd.Series) : pd.max s = pd.max (map Some (pd.numbers s)).
Proof. apply nan_fold_skips. Qed.

Lemma numbers_In (s : pd.Series) (q : Q) :
  In (Some q) s <-> In q (pd.numbers s).
Proof.
  unfold pd.numbers. rewrite <- !list_elem_of_In, list_elem_of_omap. split.
  - intros H. exists (Some q). split; [exact H|reflexivity].
  - intros (x & Hx & Hq). simpl in Hq. subst x. exact Hx.
Qed.

(** The two shapes of the result on any series: zeros when the series
    holds no number or its numbers are all equal, the rescaling of every
    cell between the least and the greatest number otherwise. *)
Lemma min_max_normalize_shape (s : pd.Series) :
  (app.min_max_normalize s = map (fun _ => Some 0.0%Q) s
   /\ (pd.numbers s = [] \/ all_equal (pd.numbers s)))
  \/ (exists lo hi,
         is_min lo (pd.numbers s) /\ is_max hi (pd.numbers s)
         /\ (lo < hi)%Q
         /\ app.min_max_normalize s
            = map (fun x : float =>
                     match x with
                     | Some v => Some ((v - lo) / (hi - lo))%Q
                     | None => NaN
                     end) s).
Proof.
  unfold app.min_max_normalize. rewrite min_skips, max_skips.
  destruct (pd.numbers s) as [|q rest] eqn:Enum.
  { left. split; [reflexivity|left; reflexivity]. }
  rewrite min_numbers, max_numbers.
  pose proof (fold_Qmin_is_min q rest) as Hmin.
  pose proof (fold_Qmax_is_max q rest) as Hmax.
  set (lo := fold_left Qmin rest q) in *.
  set (hi := fold_left Qmax rest q) in *.
  cbn [isna orb feqb]. destruct (Qeq_bool hi lo) eqn:E.
  - left. split; [reflexivity|]. right. apply Qeq_bool_iff in E.
    intros x y Hx Hy. destruct Hmin as [_ Hmin], Hmax as [_ Hmax].
    pose proof (Hmin x Hx). pose proof (Hmax x Hx).
    pose proof (Hmin y Hy). pose proof (Hmax y Hy). lra.
  - right. apply Qeq_bool_neq in E. exists lo, hi.
    assert (Hlt : (lo < hi)%Q).
    { destruct Hmin as [_ Hmin], Hmax as [Hin _].
      pose proof (Hmin hi Hin). apply Qnot_le_lt. intros Hle. apply E. lra. }
    repeat split; try apply Hmin; try apply Hmax; [exact Hlt|].
    apply map_ext. intros [v|]; [|reflexivity]. cbn.
    destruct (Qeq_bool (hi - lo) 0) eqn:E0; [|reflexivity].
    apply Qeq_bool_iff in E0. exfalso. lra.
Qed.

Lemma min_max_normalize_cells (s : pd.Series) :
  Forall (fun y => forall q, y = Some q -> (0 <= q)%Q /\ (q <= 1)%Q)
         (app.min_max_normalize s).
Proof.
  destruct (min_max_normalize_shape s)
    as [[-> Hz]|(lo & hi & Hmin & Hmax & Hlt & ->)];
    apply List.Forall_forall; intros y Hy q ->; apply in_map_iff in Hy.
  - destruct Hy as (x & [= <-] & _). split; lra.
  - destruct Hy as ([v|] & Hv & Hin); [|discriminate].
    injection Hv as <-. apply numbers_In in Hin.
    apply rescaled_in_range; [apply Hmin|apply Hmax|]; assumption.
Qed.

Lemma min_max_normalize_length (s : pd.Series) :
  length (app.min_max_normalize s) = length s.
Proof.
  destruct (min_max_normalize_shape s) as [[-> _]|(lo & hi & _ & _ & _ & ->)];
    apply length_map.
Qed.

(** X12. Lines 8-15 of hybrid_recommender.py and 48-54 of app.py, on any
    series, NaN cells included (the two copies are one function, lemma
    [min_max_normalize_same]). The result has the length of the input; every
    cell of it that is a number lies in [0, 1]; and a series without any
    number (empty or all NaN) gives 0.0 in every cell. *)
Theorem min_max_normalize_any_series (s : pd.Series) :
  length (app.min_max_normalize s) = length s
  /\ Forall (fun y => forall q, y = Some q -> (0 <= q)%Q /\ (q <= 1)%Q)
            (app.min_max_normalize s)
  /\ (Forall (fun x => x = NaN) s ->
      app.min_max_normalize s = map (fun _ => Some 0.0%Q) s).
Proof.
  split; [apply min_max_normalize_length|].
  split; [apply min_max_normalize_cells|].
  intros Hnan.
  destruct (min_max_normalize_shape s)
    as [[-> Hz]|(lo & hi & Hmin & Hmax & Hlt & ->)]; [reflexivity|].
  exfalso. destruct Hmin as [Hin _].
  apply numbers_In in Hin. rewrite List.Forall_forall in Hnan.
  specialize (Hnan _ Hin). discriminate.
Qed.

Lemma min_max_normalize_any_series_witness :
  app.min_max_normalize [NaN; NaN] = [Some 0.0%Q; Some 0.0%Q].
Proof.
  apply (min_max_normalize_any_series [NaN; NaN]).
  repeat constructor.
Defined.

Lemma lookup_map_inv {A B} (f : A -> B) (l : list A) (i : nat) (x : A)
    (b : B) :
  l !! i = Some x -> map f l !! i = Some b -> b = f x.
Proof.
  intros Hx Hb. pose proof (list_lookup_fmap f l i) as E.
  change (f <$> l) with (map f l) in E. rewrite E, Hx in Hb.
  injection Hb as <-. reflexivity.
Qed.

(** X13. Lines 8-15 of hybrid_recommender.py and 48-54 of app.py.
    Normalization never reverses the order of two numbers of a series: of
    two cells that stay numbers, the one that was not greater is not
    greater afterwards. (Two different numbers can end up equal.) *)
Theorem min_max_normalize_keeps_order (s : pd.Series) (i j : nat)
    (x y a b : Q) :
  s !! i = Some (Some x) -> s !! j = Some (Some y) ->
  app.min_max_normalize s !! i = Some (Some a) ->
  app.min_max_normalize s !! j = Some (Some b) ->
  (x <= y)%Q -> (a <= b)%Q.
Proof.
  intros Hx Hy Ha Hb Hxy.
  destruct (min_max_normalize_shape s)
    as [[E Hz]|(lo & hi & Hmin & Hmax & Hlt & E)]; rewrite E in Ha, Hb;
    apply (lookup_map_inv _ _ _ _ _ Hx) in Ha;
    apply (lookup_map_inv _ _ _ _ _ Hy) in Hb;
    injection Ha as ->; injection Hb as ->.
  - apply Qle_refl.
  - assert (Hpos : (0 < hi - lo)%Q) by lra.
    assert (Hinv : (0 < / (hi - lo))%Q) by (apply Qinv_lt_0_compat; exact Hpos).
    unfold Qdiv. apply Qmult_le_compat_r; lra.
Qed.

Lemma min_max_normalize_keeps_order_witness :
  (0 # 35000 <= 35000 # 35000)%Q.
Proof.
  apply (min_max_normalize_keeps_order [Some 1.0%Q; NaN; Some 4.5%Q] 0 2
           1.0 4.5 (0 # 35000) (35000 # 35000));
    [vm_compute; reflexivity ..|vm_compute; discriminate].
Defined.

(** ** The command-line hybrid *)

Lemma merge_outer_keys (hist_df : list recommender_history.HistRow)
    (pref_df : list recommender_prefs.PrefRow) :
  Forall
    (fun row =>
       In (fst (fst row))
          (map recommender_history.h_movie_id hist_df
           ++ map recommender_prefs.p_movie_id pref_df))
    (hybrid_recommender.merge_outer hist_df pref_df).
Proof.
  unfold hybrid_recommender.merge_outer. apply List.Forall_forall.
  intros row Hrow. apply in_flat_map in Hrow. destruct Hrow as (k & Hk & Hrow).
  apply (proj1 (sorted_unique_In _ _)) in Hk.
  assert (Hkey : fst (fst row) = k); [|rewrite Hkey; exact Hk].
  destruct (List.filter _ hist_df) as [|l ls];
    destruct (List.filter _ pref_df) as [|r rs].
  - destruct Hrow.
  - apply in_map_iff in Hrow. destruct Hrow as (x & <- & _). reflexivity.
  - apply in_map_iff in Hrow. destruct Hrow as (x & <- & _). reflexivity.
  - apply in_flat_map in Hrow. destruct Hrow as (x & _ & Hrow).
    apply in_map_iff in Hrow. destruct Hrow as (y & <- & _). reflexivity.
Qed.

Section hybrid_results.

Import recommender_history recommender_prefs hybrid_recommender.

Variable cosine_similarity : list (list Q) -> nat -> nat -> Q.
Variable log1p : Q -> Q.

(** X14. Lines 18-82 of hybrid_recommender.py. [recommend_hybrid] raises
    exactly the exception of the history scorer run with [top_n * 5] and the
    default minimum of 30 ratings, and nothing else. When it returns, the
    frame has at most [top_n] rows in descending order of final score, every
    final score is above 0, and every movie id comes from the history frame
    or from the preference frame. *)
Theorem recommend_hybrid_result (db : Database) (stdin : Answers)
    (user_id : Z) (alpha : float) (top_n : nat) :
  match recommend_hybrid cosine_similarity log1p db stdin user_id alpha
          top_n with
  | inl e =>
      recommend_from_history cosine_similarity db user_id (top_n * 5) 30
      = inl e
  | inr rows =>
      exists hist_df,
        recommend_from_history cosine_similarity db user_id (top_n * 5) 30
        = inr hist_df
        /\ length rows <= top_n
        /\ StronglySorted (pd.desc_by y_final_score) rows
        /\ Forall (fun y => fgt (y_final_score y) (Some 0%Q) = true) rows
        /\ Forall
             (fun y =>
                In (y_movie_id y)
                   (map h_movie_id hist_df
                    ++ map p_movie_id
                         (recommend_from_preferences log1p db
                            (ask_preferences stdin) (top_n * 5))))
             rows
  end.
Proof.
  unfold recommend_hybrid.
  destruct (recommend_from_history _ _ _ _ _) as [e|hist_df];
    cbn [mbind Result_bind mret Result_ret]; [reflexivity|].
  exists hist_df. split; [reflexivity|].
  set (pref_df := recommend_from_preferences _ _ _ _).
  set (merged := merge_outer hist_df pref_df).
  set (cells := zip _ _).
  set (rows := zip_with _ merged cells).
  assert (Hsub : pd.head top_n
                   (pd.sort_values_desc y_final_score
                      (List.filter
                         (fun y => fgt (y_final_score y) (Some 0%Q)) rows))
                 `sublist_of`
                 pd.sort_values_desc y_final_score
                   (List.filter
                      (fun y => fgt (y_final_score y) (Some 0%Q)) rows))
    by apply sublist_take.
  assert (Hin : forall y,
            In y (pd.head top_n
                    (pd.sort_values_desc y_final_score
                       (List.filter
                          (fun y => fgt (y_final_score y) (Some 0%Q)) rows)))
            -> In y (List.filter
                       (fun y => fgt (y_final_score y) (Some 0%Q)) rows)).
  { intros y Hy. eapply Permutation_in; [apply sort_values_desc_perm|].
    eapply sublist_In; eassumption. }
  split; [apply firstn_le_length|]. split; [|split].
  - eapply StronglySorted_sublist; [exact Hsub|].
    apply sort_values_desc_sorted.
  - apply List.Forall_forall. intros y Hy. apply Hin, filter_In in Hy.
    apply Hy.
  - apply List.Forall_forall. intros y Hy. apply Hin, filter_In in Hy.
    destruct Hy as [Hy _]. revert y Hy. apply List.Forall_forall.
    unfold rows.
    apply Forall_zip_with_fst
      with (P := fun row => In (fst (fst row))
                               (map h_movie_id hist_df
                                ++ map p_movie_id pref_df));
      [|apply merge_outer_keys].
    intros [[k l] r] [[hs ps] fs] Hk. exact Hk.
Qed.

End hybrid_results.

(** ** The language cache *)

Lemma get_original_language_grows (env : app.Environment)
    (tmdb_id : option Z) (cache : gmap Z (option string)) :
  cache ⊆ snd (app.get_original_language env tmdb_id cache).
Proof.
  unfold app.get_original_language.
  destruct (app.no_api_key env); [reflexivity|].
  destruct tmdb_id as [k|]; [|reflexivity].
  destruct (cache !! k) eqn:Ek; [reflexivity|].
  destruct (app.tmdb_movie env k); [|reflexivity].
  simpl. apply insert_subseteq. exact Ek.
Qed.

Lemma resolve_languages_grows (env : app.Environment)
    (merged : list app.Merged) (cache : gmap Z (option string)) :
  cache ⊆ snd (app.resolve_languages env merged cache).
Proof.
  revert cache. induction merged as [|m merged IH]; intros cache;
    cbn [app.resolve_languages]; [reflexivity|].
  pose proof (get_original_language_grows env
                (c_tmdb_id (app.m_candidate m)) cache) as H1.
  destruct (app.get_original_language env _ cache) as [lang cache1].
  specialize (IH cache1).
  destruct (app.resolve_languages env merged cache1) as [langs cache2].
  simpl in *. etransitivity; eassumption.
Qed.

Lemma foreign_filter_cache (env : app.Environment) (choice : string)
    (merged : list app.Merged) (cache : gmap Z (option string)) :
  cache ⊆ snd (app.foreign_filter env choice merged cache)
  /\ (choice <> "exclude" -> choice <> "only" ->
      snd (app.foreign_filter env choice merged cache) = cache).
Proof.
  unfold app.foreign_filter.
  destruct (String.eqb choice "exclude") eqn:E1;
    [apply String.eqb_eq in E1|];
    (destruct (String.eqb choice "only") eqn:E2;
     [apply String.eqb_eq in E2|]); cbn [orb].
  all: try (pose proof (resolve_languages_grows env merged cache) as H;
            destruct (app.resolve_languages env merged cache) as [langs c'];
            split; [exact H|congruence]).
  split; [reflexivity|reflexivity].
Qed.

(** X15. Lines 82-107 of app.py. With a key configured, a lookup only ever
    adds the entry of the id it was asked for, and an id that is in the
    cache, or that the provider answered once, keeps its answer for the life
    of the process: the next lookup returns it without changing the cache,
    whatever the provider says by then. *)
Theorem get_original_language_memo (env env' : app.Environment)
    (tmdb_id : Z) (cache : gmap Z (option string)) :
  app.no_api_key env = false -> app.no_api_key env' = false ->
  let r := app.get_original_language env (Some tmdb_id) cache in
  cache ⊆ snd r
  /\ (forall k, k <> tmdb_id -> snd r !! k = cache !! k)
  /\ (is_Some (cache !! tmdb_id) \/ is_Some (app.tmdb_movie env tmdb_id) ->
      app.get_original_language env' (Some tmdb_id) (snd r) = r).
Proof.
  intros Hkey Hkey' r. split; [apply get_original_language_grows|].
  subst r. unfold app.get_original_language. rewrite Hkey, Hkey'.
  destruct (cache !! tmdb_id) as [lang|] eqn:Ec.
  - split; [reflexivity|]. intros _. simpl. rewrite Ec. reflexivity.
  - destruct (app.tmdb_movie env tmdb_id) as [data|] eqn:Ed.
    + split.
      * intros k Hk. simpl. apply lookup_insert_ne. congruence.
      * intros _. simpl. rewrite lookup_insert_eq. reflexivity.
    + split; [reflexivity|]. intros [[x Hx]|[x Hx]]; discriminate.
Qed.

Lemma get_original_language_memo_witness :
  let r := app.get_original_language sample_env (Some 102%Z) ∅ in
  (∅ : gmap Z (option string)) ⊆ snd r
  /\ (forall k, k <> 102%Z -> snd r !! k = (∅ : gmap Z (option string)) !! k)
  /\ (is_Some ((∅ : gmap Z (option string)) !! 102%Z)
      \/ is_Some (app.tmdb_movie sample_env 102) ->
      app.get_original_language
        (app.mkEnvironment (Some "key") (fun _ => None)) (Some 102%Z) (snd r)
      = r).
Proof.
  apply (get_original_language_memo sample_env
           (app.mkEnvironment (Some "key") (fun _ => None)) 102 ∅);
    reflexivity.
Defined.

Section cache.

Variable cosine_similarity : list (list Q) -> nat -> nat -> Q.
Variable log1p : Q -> Q.

(** X16. Lines 141-144 and 206-211 of app.py. A run of [compute_hybrid_recs]
    never removes or changes an entry of [LANG_CACHE]; without a key, or
    with a foreign policy other than "exclude" and "only", it leaves the
    cache as it found it. *)
Theorem compute_hybrid_recs_cache (env : app.Environment) (db : Database)
    (cache : gmap Z (option string)) (user_id : Z)
    (genres_chosen : list string) (year_min : Z) (popularity_pref : string)
    (alpha : float) (foreign_choice : string) (top_n : nat)
    (recs : list app.Recommendation) (cache' : gmap Z (option string)) :
  app.compute_hybrid_recs cosine_similarity log1p env db cache user_id
    genres_chosen year_min popularity_pref alpha foreign_choice top_n
  = inr (recs, cache') ->
  cache ⊆ cache'
  /\ (app.no_api_key env = true
      \/ (foreign_choice <> "exclude" /\ foreign_choice <> "only") ->
      cache' = cache).
Proof.
  unfold app.compute_hybrid_recs. intros H.
  destruct (app.fused_candidates _ _ _ _ _ _ _ _) as [e|merged];
    [discriminate|].
  cbn [mbind Result_bind mret Result_ret] in H.
  pose proof (foreign_filter_cache env
                (if app.no_api_key env then "any" else foreign_choice)
                merged cache) as [Hsub Hsame].
  destruct (app.foreign_filter env _ merged cache) as [merged' c'].
  injection H as _ <-. simpl in *. split; [exact Hsub|].
  intros [Hkey|[H1 H2]].
  - rewrite Hkey in Hsame. apply Hsame; discriminate.
  - destruct (app.no_api_key env); apply Hsame; try discriminate; assumption.
Qed.

End cache.

Lemma compute_hybrid_recs_cache_witness :
  exists recs cache',
    app.compute_hybrid_recs cosine_exact log1p_sample sample_env sample_db
      ∅ 0 [] 1900 "mixed" (Some 0.4%Q) "only" 10 = inr (recs, cache')
    /\ (∅ : gmap Z (option string)) ⊆ cache'
    /\ (app.no_api_key sample_env = true
        \/ ("only" <> "exclude" /\ "only" <> "only") -> cache' = ∅).
Proof.
  eexists _, _. split; [vm_compute; reflexivity|].
  eapply (compute_hybrid_recs_cache cosine_exact log1p_sample sample_env
            sample_db ∅ 0 [] 1900 "mixed" (Some 0.4%Q) "only" 10).
  vm_compute. reflexivity.
Defined.

(** ** The language gate *)

Lemma get_original_language_recorded (env : app.Environment)
    (tmdb_id : option Z) (cache : gmap Z (option string)) (l : string) :
  fst (app.get_original_language env tmdb_id cache) = Some l ->
  exists k,
    tmdb_id = Some k
    /\ snd (app.get_original_language env tmdb_id cache) !! k
       = Some (Some l).
Proof.
  unfold app.get_original_language.
  destruct (app.no_api_key env); [discriminate|].
  destruct tmdb_id as [k|]; [|discriminate].
  destruct (cache !! k) as [lang|] eqn:Ek.
  - simpl. intros ->. exists k. split; [reflexivity|exact Ek].
  - destruct (app.tmdb_movie env k) as [data|]; [|discriminate].
    simpl. intros ->. exists k. split; [reflexivity|].
    apply lookup_insert_eq.
Qed.

Lemma resolve_languages_recorded (env : app.Environment)
    (merged : list app.Merged) (cache : gmap Z (option string)) :
  Forall
    (fun m =>
       forall l, app.m_original_language m = Some l ->
         exists k,
           c_tmdb_id (app.m_candidate m) = Some k
           /\ snd (app.resolve_languages env merged cache) !! k
              = Some (Some l))
    (zip_with app.set_language merged
       (fst (app.resolve_languages env merged cache))).
Proof.
  revert cache. induction merged as [|m merged IH]; intros cache;
    cbn [app.resolve_languages]; [constructor|].
  pose proof (get_original_language_recorded env
                (c_tmdb_id (app.m_candidate m)) cache) as Hrec.
  destruct (app.get_original_language env _ cache) as [lang cache1].
  specialize (IH cache1).
  pose proof (resolve_languages_grows env merged cache1) as Hsub.
  destruct (app.resolve_languages env merged cache1) as [langs cache2].
  cbn [fst snd zip_with] in *. constructor; [|exact IH].
  intros l Hl. destruct m. cbn in Hl. subst lang.
  destruct (Hrec l eq_refl) as (k & Hk & Hlook).
  exists k. split; [exact Hk|]. eapply lookup_weaken; eassumption.
Qed.

Lemma filter_nil_Forall {A} (f : A -> bool) (l : list A) :
  List.filter f l = [] -> Forall (fun x => f x = false) l.
Proof.
  induction l as [|x l IH]; simpl; [constructor|].
  destruct (f x) eqn:E; [discriminate|]. intros H.
  constructor; [exact E|apply IH; exact H].
Qed.

Lemma language_gate_cases (choice : string) (tagged : list app.Merged) :
  (app.language_gate choice tagged = tagged
   /\ Forall (fun m => app.m_original_language m = None) tagged)
  \/ (choice = "exclude"
      /\ app.language_gate choice tagged
         = List.filter
             (fun m => isna (app.m_original_language m)
                       || bool_decide (app.m_original_language m = Some "en"))
             tagged)
  \/ (choice <> "exclude"
      /\ app.language_gate choice tagged
         = List.filter
             (fun m => notna (app.m_original_language m)
                       && negb (bool_decide
                                  (app.m_original_language m = Some "en")))
             tagged).
Proof.
  unfold app.language_gate.
  destruct (List.filter (fun m => notna (app.m_original_language m)) tagged)
    eqn:E.
  - left. split; [reflexivity|]. apply filter_nil_Forall in E.
    eapply Forall_impl; [exact E|]. intros m Hm. simpl in Hm.
    unfold notna in Hm. destruct (app.m_original_language m);
      [discriminate|reflexivity].
  - right. cbn [length Nat.ltb Nat.leb].
    destruct (String.eqb choice "exclude") eqn:Ec.
    + left. apply String.eqb_eq in Ec. split; [exact Ec|reflexivity].
    + right. apply String.eqb_neq in Ec. split; [exact Ec|reflexivity].
Qed.

(** X17. Lines 206-224 of app.py. Under the policies "exclude" and "only",
    every language found on a row that passes the filter is the entry of the
    row's TMDB id in the cache the run leaves behind. "exclude" passes only
    rows whose language is unknown or "en". "only" passes only rows with a
    known language other than "en", unless no language at all was found, in
    which case it passes every row. *)
Theorem foreign_filter_policy (env : app.Environment) (choice : string)
    (merged : list app.Merged) (cache : gmap Z (option string)) :
  choice = "exclude" \/ choice = "only" ->
  let rows := fst (app.foreign_filter env choice merged cache) in
  let cache' := snd (app.foreign_filter env choice merged cache) in
  Forall
    (fun m =>
       forall l, app.m_original_language m = Some l ->
         exists k,
           c_tmdb_id (app.m_candidate m) = Some k
           /\ cache' !! k = Some (Some l))
    rows
  /\ (choice = "exclude" ->
      Forall (fun m => app.m_original_language m = None
                       \/ app.m_original_language m = Some "en") rows)
  /\ (choice = "only" ->
      (length rows = length merged
       /\ Forall (fun m => app.m_original_language m = None) rows)
      \/ Forall (fun m => exists l, app.m_original_language m = Some l
                                    /\ l <> "en") rows).
Proof.
  intros Hchoice rows cache'. subst rows cache'. unfold app.foreign_filter.
  assert (String.eqb choice "exclude" || String.eqb choice "only" = true)
    as ->.
  { destruct Hchoice as [-> | ->]; reflexivity. }
  pose proof (resolve_languages_recorded env merged cache) as Hrec.
  pose proof (resolve_languages_length env merged cache) as Hlen.
  destruct (app.resolve_languages env merged cache) as [langs c'].
  cbn [fst snd] in *.
  set (tagged := zip_with app.set_language merged langs) in *.
  split; [|split].
  - eapply sublist_Forall'; [apply language_gate_sublist|exact Hrec].
  - intros ->.
    destruct (language_gate_cases "exclude" tagged)
      as [[-> Hnone]|[[_ ->]|[Hne _]]]; [| |congruence].
    + eapply Forall_impl; [exact Hnone|]. intros m Hm. left. exact Hm.
    + eapply Forall_impl; [apply filter_Forall|]. intros m Hm. simpl in Hm.
      apply orb_true_iff in Hm. destruct Hm as [Hm|Hm].
      * left. destruct (app.m_original_language m);
          [discriminate|reflexivity].
      * right. apply bool_decide_eq_true in Hm. exact Hm.
  - intros ->.
    destruct (language_gate_cases "only" tagged)
      as [[-> Hnone]|[[Heq _]|[_ ->]]]; [|discriminate|].
    + left. split; [|exact Hnone]. unfold tagged.
      rewrite length_zip_with. lia.
    + right. eapply Forall_impl; [apply filter_Forall|]. intros m Hm.
      simpl in Hm. apply andb_true_iff in Hm. destruct Hm as [Hk Hen].
      destruct (app.m_original_language m) as [l|]; [|discriminate].
      exists l. split; [reflexivity|]. apply negb_true_iff in Hen.
      apply bool_decide_eq_false in Hen. congruence.
Qed.

Lemma foreign_filter_policy_witness :
  let rows := fst (app.foreign_filter sample_env "only" sample_rows ∅) in
  let cache' := snd (app.foreign_filter sample_env "only" sample_rows ∅) in
  Forall
    (fun m =>
       forall l, app.m_original_language m = Some l ->
         exists k,
           c_tmdb_id (app.m_candidate m) = Some k
           /\ cache' !! k = Some (Some l))
    rows
  /\ ("only" = "exclude" ->
      Forall (fun m => app.m_original_language m = None
                       \/ app.m_original_language m = Some "en") rows)
  /\ ("only" = "only" ->
      (length rows = length sample_rows
       /\ Forall (fun m => app.m_original_language m = None) rows)
      \/ Forall (fun m => exists l, app.m_original_language m = Some l
                                    /\ l <> "en") rows).
Proof.
  apply (foreign_filter_policy sample_env "only" sample_rows ∅).
  right. reflexivity.
Defined.

Example foreign_filter_only_run :
  map (fun m => (c_movie_id (app.m_candidate m), app.m_original_language m))
      (fst (app.foreign_filter sample_env "only" sample_rows ∅))
  = [(2%Z, Some "fr")].
Proof. vm_compute. reflexivity. Qed.

(** ** The page of the route [/] *)

Lemma final_ordering_length (popularity_pref : string) (top_n : nat)
    (merged : list app.Merged) :
  length (app.final_ordering popularity_pref top_n merged) <= top_n.
Proof.
  destruct (String.eqb_spec popularity_pref "hidden") as [->|Hne].
  - destruct (final_ordering_hidden top_n merged)
      as (gems & rest & -> & _ & _ & _ & _ & ->). lia.
  - unfold app.final_ordering. apply String.eqb_neq in Hne. rewrite Hne.
    apply firstn_le_length.
Qed.

Section page.

Variable cosine_similarity : list (list Q) -> nat -> nat -> Q.
Variable log1p : Q -> Q.
Variable py_float : string -> option float.

(** X18. Lines 272-329 of app.py. The page never carries an error and
    results together. A request that is no POST gives neither. When the page
    carries an error, the form defaults are the initial ones (what the user
    entered is not echoed) and the language cache is untouched. When it
    carries results there are at most 10 of them, and the defaults echo the
    form: the fusion weight [float] read, the year, popularity and foreign
    choices as sent, and the chosen genres, or "Horror" when none was
    chosen. *)
Theorem index_page (env : app.Environment) (db : Database) (MY_USER_ID : Z)
    (cache : gmap Z (option string)) (req : app.Request) :
  let page :=
    fst (app.index cosine_similarity log1p py_float env db MY_USER_ID cache
           req) in
  let cache' :=
    snd (app.index cosine_similarity log1p py_float env db MY_USER_ID cache
           req) in
  (app.error page = None \/ app.results page = None)
  /\ (app.method req <> "POST" ->
      app.error page = None /\ app.results page = None /\ cache' = cache)
  /\ (app.error page <> None ->
      cache' = cache
      /\ app.default_genres page = ["Horror"]
      /\ app.default_year_choice page = "any"
      /\ app.default_pop_choice page = "mixed"
      /\ app.default_alpha page = Some 0.4%Q
      /\ app.default_foreign_choice page = "any")
  /\ (forall recs, app.results page = Some recs ->
      length recs <= 10
      /\ py_float (app.form_get (app.form req) "alpha" "0.4")
         = Some (app.default_alpha page)
      /\ app.default_year_choice page
         = app.form_get (app.form req) "year_choice" "any"
      /\ app.default_pop_choice page
         = app.form_get (app.form req) "pop_choice" "mixed"
      /\ app.default_foreign_choice page
         = app.form_get (app.form req) "foreign_choice" "any"
      /\ app.default_genres page
         = match app.getlist (app.form req) "genres" with
           | [] => ["Horror"]
           | gs => gs
           end).
Proof.
  unfold app.index.
  destruct (String.eqb_spec (app.method req) "POST") as [Hpost|Hget].
  2:{ cbn. repeat split; try tauto; try discriminate. }
  unfold app.read_form.
  destruct (py_float (app.form_get (app.form req) "alpha" "0.4"))
    as [alpha|] eqn:Ealpha.
  2:{ cbn. repeat split; try tauto; try discriminate. }
  cbn [mret Result_ret]. unfold app.call_core.
  cbn [app.call_user_id app.call_genres_chosen app.call_year_min
       app.call_popularity_pref app.call_alpha app.call_foreign_choice
       app.call_top_n].
  destruct (app.compute_hybrid_recs _ _ _ _ _ _ _ _ _ _ _ _)
    as [e|[recs c']] eqn:Erun.
  { cbn. repeat split; try tauto; try discriminate. }
  cbn [fst snd app.error app.results app.default_genres
       app.default_year_choice app.default_pop_choice app.default_alpha
       app.default_foreign_choice].
  split; [left; reflexivity|]. split; [intros H; contradiction|].
  split; [intros H; congruence|].
  intros recs' [= <-]. split; [|repeat split].
  apply compute_hybrid_recs_inv in Erun.
  destruct Erun as (eligible & _ & _ & ->).
  rewrite length_map. apply final_ordering_length.
Qed.

End page.

(** ** What [compute_hybrid_recs] returns and raises *)

Lemma genre_match_flag (cols : list GenreCol) (c : Candidate) :
  recommender_prefs.genre_match cols c = true ->
  exists col, In col cols /\ flag col (c_flags c) = true.
Proof.
  intros H.
  replace cols with (map fst (map (fun col => (col, 0%Q)) cols)) in H
    by (rewrite map_map; apply map_id).
  rewrite genre_match_existsb in H. apply existsb_exists in H.
  destruct H as ([col w] & Hin & Hflag). apply in_map_iff in Hin.
  destruct Hin as (col' & [= -> _] & Hin). exists col. split; assumption.
Qed.

Lemma omap_dict_get_In {V} (d : list (string * V)) (gs : list string)
    (v : V) :
  In v (omap (dict_get d) gs) ->
  exists g, In g gs /\ dict_get d g = Some v.
Proof.
  rewrite <- list_elem_of_In, list_elem_of_omap.
  intros (g & Hg & Hv). exists g. split; [apply list_elem_of_In|]; assumption.
Qed.

Lemma chosen_weights_error (genres_chosen : list string)
    (weights : list (GenreCol * Q)) :
  match app.chosen_weights genres_chosen weights with
  | inl e =>
      exists g,
        List.find (fun g => isna (dict_get app.genre_map g)) genres_chosen
        = Some g
        /\ e = KeyError_key g
  | inr _ =>
      List.find (fun g => isna (dict_get app.genre_map g)) genres_chosen
      = None
  end.
Proof.
  revert weights.
  induction genres_chosen as [|g gs IH]; intros weights;
    cbn [app.chosen_weights List.find]; [reflexivity|].
  destruct (dict_get app.genre_map g) as [col|]; cbn [isna].
  - apply IH.
  - exists g. split; reflexivity.
Qed.

Section results.

Variable cosine_similarity : list (list Q) -> nat -> nat -> Q.
Variable log1p : Q -> Q.

Lemma fused_candidates_gate (db : Database) (user_id : Z)
    (genres_chosen : list string) (year_min : Z) (popularity_pref : string)
    (alpha : float) (rows : list app.Merged) :
  app.fused_candidates cosine_similarity log1p db user_id genres_chosen
    year_min popularity_pref alpha = inr rows ->
  Forall
    (fun m =>
       In (app.m_candidate m) (app.load_candidates db)
       /\ (genres_chosen <> [] ->
           exists g col,
             In g genres_chosen /\ dict_get app.genre_map g = Some col
             /\ flag col (c_flags (app.m_candidate m)) = true))
    rows.
Proof.
  unfold app.fused_candidates. intros H.
  destruct (recommender_history.recommend_from_history _ _ _ _ _)
    as [e|hist_df]; [discriminate|].
  cbn [mbind Result_bind] in H.
  destruct (app.chosen_weights genres_chosen zero_weights)
    as [e|genre_weights]; [discriminate|].
  cbn [mbind Result_bind mret Result_ret] in H.
  injection H as <-.
  pose (P := fun c : Candidate =>
               In c (app.load_candidates db)
               /\ (genres_chosen <> [] ->
                   exists g col,
                     In g genres_chosen
                     /\ dict_get app.genre_map g = Some col
                     /\ flag col (c_flags c) = true)).
  apply (fuse_candidates P), (merge_left_candidates P).
  apply (zip_fst_Forall P). apply List.Forall_forall. intros c Hc.
  unfold P.
  assert (Hpool : forall c', In c' (app.candidate_pool db user_id) ->
                             In c' (app.load_candidates db)).
  { intros c'. unfold app.candidate_pool. destruct (bool_decide _);
      [tauto|]. intros Hc'. apply filter_In in Hc'. apply Hc'. }
  destruct genres_chosen as [|g gs].
  - split; [apply Hpool; exact Hc|]. intros Hne. congruence.
  - apply filter_In in Hc. destruct Hc as [Hc Hgate].
    split; [apply Hpool; exact Hc|]. intros _.
    apply genre_match_flag in Hgate. destruct Hgate as (col & Hcol & Hflag).
    apply (omap_dict_get_In app.genre_map (g :: gs) col) in Hcol.
    destruct Hcol as (g' & Hg' & Hget).
    exists g', col. repeat split; assumption.
Qed.

(** X19. Lines 110-115, 146-152, 180-184 and 245-264 of app.py. Every dict
    that [compute_hybrid_recs] returns describes a row of the view
    [movie_features_with_links] with at least 10 ratings: it carries that
    row's id, title, genres text and rating count. When genres were chosen,
    the row has the flag of at least one chosen genre. *)
Theorem compute_hybrid_recs_candidates (env : app.Environment)
    (db : Database) (cache : gmap Z (option string)) (user_id : Z)
    (genres_chosen : list string) (year_min : Z) (popularity_pref : string)
    (alpha : float) (foreign_choice : string) (top_n : nat)
    (recs : list app.Recommendation) (cache' : gmap Z (option string)) :
  app.compute_hybrid_recs cosine_similarity log1p env db cache user_id
    genres_chosen year_min popularity_pref alpha foreign_choice top_n
  = inr (recs, cache') ->
  Forall
    (fun r =>
       exists f,
         In f (movie_features_with_links db)
         /\ f_movie_id f = app.movie_id r
         /\ f_title f = app.title r
         /\ f_genres f = app.genres r
         /\ f_num_ratings f = app.num_ratings r
         /\ (10 <= app.num_ratings r)%Z
         /\ (genres_chosen <> [] ->
             exists g col,
               In g genres_chosen /\ dict_get app.genre_map g = Some col
               /\ flag col (f_flags f) = true))
    recs.
Proof.
  unfold app.compute_hybrid_recs. intros H.
  destruct (app.fused_candidates _ _ _ _ _ _ _ _) as [e|merged] eqn:E;
    [discriminate|].
  cbn [mbind Result_bind mret Result_ret] in H.
  apply fused_candidates_gate in E.
  pose proof (foreign_filter_Forall
                (fun m =>
                   In (app.m_candidate m) (app.load_candidates db)
                   /\ (genres_chosen <> [] ->
                       exists g col,
                         In g genres_chosen
                         /\ dict_get app.genre_map g = Some col
                         /\ flag col (c_flags (app.m_candidate m)) = true))
                env (if app.no_api_key env then "any" else foreign_choice)
                merged cache (fun m lang Hm => Hm) E) as Hrows.
  destruct (app.foreign_filter env _ merged cache) as [merged' c'].
  injection H as <- _. cbn [fst] in Hrows.
  apply List.Forall_forall. intros r Hr. apply in_map_iff in Hr.
  destruct Hr as (m & <- & Hm). apply final_ordering_In in Hm.
  rewrite List.Forall_forall in Hrows. destruct (Hrows m Hm) as [Hin Hgate].
  unfold app.load_candidates, load_rows in Hin. apply in_map_iff in Hin.
  destruct Hin as (f & Hf & Hin). apply filter_In in Hin.
  destruct Hin as [Hin Hn]. apply Z.leb_le in Hn.
  exists f. unfold app.to_result.
  cbn [app.movie_id app.title app.genres app.num_ratings].
  rewrite <- Hf in *. cbn [c_movie_id c_title c_genres c_num_ratings] in *.
  repeat split; assumption.
Qed.

(** X20. Lines 154-172 of app.py. [compute_hybrid_recs] raises in two cases
    only: the history scorer, run with [top_n=500] and a minimum of 30
    ratings, raises, and that exception comes out; or the history scorer
    returns and some chosen genre is no key of [genre_map], and the first
    such genre comes out as a KeyError. *)
Theorem compute_hybrid_recs_errors (env : app.Environment) (db : Database)
    (cache : gmap Z (option string)) (user_id : Z)
    (genres_chosen : list string) (year_min : Z) (popularity_pref : string)
    (alpha : float) (foreign_choice : string) (top_n : nat) (e : Exception) :
  app.compute_hybrid_recs cosine_similarity log1p env db cache user_id
    genres_chosen year_min popularity_pref alpha foreign_choice top_n
  = inl e
  <-> recommender_history.recommend_from_history cosine_similarity db
        user_id 500 30 = inl e
      \/ ((exists hist_df,
              recommender_history.recommend_from_history cosine_similarity
                db user_id 500 30 = inr hist_df)
          /\ exists g,
               List.find (fun g => isna (dict_get app.genre_map g))
                         genres_chosen = Some g
               /\ e = KeyError_key g).
Proof.
  unfold app.compute_hybrid_recs, app.fused_candidates.
  destruct (recommender_history.recommend_from_history _ _ _ _ _)
    as [e0|hist_df]; cbn [mbind Result_bind].
  - split.
    + intros [= ->]. left. reflexivity.
    + intros [[= ->]|[[h Hh] _]]; [reflexivity|discriminate].
  - pose proof (chosen_weights_error genres_chosen zero_weights) as Hcw.
    destruct (app.chosen_weights genres_chosen zero_weights)
      as [e1|genre_weights]; cbn [mbind Result_bind mret Result_ret].
    + destruct Hcw as (g & Hfind & ->). split.
      * intros [= <-]. right. split; [exists hist_df; reflexivity|].
        exists g. split; [exact Hfind|reflexivity].
      * intros [H|[_ (g' & Hfind' & ->)]]; [discriminate|].
        rewrite Hfind in Hfind'. injection Hfind' as <-. reflexivity.
    + split.
      * destruct (app.foreign_filter _ _ _ _). intros H. discriminate H.
      * intros [H|[_ (g & Hfind & _)]]; [discriminate|].
        rewrite Hcw in Hfind. discriminate.
Qed.

(** X21. Lines 146-152 of app.py. No dict that [compute_hybrid_recs] returns
    is about a movie for which the table [ratings] holds a rating of this
    user, whatever the filters and the ordering that follow. *)
Theorem compute_hybrid_recs_never_rated (env : app.Environment)
    (db : Database) (cache : gmap Z (option string)) (user_id : Z)
    (genres_chosen : list string) (year_min : Z) (popularity_pref : string)
    (alpha : float) (foreign_choice : string) (top_n : nat)
    (recs : list app.Recommendation) (cache' : gmap Z (option string)) :
  app.compute_hybrid_recs cosine_similarity log1p env db cache user_id
    genres_chosen year_min popularity_pref alpha foreign_choice top_n
  = inr (recs, cache') ->
  forall rec rating,
    In rec recs -> In rating (ratings db) -> r_user_id rating = user_id ->
    r_movie_id rating <> app.movie_id rec.
Proof.
  intros H rec rating Hrec Hrating Huser Hid.
  apply compute_hybrid_recs_excludes_rated in H.
  rewrite List.Forall_forall in H. apply (H rec Hrec).
  unfold app.get_user_rated_movie_ids. apply elem_of_list_to_set.
  apply list_elem_of_In. rewrite <- Hid. apply in_map.
  apply filter_In. split; [exact Hrating|]. apply Z.eqb_eq. exact Huser.
Qed.

End results.

Lemma compute_hybrid_recs_candidates_witness :
  exists recs cache',
    app.compute_hybrid_recs cosine_exact log1p_sample sample_env sample_db
      ∅ 0 ["Horror"] 1900 "mixed" (Some 0.4%Q) "any" 10 = inr (recs, cache')
    /\ Forall
         (fun r =>
            exists f,
              In f (movie_features_with_links sample_db)
              /\ f_movie_id f = app.movie_id r
              /\ f_title f = app.title r
              /\ f_genres f = app.genres r
              /\ f_num_ratings f = app.num_ratings r
              /\ (10 <= app.num_ratings r)%Z
              /\ (["Horror"] <> [] ->
                  exists g col,
                    In g ["Horror"] /\ dict_get app.genre_map g = Some col
                    /\ flag col (f_flags f) = true))
         recs.
Proof.
  eexists _, _. split; [vm_compute; reflexivity|].
  eapply (compute_hybrid_recs_candidates cosine_exact log1p_sample
            sample_env sample_db ∅ 0 ["Horror"] 1900 "mixed" (Some 0.4%Q)
            "any" 10).
  vm_compute. reflexivity.
Defined.

Lemma compute_hybrid_recs_never_rated_witness :
  exists recs cache',
    app.compute_hybrid_recs cosine_exact log1p_sample sample_env sample_db
      ∅ 0 [] 1900 "mixed" (Some 0.4%Q) "any" 10 = inr (recs, cache')
    /\ forall rec rating,
         In rec recs -> In rating (ratings sample_db) ->
         r_user_id rating = 0%Z -> r_movie_id rating <> app.movie_id rec.
Proof.
  eexists _, _. split; [vm_compute; reflexivity|].
  eapply (compute_hybrid_recs_never_rated cosine_exact log1p_sample
            sample_env sample_db ∅ 0 [] 1900 "mixed" (Some 0.4%Q) "any" 10).
  vm_compute. reflexivity.
Defined.

Example unknown_genre_run :
  recommendations
    (app.compute_hybrid_recs cosine_exact log1p_sample sample_env sample_db
       ∅ 0 ["Horror"; "Western"; "Noir"] 1900 "mixed" (Some 0.4%Q) "any" 10)
  = raise (KeyError_key "Western").
Proof. vm_compute. reflexivity. Qed.

(** ** The left join on the history scores *)

Lemma filter_key_nil (k : Z) (kept : list (Z * Q)) :
  List.filter (fun '(m, _) => Z.eqb m k) kept = [] <-> ~ In k (map fst kept).
Proof.
  induction kept as [|[m s] kept IH]; simpl; [tauto|].
  destruct (Z.eqb_spec m k) as [->|Hne].
  - split; [discriminate|]. intros H. exfalso. apply H. left. reflexivity.
  - rewrite IH. tauto.
Qed.

Lemma drop_duplicates_filter (k : Z) (df kept : list (Z * Q)) :
  List.filter (fun '(m, _) => Z.eqb m k)
    (fold_left
       (fun kept '(m, s) =>
          if bool_decide (m ∈ map fst kept) then kept else kept ++ [(m, s)])
       df kept)
  = match List.filter (fun '(m, _) => Z.eqb m k) kept with
    | [] =>
        match List.find (fun '(m, _) => Z.eqb m k) df with
        | Some row => [row]
        | None => []
        end
    | found => found
    end.
Proof.
  revert kept. induction df as [|[m s] df IH]; intros kept;
    cbn [fold_left List.find].
  - destruct (List.filter _ kept); reflexivity.
  - rewrite IH. clear IH. case_bool_decide as Hm.
    + apply list_elem_of_In in Hm.
      destruct (List.filter (fun '(m0, _) => Z.eqb m0 k) kept) eqn:Ek;
        [|reflexivity].
      apply filter_key_nil in Ek.
      destruct (Z.eqb_spec m k) as [->|Hne]; [tauto|reflexivity].
    + rewrite list_elem_of_In in Hm. rewrite List.filter_app.
      cbn [List.filter].
      destruct (Z.eqb_spec m k) as [->|Hne].
      * apply filter_key_nil in Hm. rewrite Hm. reflexivity.
      * rewrite app_nil_r.
        destruct (List.filter (fun '(m0, _) => Z.eqb m0 k) kept);
          reflexivity.
Qed.

(** X22. Lines 157 and 189-193 of app.py. After [drop_duplicates] the left
    join keeps the candidates as they are, one row each and in their order;
    the history score of a row is the score of the first history row with
    its movie id, NaN when there is none. *)
Theorem merge_left_one_row_each (candidates : list (Candidate * float))
    (hist_df : list (Z * Q)) :
  app.merge_left candidates (app.drop_duplicates hist_df)
  = map (fun '(c, pref_score) =>
           (c, pref_score,
            match List.find (fun '(m, _) => Z.eqb m (c_movie_id c)) hist_df
            with
            | Some (_, s) => Some s
            | None => NaN
            end))
        candidates.
Proof.
  unfold app.merge_left, app.drop_duplicates.
  induction candidates as [|[c ps] candidates IH]; [reflexivity|].
  match goal with
  | |- flat_map ?f (?x :: ?l) = _ =>
      change (flat_map f (x :: l)) with (f x ++ flat_map f l)
  end.
  rewrite IH. clear IH. cbn [map].
  rewrite (drop_duplicates_filter (c_movie_id c) hist_df []).
  cbn [List.filter].
  destruct (List.find _ hist_df) as [[m s]|]; reflexivity.
Qed.

(** ** The scores of the rows that are returned *)

Lemma In_lookup {A} (l : list A) (x : A) :
  In x l -> exists i, l !! i = Some x.
Proof.
  intros H. apply list_elem_of_In in H.
  apply list_elem_of_lookup_1 in H. exact H.
Qed.

Lemma lookup_In {A} (l : list A) (i : nat) (x : A) :
  l !! i = Some x -> In x l.
Proof. intros H. apply list_elem_of_In. eapply list_elem_of_lookup_2, H. Qed.

Lemma lookup_map_fwd {A B} (f : A -> B) (l : list A) (i : nat) (x : A) :
  l !! i = Some x -> map f l !! i = Some (f x).
Proof.
  intros Hx. pose proof (list_lookup_fmap f l i) as E.
  change (f <$> l) with (map f l) in E. rewrite E, Hx. reflexivity.
Qed.

(** A row of [fuse] carries the cells of one position of the four score
    columns. *)
Lemma fuse_rows (alpha : float) (merged : list (Candidate * float * float))
    (m : app.Merged) :
  In m (app.fuse alpha merged) ->
  positive_row m
  /\ app.m_final_score m
     = final_score alpha (app.m_pref_norm m) (app.m_history_norm m)
  /\ In (app.m_pref_norm m)
        (app.min_max_normalize
           (map (fun '(_, pref_score, _) => pref_score) merged))
  /\ In (app.m_history_norm m)
        (app.min_max_normalize
           (pd.fillna (Some 0.0%Q)
              (map (fun '(_, _, score) => score) merged)))
  /\ exists row,
       In row merged
       /\ app.m_history_score m
          = match snd row with None => Some 0.0%Q | Some s => Some s end.
Proof.
  unfold app.fuse. intros H. apply filter_In in H. destruct H as [H Hpos].
  split; [exact Hpos|]. clear Hpos.
  apply In_lookup in H. destruct H as [i H].
  apply lookup_zip_with_Some in H.
  destruct H as ([[c ps] sc] & [[[hs hn] pn] fs] & -> & Hrow & Hcells).
  unfold zip in Hcells.
  apply lookup_zip_with_Some in Hcells.
  destruct Hcells as ([[hs' hn'] pn'] & fs' & [= <- <- <- <-] & Hcells & Hfs).
  apply lookup_zip_with_Some in Hcells.
  destruct Hcells as ([hs' hn'] & pn' & [= <- <- <-] & Hcells & Hpn).
  apply lookup_zip_with_Some in Hcells.
  destruct Hcells as (hs' & hn' & [= <- <-] & Hhs & Hhn).
  apply lookup_zip_with_Some in Hfs.
  destruct Hfs as (pn' & hn' & -> & Hpn' & Hhn').
  assert (pn' = pn) as -> by congruence.
  assert (hn' = hn) as -> by congruence.
  cbn [app.m_final_score app.m_pref_norm app.m_history_norm
       app.m_history_score].
  split; [reflexivity|]. split; [eapply lookup_In; exact Hpn|].
  split; [eapply lookup_In; exact Hhn|].
  exists (c, ps, sc). split; [eapply lookup_In; exact Hrow|].
  unfold pd.fillna in Hhs.
  pose proof (lookup_map_fwd (fun '(_, _, score) => score) _ _ _ Hrow)
    as Hsc.
  rewrite (lookup_map_inv _ _ _ _ _ Hsc Hhs). destruct sc; reflexivity.
Qed.

Lemma merge_left_scores (candidates : list (Candidate * float))
    (hist_df : list (Z * Q)) (row : Candidate * float * float) (s : Q) :
  In row (app.merge_left candidates hist_df) -> snd row = Some s ->
  exists m, In (m, s) hist_df.
Proof.
  unfold app.merge_left. intros Hrow Hs. apply in_flat_map in Hrow.
  destruct Hrow as ([c ps] & _ & Hrow).
  destruct (List.filter _ hist_df) as [|x xs] eqn:E.
  - destruct Hrow as [<-|[]]. discriminate.
  - rewrite <- E in Hrow. apply in_map_iff in Hrow.
    destruct Hrow as ([m s'] & <- & Hin). apply filter_In in Hin.
    injection Hs as ->. exists m. apply Hin.
Qed.

Lemma drop_duplicates_In (df : list (Z * Q)) (row : Z * Q) :
  In row (app.drop_duplicates df) -> In row df.
Proof.
  unfold app.drop_duplicates.
  assert (H : forall kept,
            In row (fold_left
                      (fun kept '(m, s) =>
                         if bool_decide (m ∈ map fst kept) then kept
                         else kept ++ [(m, s)]) df kept) ->
            In row kept \/ In row df);
    [|intros Hin; apply H in Hin; destruct Hin as [[]|Hin]; exact Hin].
  induction df as [|[m s] df IH]; intros kept; cbn [fold_left]; [tauto|].
  intros Hin. apply IH in Hin. destruct Hin as [Hin|Hin]; [|simpl; tauto].
  destruct (bool_decide _); [tauto|].
  apply in_app_or in Hin. simpl in *. tauto.
Qed.

Lemma Forall_zip_with_snd {A B C} (P : B -> Prop) (R : C -> Prop)
    (f : A -> B -> C) (l : list A) (k : list B) :
  (forall x y, P y -> R (f x y)) -> Forall P k -> Forall R (zip_with f l k).
Proof.
  intros Hf HP. revert l.
  induction HP as [|y k Py _ IH]; intros [|x l]; simpl; constructor; auto.
Qed.

Lemma fuse_nan (merged : list (Candidate * float * float)) :
  app.fuse NaN merged = [].
Proof.
  unfold app.fuse. apply filter_nothing.
  apply Forall_zip_with_snd
    with (P := fun cells : float * float * float * float => snd cells = NaN).
  { intros [[c ps] sc] [[[hs hn] pn] fs]. simpl. intros ->. reflexivity. }
  apply Forall_zip_with_snd with (P := fun fs : float => fs = NaN).
  { intros x y ->. reflexivity. }
  apply Forall_zip_with. intros x y. reflexivity.
Qed.

Section scores.

Variable cosine_similarity : list (list Q) -> nat -> nat -> Q.
Variable log1p : Q -> Q.

(** X23. Lines 195-204 and 245-264 of app.py. With a fusion weight in [0,
    1], every dict that [compute_hybrid_recs] returns has a final score that
    is a number above 0 and at most 1, and a history score that is a number
    and not negative. *)
Theorem compute_hybrid_recs_scores (env : app.Environment) (db : Database)
    (cache : gmap Z (option string)) (user_id : Z)
    (genres_chosen : list string) (year_min : Z) (popularity_pref : string)
    (alpha : float) (foreign_choice : string) (top_n : nat)
    (recs : list app.Recommendation) (cache' : gmap Z (option string)) :
  valid_alpha alpha ->
  app.compute_hybrid_recs cosine_similarity log1p env db cache user_id
    genres_chosen year_min popularity_pref alpha foreign_choice top_n
  = inr (recs, cache') ->
  Forall
    (fun r =>
       exists f h,
         app.final_score_of r = Some f /\ (0 < f)%Q /\ (f <= 1)%Q
         /\ app.history_score r = Some h /\ (0 <= h)%Q)
    recs.
Proof.
  intros (a & -> & Ha0 & Ha1) H.
  unfold app.compute_hybrid_recs in H.
  destruct (app.fused_candidates _ _ _ _ _ _ _ _) as [e|merged] eqn:E;
    [discriminate|].
  cbn [mbind Result_bind mret Result_ret] in H.
  pose (P := fun m : app.Merged =>
               exists f h,
                 app.m_final_score m = Some f /\ (0 < f)%Q /\ (f <= 1)%Q
                 /\ app.m_history_score m = Some h /\ (0 <= h)%Q).
  assert (HP : Forall P merged).
  { apply fused_candidates_inv in E.
    destruct E as (hist_df & gw & cands & Hhist & _ & _ & ->).
    apply List.Forall_forall. intros m Hm. apply fuse_rows in Hm.
    destruct Hm as (Hpos & Hfs & Hpn & Hhn & row & Hrow & Hhs).
    pose proof (proj1 (List.Forall_forall _ _)
                  (min_max_normalize_cells _) _ Hpn) as Cp.
    pose proof (proj1 (List.Forall_forall _ _)
                  (min_max_normalize_cells _) _ Hhn) as Ch.
    cbv beta in Cp, Ch.
    assert (Hh : exists s, app.m_history_score m = Some s /\ (0 <= s)%Q).
    { rewrite Hhs. destruct (snd row) as [s|] eqn:Es.
      - exists s. split; [reflexivity|].
        destruct (merge_left_scores _ _ _ _ Hrow Es) as [mid Hin].
        apply drop_duplicates_In in Hin. apply in_map_iff in Hin.
        destruct Hin as (hrow & [= _ <-] & Hin).
        apply recommend_from_history_rows in Hhist.
        rewrite List.Forall_forall in Hhist.
        destruct (Hhist _ Hin) as [Hs _]. lra.
      - exists 0.0%Q. split; [reflexivity|lra]. }
    destruct Hh as (s & Hs & Hs0).
    unfold positive_row in Hpos. rewrite Hfs in Hpos. unfold P.
    rewrite Hfs, Hs.
    destruct (app.m_pref_norm m) as [p|]; [|discriminate].
    destruct (app.m_history_norm m) as [h|]; [|discriminate].
    destruct (Cp p eq_refl) as [Hp0 Hp1].
    destruct (Ch h eq_refl) as [Hh0 Hh1].
    cbn in Hpos. apply Qlt_bool_iff in Hpos.
    eexists _, s. split; [reflexivity|]. split; [exact Hpos|].
    split; [nra|]. split; [reflexivity|exact Hs0]. }
  pose proof (foreign_filter_Forall P env
                (if app.no_api_key env then "any" else foreign_choice)
                merged cache (fun m lang Hm => Hm) HP) as Hrows.
  destruct (app.foreign_filter env _ merged cache) as [merged' c'].
  injection H as <- _. cbn [fst] in Hrows.
  apply List.Forall_forall. intros r Hr. apply in_map_iff in Hr.
  destruct Hr as (m & <- & Hm). apply final_ordering_In in Hm.
  rewrite List.Forall_forall in Hrows. exact (Hrows m Hm).
Qed.

(** X24. Lines 195-204 of app.py. With NaN for the fusion weight (the text
    "nan" passes [float]) every final score is NaN, the filter [final_score
    > 0] drops every row, and a run that returns gives the empty list and
    leaves the cache as it was. *)
Theorem compute_hybrid_recs_nan_alpha (env : app.Environment)
    (db : Database) (cache : gmap Z (option string)) (user_id : Z)
    (genres_chosen : list string) (year_min : Z) (popularity_pref : string)
    (foreign_choice : string) (top_n : nat)
    (recs : list app.Recommendation) (cache' : gmap Z (option string)) :
  app.compute_hybrid_recs cosine_similarity log1p env db cache user_id
    genres_chosen year_min popularity_pref NaN foreign_choice top_n
  = inr (recs, cache') ->
  recs = [] /\ cache' = cache.
Proof.
  unfold app.compute_hybrid_recs. intros H.
  destruct (app.fused_candidates _ _ _ _ _ _ _ _) as [e|merged] eqn:E;
    [discriminate|].
  cbn [mbind Result_bind mret Result_ret] in H.
  apply fused_candidates_inv in E.
  destruct E as (hist_df & gw & cands & _ & _ & _ & ->).
  rewrite fuse_nan in H. unfold app.foreign_filter in H.
  destruct (_ || _); cbn in H; injection H as <- <-;
    (split; [|reflexivity]); unfold app.final_ordering;
    destruct (String.eqb popularity_pref "hidden"); try reflexivity;
    destruct top_n; reflexivity.
Qed.

(** X25. Lines 242-243 of app.py. In every popularity mode but "hidden" the
    result is the best [top_n] of the eligible rows: as many dicts as the
    smaller of [top_n] and the number of eligible rows, in descending order
    of final score, and every eligible row is either returned or scores no
    higher than each dict that is. *)
Theorem compute_hybrid_recs_top_n (env : app.Environment) (db : Database)
    (cache : gmap Z (option string)) (user_id : Z)
    (genres_chosen : list string) (year_min : Z) (popularity_pref : string)
    (alpha : float) (foreign_choice : string) (top_n : nat)
    (recs : list app.Recommendation) (cache' : gmap Z (option string)) :
  popularity_pref <> "hidden" ->
  app.compute_hybrid_recs cosine_similarity log1p env db cache user_id
    genres_chosen year_min popularity_pref alpha foreign_choice top_n
  = inr (recs, cache') ->
  exists eligible,
    eligible_rows cosine_similarity log1p env db cache user_id genres_chosen
      year_min popularity_pref alpha foreign_choice = inr eligible
    /\ length recs = Nat.min top_n (length eligible)
    /\ ranked_desc recs
    /\ forall m, In m eligible ->
         In (app.to_result env m) recs
         \/ Forall (fun r => fge (app.final_score_of r) (app.m_final_score m)
                             = true) recs.
Proof.
  intros Hmode H. apply compute_hybrid_recs_inv in H.
  destruct H as (eligible & Hel & Hpos & ->).
  exists eligible. split; [exact Hel|].
  unfold app.final_ordering.
  apply String.eqb_neq in Hmode. rewrite Hmode.
  set (sorted := pd.sort_values_desc app.m_final_score eligible).
  assert (Hperm : Permutation sorted eligible)
    by apply sort_values_desc_perm.
  assert (Hge : StronglySorted
                  (fun m1 m2 => fge (app.m_final_score m1)
                                    (app.m_final_score m2) = true) sorted).
  { apply (StronglySorted_weaken (pd.desc_by app.m_final_score) _
             positive_row).
    - unfold positive_row, pd.desc_by. intros m1 m2 H1 H2.
      destruct (app.m_final_score m1), (app.m_final_score m2);
        try discriminate.
      simpl. intros Hle. apply Qle_bool_iff. exact Hle.
    - eapply Permutation_Forall; [|exact Hpos]. symmetry. exact Hperm.
    - apply sort_values_desc_sorted. }
  split; [|split].
  - rewrite length_map. unfold pd.head. rewrite length_take.
    rewrite (Permutation_length Hperm). reflexivity.
  - unfold ranked_desc.
    apply (StronglySorted_fmap (app.to_result env)
             (fun m1 m2 => fge (app.m_final_score m1) (app.m_final_score m2)
                           = true)).
    { intros m1 m2 Hm. exact Hm. }
    eapply StronglySorted_sublist; [apply sublist_take|exact Hge].
  - intros m Hm. apply (Permutation_in _ (Permutation_sym Hperm)) in Hm.
    unfold pd.head. rewrite <- (take_drop top_n sorted) in Hm, Hge.
    apply in_app_or in Hm. destruct Hm as [Hm|Hm].
    + left. apply in_map. exact Hm.
    + right. apply Forall_map. apply List.Forall_forall. intros m' Hm'.
      revert m' Hm'. apply List.Forall_forall.
      revert Hge. generalize (take top_n sorted) as front.
      induction front as [|x front IH]; intros Hs; [constructor|].
      simpl in Hs. apply StronglySorted_inv in Hs. destruct Hs as [Hs Hall].
      constructor; [|apply IH; exact Hs].
      rewrite List.Forall_forall in Hall. apply Hall.
      apply in_or_app. right. exact Hm.
Qed.

End scores.

Lemma compute_hybrid_recs_scores_witness :
  exists recs cache',
    app.compute_hybrid_recs cosine_exact log1p_sample sample_env sample_db
      ∅ 0 [] 1900 "mixed" (Some 0.4%Q) "any" 10 = inr (recs, cache')
    /\ Forall
         (fun r =>
            exists f h,
              app.final_score_of r = Some f /\ (0 < f)%Q /\ (f <= 1)%Q
              /\ app.history_score r = Some h /\ (0 <= h)%Q)
         recs.
Proof.
  eexists _, _. split; [vm_compute; reflexivity|].
  eapply (compute_hybrid_recs_scores cosine_exact log1p_sample sample_env
            sample_db ∅ 0 [] 1900 "mixed" (Some 0.4%Q) "any" 10).
  - exists 0.4%Q. split; [reflexivity|]. split; vm_compute; discriminate.
  - vm_compute. reflexivity.
Defined.

Lemma compute_hybrid_recs_nan_alpha_witness :
  exists recs cache',
    app.compute_hybrid_recs cosine_exact log1p_sample sample_env sample_db
      ∅ 0 [] 1900 "mixed" NaN "only" 10 = inr (recs, cache')
    /\ recs = [] /\ cache' = ∅.
Proof.
  eexists _, _. split; [vm_compute; reflexivity|].
  eapply (compute_hybrid_recs_nan_alpha cosine_exact log1p_sample sample_env
            sample_db ∅ 0 [] 1900 "mixed" "only" 10).
  vm_compute. reflexivity.
Defined.

Lemma compute_hybrid_recs_top_n_witness :
  exists recs eligible,
    eligible_rows cosine_exact log1p_sample sample_env sample_db ∅ 0 []
      1900 "mixed" (Some 0.4%Q) "any" = inr eligible
    /\ length recs = Nat.min 2 (length eligible)
    /\ ranked_desc recs
    /\ forall m, In m eligible ->
         In (app.to_result sample_env m) recs
         \/ Forall (fun r => fge (app.final_score_of r)
                                 (app.m_final_score m) = true) recs.
Proof.
  eexists.
  eapply (compute_hybrid_recs_top_n cosine_exact log1p_sample sample_env
            sample_db ∅ 0 [] 1900 "mixed" (Some 0.4%Q) "any" 2 _ _).
  - discriminate.
  - vm_compute. reflexivity.
Defined.

(** * Binary64: where rounding and overflow decide *)

Section doubles.

Import SpecFloat.

(** ** The order of doubles *)










(** The doubles of the literals 0.05 and 0.05000000000000001 are
    0x1.999999999999ap-5 and its successor. *)
Example lit_005 :
  binary64.lit 5 100 = S754_finite false 7205759403792794 (-57)
  /\ binary64.lit 5000000000000001 (10 ^ 17)
     = S754_finite false 7205759403792795 (-57).
Proof. vm_compute. split; reflexivity. Qed.

(** ** Min-max normalization *)

(** Rounding can tie two different numbers: 1.9 and its successor
    1.9000000000000001 both come out as 0.38 between 0.0 and 5.0. *)
Example min_max_normalize_tie :
  binary64.lit 19 10 <> SFsucc 53 1024 (binary64.lit 19 10)
  /\ binary64.min_max_normalize
       [binary64.of_Z 0; binary64.lit 19 10;
        SFsucc 53 1024 (binary64.lit 19 10); binary64.of_Z 5]
     = [S754_zero false; binary64.lit 38 100; binary64.lit 38 100;
        binary64.of_Z 1].
Proof. split; [vm_compute; discriminate|vm_compute; reflexivity]. Qed.


(** ** Fusion *)




End doubles.
